(** * slideflow: hyperparameters, training callback and manifest of [slideflow/model.py]

    A shallow embedding of the training/evaluation core of
    [src/source/slideflow/model.py]:

    - [HyperParameters] (constructor assertions, [validate], [model_type],
      [get_dict] / [load_dict]);
    - [_PredictionAndEvaluationCallback] ([on_train_batch_end], the
      moving-average early-stopping monitor; [on_epoch_end], checkpointing);
    - [Model._save_manifest] and the annotation lookup tables.

    Python objects are attribute dictionaries ([gmap string pyval]); Python
    exceptions are the [Raise] branch of a small error monad.  Python floats
    are idealised as exact rationals ([Q]): the claims verified here are
    about control flow and about which formula is applied, not about
    rounding. *)

From Stdlib Require Import ZArith QArith Lia Ascii String.
From stdpp Require Import gmap strings list fin_maps pretty.

Set Warnings "-register-all".

Local Open Scope Z_scope.
Local Open Scope string_scope.

(** ** Exceptions and the error monad *)

Inductive exn : Type :=
| AssertionError
| TypeError
| AttributeError
| KeyError
| ZeroDivisionError
| IndexError
| OSError
| HyperParameterError
| ModelError.

Inductive result (A : Type) : Type :=
| Ok (a : A)
| Raise (e : exn).
Arguments Ok {A} a.
Arguments Raise {A} e.

Definition bind {A B : Type} (m : result A) (k : A -> result B) : result B :=
  match m with
  | Ok a => k a
  | Raise e => Raise e
  end.

Notation "'let*' x ':=' m 'in' k" := (bind m (fun x => k))
  (at level 10, x pattern, m at level 100, k at level 200).

(** [assert c] *)
Definition assert (c : bool) : result unit :=
  if c then Ok tt else Raise AssertionError.

Definition raises {A : Type} (m : result A) : Prop :=
  exists e, m = Raise e.

(** ** Python values *)

Inductive pyval : Type :=
| PNone
| PBool (b : bool)
| PInt (n : Z)
| PFloat (q : Q)
| PStr (s : string)
| PList (l : list pyval)
| PMethod (name : string).

(** [isinstance(v, int)]: [bool] is a subclass of [int]. *)
Definition isinstance_int (v : pyval) : bool :=
  match v with PInt _ | PBool _ => true | _ => false end.

Definition isinstance_float (v : pyval) : bool :=
  match v with PFloat _ => true | _ => false end.

Definition isinstance_bool (v : pyval) : bool :=
  match v with PBool _ => true | _ => false end.

Definition isinstance_list (v : pyval) : bool :=
  match v with PList _ => true | _ => false end.

Definition isinstance_int_float (v : pyval) : bool :=
  isinstance_int v || isinstance_float v.

Definition isinstance_int_list (v : pyval) : bool :=
  isinstance_int v || isinstance_list v.

(** [v == s] for a string literal [s]. *)
Definition py_eq_str (v : pyval) (s : string) : bool :=
  match v with PStr t => bool_decide (t = s) | _ => false end.

(** [v in l] for a list [l] of string literals: membership by [==]. *)
Definition py_in_list (v : pyval) (l : list string) : bool :=
  existsb (py_eq_str v) l.

(** [v in d.keys()] for a dict with string keys: the lookup hashes [v], which
    raises [TypeError] for a list. *)
Definition py_in_keys (v : pyval) (keys : list string) : result bool :=
  match v with
  | PList _ => Raise TypeError
  | _ => Ok (py_in_list v keys)
  end.

(** The numeric value of an [int], [bool] or [float]. *)
Definition py_num (v : pyval) : option Q :=
  match v with
  | PInt n => Some (inject_Z n)
  | PBool b => Some (inject_Z (if b then 1 else 0))
  | PFloat q => Some q
  | _ => None
  end.

(** [0 <= v <= 1] *)
Definition py_in_unit (v : pyval) : result bool :=
  match py_num v with
  | Some q => Ok (Qle_bool 0 q && Qle_bool q 1)
  | None => Raise TypeError
  end.

(** [float(v)] *)
Definition py_float (v : pyval) : result pyval :=
  match py_num v with
  | Some q => Ok (PFloat q)
  | None => Raise TypeError
  end.

(** An instance is its attribute dictionary. *)
Abbreviation obj := (gmap string pyval).

(** [setattr(self, key, value)] *)
Definition setattr (self : obj) (kv : string * pyval) : obj :=
  <[kv.1 := kv.2]> self.

(** ** HyperParameters *)

Definition BALANCE_BY_CATEGORY : string := "BALANCE_BY_CATEGORY".
Definition BALANCE_BY_PATIENT : string := "BALANCE_BY_PATIENT".
Definition NO_BALANCE : string := "NO_BALANCE".

Module HyperParameters.

Definition _OptDict_keys : list string :=
  ["Adam"; "SGD"; "RMSprop"; "Adagrad"; "Adadelta"; "Adamax"; "Nadam"].

Definition _ModelDict_keys : list string :=
  ["Xception"; "VGG16"; "VGG19"; "ResNet50"; "ResNet101"; "ResNet152";
   "ResNet50V2"; "ResNet101V2"; "ResNet152V2"; "InceptionV3"; "NASNetLarge";
   "InceptionResNetV2"; "MobileNet"; "MobileNetV2"].

Definition _LinearLoss : list string :=
  ["mean_squared_error";
   "mean_absolute_error";
   "mean_absolute_percentage_error";
   "mean_squared_logarithmic_error";
   "squared_hinge";
   "hinge";
   "logcosh";
   "negative_log_likelihood"].

(** The source list has no comma after ['hinge'], so Python concatenates the
    two adjacent literals into one element. *)
Definition _AllLoss : list string :=
  ["mean_squared_error";
   "mean_absolute_error";
   "mean_absolute_percentage_error";
   "mean_squared_logarithmic_error";
   "squared_hinge";
   "hinge" ++ "categorical_hinge";
   "logcosh";
   "huber_loss";
   "categorical_crossentropy";
   "sparse_categorical_crossentropy";
   "binary_crossentropy";
   "kullback_leibler_divergence";
   "poisson";
   "cosine_proximity";
   "is_categorical_crossentropy";
   "negative_log_likelihood"].

(** The keyword arguments of [__init__]. *)
Record init_args : Type := {
  tile_px : pyval;
  tile_um : pyval;
  finetune_epochs : pyval;
  toplayer_epochs : pyval;
  model : pyval;
  pooling : pyval;
  loss : pyval;
  learning_rate : pyval;
  learning_rate_decay : pyval;
  learning_rate_decay_steps : pyval;
  batch_size : pyval;
  hidden_layers : pyval;
  hidden_layer_width : pyval;
  optimizer : pyval;
  early_stop : pyval;
  early_stop_patience : pyval;
  early_stop_method : pyval;
  balanced_training : pyval;
  balanced_validation : pyval;
  trainable_layers : pyval;
  L2_weight : pyval;
  dropout : pyval;
  augment : pyval;
  drop_images : pyval
}.

(** The defaults of the signature of [__init__]. *)
Definition defaults : init_args := {|
  tile_px := PInt 299;
  tile_um := PInt 302;
  finetune_epochs := PInt 10;
  toplayer_epochs := PInt 0;
  model := PStr "Xception";
  pooling := PStr "max";
  loss := PStr "sparse_categorical_crossentropy";
  learning_rate := PFloat (1 # 10000);
  learning_rate_decay := PInt 0;
  learning_rate_decay_steps := PInt 100000;
  batch_size := PInt 16;
  hidden_layers := PInt 1;
  hidden_layer_width := PInt 500;
  optimizer := PStr "Adam";
  early_stop := PBool false;
  early_stop_patience := PInt 0;
  early_stop_method := PStr "loss";
  balanced_training := PStr BALANCE_BY_CATEGORY;
  balanced_validation := PStr NO_BALANCE;
  trainable_layers := PInt 0;
  L2_weight := PInt 0;
  dropout := PInt 0;
  augment := PBool true;
  drop_images := PBool false
|}.

(** What the class itself defines; [object]'s own attributes all start with
    an underscore, like the first seven below. *)
Definition class_attrs : list string :=
  ["_AllLoss"; "_LinearLoss"; "_ModelDict"; "_OptDict"; "__init__"; "__str__";
   "_get_args"; "get_dict"; "get_model"; "get_opt"; "load_dict"; "model_type";
   "validate"].

(** [getattr(self, name)]: the instance dictionary first, then the class. *)
Definition getattr (self : obj) (name : string) : result pyval :=
  match self !! name with
  | Some v => Ok v
  | None =>
      if bool_decide (name ∈ class_attrs) then Ok (PMethod name)
      else Raise AttributeError
  end.

(** [dir(self)], up to order and repetition. *)
Definition dir (self : obj) : list string :=
  (map_to_list self).*1 ++ class_attrs.

(** [model_type], as a function of the value of [self.loss]. *)
Definition model_type_of_loss (l : pyval) : string :=
  if py_eq_str l "negative_log_likelihood" then "cph"
  else if py_in_list l _LinearLoss then "linear"
  else "categorical".

Definition model_type (self : obj) : result string :=
  let* l := getattr self "loss" in
  Ok (model_type_of_loss l).

Definition validate (self : obj) : result bool :=
  let* mt := model_type self in
  if negb (bool_decide (mt = "categorical")) then
    let* bt := getattr self "balanced_training" in
    if py_eq_str bt BALANCE_BY_CATEGORY then Raise HyperParameterError
    else
      let* bv := getattr self "balanced_validation" in
      if py_eq_str bv BALANCE_BY_CATEGORY then Raise HyperParameterError
      else Ok true
  else Ok true.

(** The block of assertions opening [__init__], in source order. *)
Definition check_args (a : init_args) : result unit :=
  let* _ := assert (isinstance_int (tile_px a)) in
  let* _ := assert (isinstance_int (tile_um a)) in
  let* _ := assert (isinstance_int (toplayer_epochs a)) in
  let* _ := assert (isinstance_int_list (finetune_epochs a)) in
  let* _ := match finetune_epochs a with
            | PList l => assert (forallb isinstance_int l)
            | _ => Ok tt
            end in
  let* m := py_in_keys (model a) _ModelDict_keys in
  let* _ := assert m in
  let* _ := assert (py_in_list (pooling a) ["max"; "avg"; "none"]) in
  let* _ := assert (py_in_list (loss a) _AllLoss) in
  let* _ := assert (isinstance_float (learning_rate a)) in
  let* _ := assert (isinstance_int_float (learning_rate_decay a)) in
  let* _ := assert (isinstance_int (learning_rate_decay_steps a)) in
  let* _ := assert (isinstance_int (batch_size a)) in
  let* _ := assert (isinstance_int (hidden_layers a)) in
  let* o := py_in_keys (optimizer a) _OptDict_keys in
  let* _ := assert o in
  let* _ := assert (isinstance_bool (early_stop a)) in
  let* _ := assert (isinstance_int (early_stop_patience a)) in
  let* _ := assert (py_in_list (early_stop_method a) ["loss"; "accuracy"]) in
  let* _ := assert (py_in_list (balanced_training a)
                      [BALANCE_BY_CATEGORY; BALANCE_BY_PATIENT; NO_BALANCE]) in
  let* _ := assert (isinstance_int (hidden_layer_width a)) in
  let* _ := assert (isinstance_int (trainable_layers a)) in
  let* _ := assert (isinstance_int_float (L2_weight a)) in
  let* _ := assert (isinstance_int_float (dropout a)) in
  let* _ := assert (isinstance_bool (augment a)) in
  let* _ := assert (isinstance_bool (drop_images a)) in
  let* d := py_in_unit (learning_rate_decay a) in
  let* _ := assert d in
  let* w := py_in_unit (L2_weight a) in
  let* _ := assert w in
  let* p := py_in_unit (dropout a) in
  assert p.

(** The attribute assignments of [__init__], in source order; [l2] is
    [float(L2_weight)]. *)
Definition assignments (a : init_args) (l2 : pyval) : list (string * pyval) :=
  [("tile_px", tile_px a);
   ("tile_um", tile_um a);
   ("toplayer_epochs", toplayer_epochs a);
   ("finetune_epochs", if isinstance_list (finetune_epochs a)
                       then finetune_epochs a
                       else PList [finetune_epochs a]);
   ("model", model a);
   ("pooling", if negb (py_eq_str (pooling a) "none") then pooling a else PNone);
   ("loss", loss a);
   ("learning_rate", learning_rate a);
   ("learning_rate_decay", learning_rate_decay a);
   ("learning_rate_decay_steps", learning_rate_decay_steps a);
   ("batch_size", batch_size a);
   ("optimizer", optimizer a);
   ("early_stop", early_stop a);
   ("early_stop_method", early_stop_method a);
   ("early_stop_patience", early_stop_patience a);
   ("hidden_layers", hidden_layers a);
   ("balanced_training", balanced_training a);
   ("balanced_validation", balanced_validation a);
   ("augment", augment a);
   ("hidden_layer_width", hidden_layer_width a);
   ("trainable_layers", trainable_layers a);
   ("L2_weight", l2);
   ("dropout", dropout a);
   ("drop_images", drop_images a)].

Definition assign_fields (a : init_args) : result obj :=
  let* l2 := py_float (L2_weight a) in
  Ok (foldl setattr ∅ (assignments a l2)).

(** The attributes [__init__] assigns. *)
Definition field_names : list string :=
  ["tile_px"; "tile_um"; "toplayer_epochs"; "finetune_epochs"; "model";
   "pooling"; "loss"; "learning_rate"; "learning_rate_decay";
   "learning_rate_decay_steps"; "batch_size"; "optimizer"; "early_stop";
   "early_stop_method"; "early_stop_patience"; "hidden_layers";
   "balanced_training"; "balanced_validation"; "augment"; "hidden_layer_width";
   "trainable_layers"; "L2_weight"; "dropout"; "drop_images"].

Definition __init__ (a : init_args) : result obj :=
  let* _ := check_args a in
  let* self := assign_fields a in
  let* _ := validate self in
  Ok self.

(** The names [_get_args] leaves out although they do not start with an
    underscore. *)
Definition method_names : list string :=
  ["get_opt"; "get_model"; "model_type"; "validate"; "get_dict"; "load_dict"].

(** The filter of [_get_args] on a non-empty name. *)
Definition is_arg (arg : string) : bool :=
  match arg with
  | EmptyString => false
  | String c _ =>
      negb (bool_decide (c = "_"%char)) && negb (bool_decide (arg ∈ method_names))
  end.

(** The list comprehension of [_get_args] over [names]; [arg[0]] raises
    [IndexError] on an empty name. *)
Fixpoint _get_args_of (names : list string) : result (list string) :=
  match names with
  | [] => Ok []
  | arg :: rest =>
      match arg with
      | EmptyString => Raise IndexError
      | String c _ =>
          let* r := _get_args_of rest in
          Ok (if is_arg arg then arg :: r else r)
      end
  end.

Definition _get_args (self : obj) : result (list string) :=
  _get_args_of (dir self).

(** The loop of [get_dict]: [d.update({arg: getattr(self, arg)})]. *)
Fixpoint get_dict_loop (self : obj) (args : list string) (d : obj) : result obj :=
  match args with
  | [] => Ok d
  | arg :: rest =>
      let* v := getattr self arg in
      get_dict_loop self rest (<[arg := v]> d)
  end.

Definition get_dict (self : obj) : result obj :=
  let* args := _get_args self in
  get_dict_loop self args ∅.

(** [load_dict]: [setattr(self, key, value)] for every item; [setattr] on a
    plain instance does not raise, so the [except] branch is dead. *)
Definition load_dict (self : obj) (hp_dict : obj) : obj :=
  foldl setattr self (map_to_list hp_dict).

(** *** Predicates used to state the constructor's contract *)

(** Category-level balancing, for training or validation, together with a
    loss whose model type is not categorical. *)
Definition category_balanced_noncategorical (a : init_args) : bool :=
  (py_eq_str (balanced_training a) BALANCE_BY_CATEGORY
   || py_eq_str (balanced_validation a) BALANCE_BY_CATEGORY)
  && negb (bool_decide (model_type_of_loss (loss a) = "categorical")).

(** The exceptions by which the assertions of [__init__] reject arguments. *)
Definition config_exn (e : exn) : Prop := e = AssertionError \/ e = TypeError.

(** A positive integer / a positive float. *)
Definition positive_int (v : pyval) : bool :=
  match v with
  | PInt n => (0 <? n)%Z
  | PBool b => b
  | _ => false
  end.

Definition positive_float (v : pyval) : bool :=
  match v with
  | PFloat q => negb (Qle_bool q 0)
  | _ => false
  end.

(** A number in the interval [[0, 1]]. *)
Definition in_unit_interval (v : pyval) : bool :=
  match py_num v with
  | Some q => Qle_bool 0 q && Qle_bool q 1
  | None => false
  end.

(** The defaults with some arguments replaced. *)
Definition with_args (px um lr loss_id bal_train bal_val pool epochs : pyval)
  : init_args := {|
  tile_px := px;
  tile_um := um;
  finetune_epochs := epochs;
  toplayer_epochs := toplayer_epochs defaults;
  model := model defaults;
  pooling := pool;
  loss := loss_id;
  learning_rate := lr;
  learning_rate_decay := learning_rate_decay defaults;
  learning_rate_decay_steps := learning_rate_decay_steps defaults;
  batch_size := batch_size defaults;
  hidden_layers := hidden_layers defaults;
  hidden_layer_width := hidden_layer_width defaults;
  optimizer := optimizer defaults;
  early_stop := early_stop defaults;
  early_stop_patience := early_stop_patience defaults;
  early_stop_method := early_stop_method defaults;
  balanced_training := bal_train;
  balanced_validation := bal_val;
  trainable_layers := trainable_layers defaults;
  L2_weight := L2_weight defaults;
  dropout := dropout defaults;
  augment := augment defaults;
  drop_images := drop_images defaults
|}.

End HyperParameters.

(** Argument sets used in the examples below. *)
Module HPExamples.
Import HyperParameters.

(** A survival model: [loss='negative_log_likelihood'], no balancing,
    [pooling='none'], checkpoints at epochs 1 and 3. *)
Definition cph_args : init_args :=
  with_args (PInt 299) (PInt 302) (PFloat (1 # 10000))
    (PStr "negative_log_likelihood") (PStr NO_BALANCE) (PStr NO_BALANCE)
    (PStr "none") (PList [PInt 1; PInt 3]).

(** A linear loss with the default category-level training balance. *)
Definition linear_balanced_args : init_args :=
  with_args (PInt 299) (PInt 302) (PFloat (1 # 10000))
    (PStr "mean_squared_error") (PStr BALANCE_BY_CATEGORY) (PStr NO_BALANCE)
    (PStr "max") (PInt 10).

(** [tile_px=0], [tile_um=-1], [learning_rate=-1.0], everything else default. *)
Definition nonpositive_args : init_args :=
  with_args (PInt 0) (PInt (-1)) (PFloat (-1))
    (PStr "sparse_categorical_crossentropy") (PStr BALANCE_BY_CATEGORY)
    (PStr NO_BALANCE) (PStr "max") (PInt 10).

(** [tile_px='299'], a string. *)
Definition string_tile_args : init_args :=
  with_args (PStr "299") (PInt 302) (PFloat (1 # 10000))
    (PStr "sparse_categorical_crossentropy") (PStr BALANCE_BY_CATEGORY)
    (PStr NO_BALANCE) (PStr "max") (PInt 10).

End HPExamples.

(** ** The prediction and evaluation callback *)

(** Dictionaries of metrics ([logs], the result of [model.evaluate]). *)
Abbreviation metrics := (gmap string Q).

(** [d[key]] *)
Definition getitem (d : metrics) (key : string) : result Q :=
  match d !! key with
  | Some v => Ok v
  | None => Raise KeyError
  end.

(** [a > b] on numbers. *)
Definition Qgt_bool (a b : Q) : bool := negb (Qle_bool a b).

(** [sum(l)]: left to right, from [0]. *)
Definition py_sum (l : list Q) : Q := fold_left Qplus l 0%Q.

(** The marker [-1] of an EMA, or snapshot, not yet taken: [x == -1]. *)
Definition unset (x : Q) : bool := Qeq_bool x (-1)%Q.

Fixpoint ends_with_slash (s : string) : bool :=
  match s with
  | EmptyString => false
  | String c EmptyString => bool_decide (c = "/"%char)
  | String _ rest => ends_with_slash rest
  end.

Fixpoint last_char (s : string) : option ascii :=
  match s with
  | EmptyString => None
  | String c EmptyString => Some c
  | String _ rest => last_char rest
  end.

(** [os.path.join(a, b)] on POSIX paths. *)
Definition path_join (a b : string) : string :=
  match b with
  | String "/" _ => b
  | _ =>
      if bool_decide (a = "") then b
      else if ends_with_slash a then a ++ b
      else a ++ "/" ++ b
  end.

(** [p[:i]] for [i = p.rfind('/') + 1]; [None] when [p] has no slash. *)
Fixpoint up_to_last_slash (p : string) : option string :=
  match p with
  | EmptyString => None
  | String c rest =>
      match up_to_last_slash rest with
      | Some h => Some (String c h)
      | None => if bool_decide (c = "/"%char) then Some (String c EmptyString)
                else None
      end
  end.

Fixpoint all_slashes (s : string) : bool :=
  match s with
  | EmptyString => true
  | String c rest => bool_decide (c = "/"%char) && all_slashes rest
  end.

(** [s.rstrip('/')] *)
Fixpoint rstrip_slashes (s : string) : string :=
  match s with
  | EmptyString => EmptyString
  | String c rest =>
      match rstrip_slashes rest with
      | EmptyString => if bool_decide (c = "/"%char) then EmptyString
                       else String c EmptyString
      | r => String c r
      end
  end.

(** [os.path.dirname(p)] on POSIX paths. *)
Definition dirname (p : string) : string :=
  match up_to_last_slash p with
  | None => ""
  | Some head => if all_slashes head then head else rstrip_slashes head
  end.

(** A file of the output directory: its content, or a file that cannot be
    read. *)
Inductive file : Type :=
| Regular (content : string)
| Unreadable.

Abbreviation file_system := (gmap string file).

(** The content of the file at [path], when there is one to read. *)
Definition readable (fs : file_system) (path : string) : option string :=
  match fs !! path with
  | Some (Regular content) => Some content
  | _ => None
  end.

(** [shutil.copy(src, dst)] to a file path: fails when [src] does not exist
    or cannot be read. *)
Definition shutil_copy (src dst : string) (fs : file_system)
  : result file_system :=
  match readable fs src with
  | Some content => Ok (<[dst := Regular content]> fs)
  | None => Raise OSError
  end.

Module Callback.

Local Open Scope Z_scope.

(** The hyperparameters the callback reads, with the types the assertions of
    [HyperParameters.__init__] give them; [hp_loss] determines
    [hp.model_type()]. *)
Record hparams : Type := {
  hp_early_stop : bool;
  hp_early_stop_method : string;
  hp_early_stop_patience : Z;
  hp_finetune_epochs : list Z;
  hp_loss : string
}.

Definition hp_model_type (hp : hparams) : string :=
  HyperParameters.model_type_of_loss (PStr (hp_loss hp)).

(** The integer an [int] or [bool] stands for. *)
Definition py_int (v : pyval) : option Z :=
  match v with
  | PInt n => Some n
  | PBool b => Some (if b then 1 else 0)
  | _ => None
  end.

(** The hyperparameters of the callback read off an instance of
    [HyperParameters]. *)
Definition view (self : obj) : option hparams :=
  match self !! "early_stop", self !! "early_stop_method",
        self !! "early_stop_patience", self !! "finetune_epochs",
        self !! "loss" with
  | Some (PBool stop), Some (PStr method), Some patience, Some (PList epochs),
    Some (PStr loss_id) =>
      match py_int patience, mapM py_int epochs with
      | Some patience, Some epochs =>
          Some {| hp_early_stop := stop;
                  hp_early_stop_method := method;
                  hp_early_stop_patience := patience;
                  hp_finetune_epochs := epochs;
                  hp_loss := loss_id |}
      | _, _ => None
      end
  | _, _, _, _, _ => None
  end.

(** The fields of [cb_args] that steer the callback. *)
Record cb_args : Type := {
  starting_epoch : Z;
  using_validation : bool;
  validate_on_batch : Z;
  ema_observations : Z;
  ema_smoothing : Z;
  steps_per_epoch : Z;
  skip_metrics : bool
}.

(** [parent.name] and [parent.outdir]. *)
Record parent : Type := {
  name : option string;
  outdir : string
}.

(** Tile-, slide- and patient-level value of one metric, as returned by
    [sf.statistics.metrics_from_dataset]; [None] tile value means the metric
    is skipped. *)
Record breakdown : Type := {
  tile : option Q;
  slide : option Q;
  patient : option Q
}.

(** One entry of [results['epochs']]. *)
Record epoch_result : Type := {
  train_metrics : metrics;
  val_metrics : metrics;
  tile_slide_patient : option (option Q * option Q * option Q)
}.

(** What the smoothing step appends to the batch log message. *)
Inductive smoothing : Type :=
| Raw
| SMA (value : Q)
| EMA (value : Q).

(** Observable effects of the callbacks, in order. *)
Inductive event : Type :=
| LogBatch (batch : Z) (train_loss val_loss : Q) (s : smoothing)
| LogEarlyStop (epoch batch : Z)
| LogCopyWarning
| LogModelSaved (model_path : string)
| MetricsFromDataset (label : string)
| LogValidationMetrics (m : metrics)
| UpdateResultsLog (label : string) (r : epoch_result).

(** The callback instance, [model.stop_training], the file system below
    [outdir] and the effects so far. *)
Record state : Type := {
  early_stop : bool;
  last_ema : Q;
  moving_average : list Q;
  ema_two_checks_prior : Q;
  ema_one_check_prior : Q;
  epoch_count : Z;
  results : gmap string epoch_result;
  stop_training : bool;
  files : file_system;
  trace : list event
}.

(** [_PredictionAndEvaluationCallback.__init__], on a given file system. *)
Definition init (args : cb_args) (fs : file_system) : state := {|
  early_stop := false;
  last_ema := (-1)%Q;
  moving_average := [];
  ema_two_checks_prior := (-1)%Q;
  ema_one_check_prior := (-1)%Q;
  epoch_count := starting_epoch args;
  results := ∅;
  stop_training := false;
  files := fs;
  trace := []
|}.

Definition set_stop_training (b : bool) (st : state) : state := {|
  early_stop := early_stop st; last_ema := last_ema st;
  moving_average := moving_average st;
  ema_two_checks_prior := ema_two_checks_prior st;
  ema_one_check_prior := ema_one_check_prior st;
  epoch_count := epoch_count st; results := results st;
  stop_training := b; files := files st; trace := trace st |}.

Definition set_moving_average (l : list Q) (st : state) : state := {|
  early_stop := early_stop st; last_ema := last_ema st;
  moving_average := l;
  ema_two_checks_prior := ema_two_checks_prior st;
  ema_one_check_prior := ema_one_check_prior st;
  epoch_count := epoch_count st; results := results st;
  stop_training := stop_training st; files := files st; trace := trace st |}.

Definition set_last_ema (x : Q) (st : state) : state := {|
  early_stop := early_stop st; last_ema := x;
  moving_average := moving_average st;
  ema_two_checks_prior := ema_two_checks_prior st;
  ema_one_check_prior := ema_one_check_prior st;
  epoch_count := epoch_count st; results := results st;
  stop_training := stop_training st; files := files st; trace := trace st |}.

Definition set_early_stop (b : bool) (st : state) : state := {|
  early_stop := b; last_ema := last_ema st;
  moving_average := moving_average st;
  ema_two_checks_prior := ema_two_checks_prior st;
  ema_one_check_prior := ema_one_check_prior st;
  epoch_count := epoch_count st; results := results st;
  stop_training := stop_training st; files := files st; trace := trace st |}.

Definition set_snapshots (two one : Q) (st : state) : state := {|
  early_stop := early_stop st; last_ema := last_ema st;
  moving_average := moving_average st;
  ema_two_checks_prior := two;
  ema_one_check_prior := one;
  epoch_count := epoch_count st; results := results st;
  stop_training := stop_training st; files := files st; trace := trace st |}.

Definition set_epoch_count (n : Z) (st : state) : state := {|
  early_stop := early_stop st; last_ema := last_ema st;
  moving_average := moving_average st;
  ema_two_checks_prior := ema_two_checks_prior st;
  ema_one_check_prior := ema_one_check_prior st;
  epoch_count := n; results := results st;
  stop_training := stop_training st; files := files st; trace := trace st |}.

Definition set_results (r : gmap string epoch_result) (st : state) : state := {|
  early_stop := early_stop st; last_ema := last_ema st;
  moving_average := moving_average st;
  ema_two_checks_prior := ema_two_checks_prior st;
  ema_one_check_prior := ema_one_check_prior st;
  epoch_count := epoch_count st; results := r;
  stop_training := stop_training st; files := files st; trace := trace st |}.

Definition set_files (fs : file_system) (st : state) : state := {|
  early_stop := early_stop st; last_ema := last_ema st;
  moving_average := moving_average st;
  ema_two_checks_prior := ema_two_checks_prior st;
  ema_one_check_prior := ema_one_check_prior st;
  epoch_count := epoch_count st; results := results st;
  stop_training := stop_training st; files := fs; trace := trace st |}.

(** Append one effect to the trace ([log.info], [log.warning], a call). *)
Definition emit (e : event) (st : state) : state := {|
  early_stop := early_stop st; last_ema := last_ema st;
  moving_average := moving_average st;
  ema_two_checks_prior := ema_two_checks_prior st;
  ema_one_check_prior := ema_one_check_prior st;
  epoch_count := epoch_count st; results := results st;
  stop_training := stop_training st; files := files st;
  trace := trace st ++ [e] |}.

Section Run.

Variable hp : hparams.
Variable args : cb_args.
Variable par : parent.

(** [self.model_type != 'categorical' and self.hp.early_stop_method == 'accuracy'] *)
Definition invalid_metric : bool :=
  negb (bool_decide (hp_model_type hp = "categorical"))
  && bool_decide (hp_early_stop_method hp = "accuracy").

(** The condition opening [on_train_batch_end]: a validation check is due. *)
Definition check_due (batch : Z) : bool :=
  using_validation args
  && negb (validate_on_batch args =? 0)
  && (0 <? batch)
  && (batch mod validate_on_batch args =? 0).

(** The monitored value chosen from the validation metrics. *)
Definition early_stop_value_of (val_metrics : metrics) (val_loss : Q) : Q :=
  if bool_decide (hp_early_stop_method hp = "accuracy") then
    match val_metrics !! "val_accuracy" with
    | Some acc => acc
    | None => val_loss
    end
  else val_loss.

(** [ema_smoothing / (1 + ema_observations)] *)
Definition ema_weight : Q :=
  (inject_Z (ema_smoothing args) / inject_Z (1 + ema_observations args))%Q.

(** The moving-average step (source lines 353-366), after the new value has
    been appended to the window. *)
Definition smooth (batch : Z) (train_loss val_loss early_stop_value : Q)
    (st : state) : result state :=
  if Z.of_nat (length (moving_average st)) <=? ema_observations args then
    Ok (emit (LogBatch batch train_loss val_loss Raw) st)
  else
    let* window := match moving_average st with
                   | [] => Raise IndexError
                   | _ :: rest => Ok rest
                   end in
    let st := set_moving_average window st in
    if unset (last_ema st) then
      if bool_decide (length window = 0%nat) then Raise ZeroDivisionError
      else
        let sma := (py_sum window / inject_Z (Z.of_nat (length window)))%Q in
        Ok (emit (LogBatch batch train_loss val_loss (SMA sma))
                 (set_last_ema sma st))
    else
      if 1 + ema_observations args =? 0 then Raise ZeroDivisionError
      else
        let ema := (early_stop_value * ema_weight
                    + last_ema st * (1 - ema_weight))%Q in
        Ok (emit (LogBatch batch train_loss val_loss (EMA ema))
                 (set_last_ema ema st)).

(** [float(batch)/steps_per_epoch + epoch_count] *)
Definition elapsed_epochs (batch : Z) (st : state) : Q :=
  (inject_Z batch / inject_Z (steps_per_epoch args)
   + inject_Z (epoch_count st))%Q.

(** The comparison with the snapshot of two checks before. *)
Definition not_improving (st : state) : bool :=
  negb (unset (ema_two_checks_prior st))
  && ((bool_decide (hp_early_stop_method hp = "accuracy")
       && Qle_bool (last_ema st) (ema_two_checks_prior st))
      || (bool_decide (hp_early_stop_method hp = "loss")
          && Qle_bool (ema_two_checks_prior st) (last_ema st))).

(** The early-stopping step (source lines 368-383). *)
Definition check_early_stop (batch : Z) (st : state) : result state :=
  if hp_early_stop hp && negb (unset (last_ema st)) then
    if steps_per_epoch args =? 0 then Raise ZeroDivisionError
    else if Qgt_bool (elapsed_epochs batch st)
                     (inject_Z (hp_early_stop_patience hp)) then
      if not_improving st then
        Ok (set_early_stop true
             (set_stop_training true
               (emit (LogEarlyStop (epoch_count st + 1) batch) st)))
      else
        Ok (set_snapshots (ema_one_check_prior st) (last_ema st) st)
    else Ok st
  else Ok st.

(** The state once the check has reset [model.stop_training] and appended the
    monitored value to the window. *)
Definition observe (early_stop_value : Q) (st : state) : state :=
  let st := set_stop_training false st in
  set_moving_average (moving_average st ++ [early_stop_value]) st.

(** The condition under which [check_early_stop] sets the flag. *)
Definition fires (batch : Z) (st : state) : bool :=
  hp_early_stop hp && negb (unset (last_ema st))
  && Qgt_bool (elapsed_epochs batch st) (inject_Z (hp_early_stop_patience hp))
  && not_improving st.

Definition on_train_batch_end (batch : Z) (logs val_metrics : metrics)
    (st : state) : result state :=
  if check_due batch then
    let* val_loss := getitem val_metrics "loss" in
    let early_stop_value := early_stop_value_of val_metrics val_loss in
    let st := observe early_stop_value st in
    let* train_loss := getitem logs "loss" in
    if invalid_metric then
      Ok (emit (LogBatch batch train_loss val_loss Raw) st)
    else
      let* st := smooth batch train_loss val_loss early_stop_value st in
      check_early_stop batch st
  else Ok st.

(** What [evaluate_model] obtains from the model: the metric rollups of
    [sf.statistics.metrics_from_dataset] and the result of [model.evaluate]. *)
Record evaluation : Type := {
  ev_metrics : list (string * breakdown);
  ev_val_metrics : metrics
}.

(** The loop over [metrics] closing [evaluate_model]: the rollups of the last
    metric with a tile value are kept. *)
Definition rollups (ms : list (string * breakdown))
  : option (option Q * option Q * option Q) :=
  fold_left (fun acc m =>
               match tile (snd m) with
               | None => acc
               | Some _ => Some (tile (snd m), slide (snd m), patient (snd m))
               end) ms None.

(** The entry [evaluate_model] stores under [results['epochs']]. *)
Definition epoch_result_of (logs : metrics) (ev : evaluation) : epoch_result := {|
  train_metrics := logs;
  val_metrics := ev_val_metrics ev;
  tile_slide_patient :=
    if negb (skip_metrics args) then rollups (ev_metrics ev) else None
|}.

Definition evaluate_model (logs : metrics) (ev : evaluation) (st : state)
  : result state :=
  let epoch := epoch_count st in
  let epoch_label := "val_epoch" ++ pretty epoch in
  let st := if negb (skip_metrics args)
            then emit (MetricsFromDataset epoch_label) st else st in
  let st := emit (LogValidationMetrics (ev_val_metrics ev)) st in
  let r := epoch_result_of logs ev in
  let st := set_results (<["epoch" ++ pretty epoch := r]> (results st)) st in
  Ok (emit (UpdateResultsLog ("epoch" ++ pretty epoch) r) st).

(** [self.model.save(model_path)]: the directory [model_path] receives the
    serialized model [weights]. *)
Definition model_save (model_path weights : string) (st : state) : state :=
  set_files (<[path_join model_path "saved_model.pb" := Regular weights]>
               (files st)) st.

(** The body of the [try] of [on_epoch_end]: the state reached, and the
    exception that ended it, if any. *)
Definition copy_sidecars (model_path : string) (st : state)
  : state * option exn :=
  match shutil_copy (path_join (dirname model_path) "hyperparameters.json")
                    (path_join model_path "hyperparameters.json") (files st) with
  | Raise e => (st, Some e)
  | Ok fs1 =>
      match shutil_copy (path_join (dirname model_path) "slide_manifest.log")
                        (path_join model_path "slide_manifest.log") fs1 with
      | Raise e => (set_files fs1 st, Some e)
      | Ok fs2 => (set_files fs2 st, None)
      end
  end.

(** [parent.name if parent.name else 'trained_model'] *)
Definition model_name : string :=
  match name par with
  | Some n => if bool_decide (n = "") then "trained_model" else n
  | None => "trained_model"
  end.

Definition model_path_at (epoch : Z) : string :=
  path_join (outdir par) (model_name ++ "_epoch" ++ pretty epoch).

Definition on_epoch_end (logs : metrics) (ev : evaluation) (weights : string)
    (st : state) : result state :=
  let st := set_epoch_count (epoch_count st + 1) st in
  let* st :=
    if bool_decide (epoch_count st ∈ hp_finetune_epochs hp) then
      let model_path := model_path_at (epoch_count st) in
      let st := model_save model_path weights st in
      let st := match copy_sidecars model_path st with
                | (st, None) => st
                | (st, Some _) => emit LogCopyWarning st
                end in
      let st := emit (LogModelSaved model_path) st in
      if using_validation args then evaluate_model logs ev st else Ok st
    else if early_stop st then evaluate_model logs ev st
    else Ok st in
  Ok (set_stop_training (early_stop st) st).

(** *** The training loop

    [model.fit] belongs to the external framework; what matters here is its
    callback protocol: [on_train_batch_end] after every step with the index of
    the step in the epoch, [on_epoch_end] after every epoch, and both loops are
    left as soon as [model.stop_training] is set. *)

Record step_input : Type := {
  s_logs : metrics;
  s_val_metrics : metrics
}.

Record epoch_input : Type := {
  e_steps : list step_input;
  e_logs : metrics;
  e_eval : evaluation;
  e_weights : string
}.

Fixpoint run_steps (batch : Z) (steps : list step_input) (st : state)
  : result state :=
  match steps with
  | [] => Ok st
  | s :: rest =>
      let* st := on_train_batch_end batch (s_logs s) (s_val_metrics s) st in
      if stop_training st then Ok st else run_steps (batch + 1) rest st
  end.

Fixpoint fit (epochs : list epoch_input) (st : state) : result state :=
  match epochs with
  | [] => Ok st
  | e :: rest =>
      let* st := run_steps 0 (e_steps e) st in
      let* st := on_epoch_end (e_logs e) (e_eval e) (e_weights e) st in
      if stop_training st then Ok st else fit rest st
  end.

(** The number of early-stop triggers among the effects. *)
Definition is_trigger (e : event) : bool :=
  match e with LogEarlyStop _ _ => true | _ => false end.

Definition triggers (tr : list event) : nat :=
  length (List.filter is_trigger tr).

(** Effects of the smoothing and early-stopping steps, as opposed to those of
    checkpointing and evaluation. *)
Definition is_monitor_event (e : event) : bool :=
  match e with
  | LogBatch _ _ _ _ | LogEarlyStop _ _ => true
  | _ => false
  end.

(** A batch log line without smoothing. *)
Definition is_raw_log (e : event) : bool :=
  match e with
  | LogBatch _ _ _ Raw => true
  | _ => false
  end.


(** What a run with an undefined metric keeps true: the monitor is in its
    initial condition, and no effect of the monitor other than unsmoothed
    batch log lines has occurred. *)
Definition log_only (st : state) : Prop :=
  early_stop st = false /\ stop_training st = false /\
  last_ema st = (-1)%Q /\
  ema_two_checks_prior st = (-1)%Q /\ ema_one_check_prior st = (-1)%Q /\
  forallb (fun e => negb (is_monitor_event e) || is_raw_log e) (trace st) = true.

(** Any sequence of callback invocations. *)
Inductive call : Type :=
| TrainBatchEnd (batch : Z) (logs val_metrics : metrics)
| EpochEnd (logs : metrics) (ev : evaluation) (weights : string).

Definition invoke (c : call) (st : state) : result state :=
  match c with
  | TrainBatchEnd batch logs val_metrics =>
      on_train_batch_end batch logs val_metrics st
  | EpochEnd logs ev weights => on_epoch_end logs ev weights st
  end.

Fixpoint run (calls : list call) (st : state) : result state :=
  match calls with
  | [] => Ok st
  | c :: rest => let* st := invoke c st in run rest st
  end.

End Run.

End Callback.

(** ** The model: slide manifest and label lookup *)

Module Model.

Local Open Scope Z_scope.

(** One entry of the annotations dictionary; [outcome_label] is the slide's row
    of the [outcome_labels] array (one label per outcome). *)
Record annotation : Type := {
  submitter_id : string;
  outcome_label : list Z
}.

Abbreviation annotations := (gmap string annotation).

(** [self.slides = list(annotations.keys())] *)
Definition slides (ann : annotations) : list string := (map_to_list ann).*1.

(** [path.split('/')[-1]] *)
Fixpoint last_component (p : string) : string :=
  match p with
  | EmptyString => EmptyString
  | String c rest =>
      if bool_decide (c = "/"%char) then last_component rest
      else if bool_decide (String.index 0 "/" rest = None)
           then p else last_component rest
  end.

(** [s[:-10]] *)
Definition drop_last_10 (s : string) : string :=
  String.substring 0 (String.length s - 10) s.

(** [tfrecord.split('/')[-1][:-10]]: the file name without ['.tfrecords']. *)
Definition slide_of (tfrecord : string) : string :=
  drop_last_10 (last_component tfrecord).



(** Truth value of an optional list of paths ([None] and [[]] are false). *)
Definition nonempty (l : option (list string)) : bool :=
  match l with
  | Some (_ :: _) => true
  | _ => false
  end.



(** [annotations_tables[oi]]: a static hash table from slide to its label for
    outcome [oi], with default value [-1]. *)
Definition annotations_table (ann : annotations) (oi : nat) : gmap string Z :=
  omap (fun a => outcome_label a !! oi) ann.

(** [table.lookup(slide)] *)
Definition table_lookup (table : gmap string Z) (slide : string) : Z :=
  match table !! slide with
  | Some label => label
  | None => -1
  end.




End Model.

(** Inputs used in the examples. *)
Module ModelExamples.
Import Model.

Definition ann : annotations :=
  {[ "slideA" := {| submitter_id := "patient1"; outcome_label := [1] |} ]}.


End ModelExamples.


(** ** The early-stopping monitor as the specification words it

    The specification (section 4.5) describes the smoothing as a state
    machine [Accumulating -> Smoothing (SMA seed) -> Tracking (EMA)]: a FIFO
    window of the last [ema_observations] values; raw logging while the window
    has not exceeded that size; then one seeding of the average with the mean
    of the window, and the exponential update from then on.  Here the EMA is
    an option, so that "seeded" needs no marker value. *)
Module MonitorSpec.
Import Callback.

Local Open Scope Z_scope.











End MonitorSpec.

(** Inputs used in the examples of the early-stopping monitor. *)
Module MonitorExamples.
Import Callback.

Local Open Scope Z_scope.

(** Early stopping on the loss, no patience, one checkpoint at epoch 10. *)
Definition hp : hparams := {|
  hp_early_stop := true;
  hp_early_stop_method := "loss";
  hp_early_stop_patience := 0;
  hp_finetune_epochs := [10];
  hp_loss := "sparse_categorical_crossentropy"
|}.

(** A validation check after every batch, [ema_observations=5],
    [ema_smoothing=2]. *)
Definition args : cb_args := {|
  starting_epoch := 0;
  using_validation := true;
  validate_on_batch := 1;
  ema_observations := 5;
  ema_smoothing := 2;
  steps_per_epoch := 100;
  skip_metrics := false
|}.

Definition par : parent := {| name := Some "model"; outdir := "/out" |}.

Definition with_loss (l : Q) : metrics := {[ "loss" := l ]}.

(** Validation losses that improve, stay flat, then worsen. *)
Definition losses : list Q :=
  inject_Z <$> [10; 9; 8; 7; 6; 5; 4; 3; 3; 3; 3; 4; 5; 6].

(** The checks at batches [1], [2], ... with the given validation losses. *)
Fixpoint checks_from (batch : Z) (ls : list Q) : list call :=
  match ls with
  | [] => []
  | l :: rest =>
      TrainBatchEnd batch (with_loss 1) (with_loss l) :: checks_from (batch + 1) rest
  end.

(** One epoch: step [0] is no check, then one step per loss. *)
Definition epoch : epoch_input := {|
  e_steps := {| s_logs := with_loss 1; s_val_metrics := with_loss 0 |}
             :: ((fun l => {| s_logs := with_loss 1; s_val_metrics := with_loss l |})
                 <$> losses);
  e_logs := with_loss 1;
  e_eval := {| ev_metrics := []; ev_val_metrics := with_loss 5 |};
  e_weights := "weights"
|}.


(** Early stopping on accuracy with a linear loss. *)
Definition linear_hp : hparams := {|
  hp_early_stop := true;
  hp_early_stop_method := "accuracy";
  hp_early_stop_patience := 0;
  hp_finetune_epochs := [10];
  hp_loss := "mean_squared_error"
|}.

(** The same, resuming at epoch 9, so that the first epoch to end is the
    checkpoint epoch 10. *)
Definition resumed_args : cb_args := {|
  starting_epoch := 9;
  using_validation := true;
  validate_on_batch := 1;
  ema_observations := 5;
  ema_smoothing := 2;
  steps_per_epoch := 100;
  skip_metrics := false
|}.

(** An output directory holding both sidecar files, and one where the
    manifest is missing. *)
Definition run_dir : file_system :=
  {[ "/out/hyperparameters.json" := Regular "hp";
     "/out/slide_manifest.log" := Regular "manifest" ]}.

Definition run_dir_without_manifest : file_system :=
  {[ "/out/hyperparameters.json" := Regular "hp" ]}.

(** Both files are there, but the manifest cannot be read. *)
Definition run_dir_unreadable_manifest : file_system :=
  {[ "/out/hyperparameters.json" := Regular "hp";
     "/out/slide_manifest.log" := Unreadable ]}.

Definition evaluation_5 : evaluation :=
  {| ev_metrics := []; ev_val_metrics := with_loss 5 |}.


(** The state the training loop ends in, or the initial state if it raised. *)
Definition state_after_fit (fs : file_system)
    (epochs : list epoch_input) : state :=
  match fit hp args par epochs (init args fs) with
  | Ok st => st
  | Raise _ => init args fs
  end.

End MonitorExamples.

(** ** The optimizer, the layers of the image model *)

(** Truth value of a Python value ([if v], [not v]). *)
Definition py_truthy (v : pyval) : bool :=
  match v with
  | PNone => false
  | PBool b => b
  | PInt n => negb (n =? 0)%Z
  | PFloat q => negb (Qeq_bool q 0)
  | PStr s => negb (bool_decide (s = ""))
  | PList l => match l with [] => false | _ :: _ => true end
  | PMethod _ => true
  end.

(** [v == n] for an integer literal [n]: numbers compare by value, anything
    else is different. *)
Definition py_eq_int (v : pyval) (n : Z) : bool :=
  match py_num v with
  | Some q => Qeq_bool q (inject_Z n)
  | None => false
  end.

Module Optimizers.
Import HyperParameters.

(** The learning rate handed to the optimizer: a number, or the schedule
    [ExponentialDecay(initial, decay_steps=.., decay_rate=.., staircase=..)]. *)
Inductive learning_rate_arg : Type :=
| Constant (rate : pyval)
| ExponentialDecay (initial decay_steps decay_rate : pyval) (staircase : bool).

(** The call [self._OptDict[name](keyword=rate)]. *)
Record optimizer_call : Type := {
  opt_class : string;
  opt_keyword : string;
  opt_rate : learning_rate_arg
}.

(** [self._OptDict[v]] *)
Definition _OptDict_getitem (v : pyval) : result string :=
  let* known := py_in_keys v _OptDict_keys in
  match v with
  | PStr s => if known then Ok s else Raise KeyError
  | _ => Raise KeyError
  end.

Definition get_opt (self : obj) : result optimizer_call :=
  let* decay := getattr self "learning_rate_decay" in
  if negb (py_eq_int decay 0 || py_eq_int decay 1) then
    let* initial_learning_rate := getattr self "learning_rate" in
    let* decay_steps := getattr self "learning_rate_decay_steps" in
    let* decay_rate := getattr self "learning_rate_decay" in
    let* opt := getattr self "optimizer" in
    let* cls := _OptDict_getitem opt in
    Ok {| opt_class := cls; opt_keyword := "learning_rate";
          opt_rate := ExponentialDecay initial_learning_rate decay_steps
                        decay_rate true |}
  else
    let* opt := getattr self "optimizer" in
    let* cls := _OptDict_getitem opt in
    let* rate := getattr self "learning_rate" in
    Ok {| opt_class := cls; opt_keyword := "lr"; opt_rate := Constant rate |}.

End Optimizers.

Module Layers.
Import HyperParameters.

Local Open Scope Z_scope.

(** A layer of the base model, as far as freezing is concerned. *)
Record layer : Type := {
  layer_name : string;
  trainable : bool
}.

(** [layer.trainable = False] *)
Definition freeze (l : layer) : layer :=
  {| layer_name := layer_name l; trainable := false |}.

(** The number of elements of [l[:stop]] for a list of length [len]: a
    negative [stop] counts from the end, and the bound is clipped to the
    list. *)
Definition slice_stop (len stop : Z) : nat :=
  Z.to_nat (if stop <? 0 then Z.max 0 (stop + len) else Z.min stop len).

(** [_freeze_layers] on the layers of the base model. *)
Definition _freeze_layers (trainable_layers : Z) (layers : list layer)
  : list layer :=
  let freezeIndex := Z.of_nat (length layers) - (trainable_layers - 1) in
  let n := slice_stop (Z.of_nat (length layers)) freezeIndex in
  ((freeze <$> take n layers) ++ drop n layers)%list.

(** The step of [_build_bottom] that restricts training to a part of the
    base model: [if self.hp.trainable_layers != 0: ...]. *)
Definition freeze_base (trainable_layers : Z) (layers : list layer)
  : list layer :=
  if negb (trainable_layers =? 0) then _freeze_layers trainable_layers layers
  else layers.

Definition trainable_count (layers : list layer) : nat :=
  length (List.filter trainable layers).

(** The elements of the [Sequential] tile model of [_build_bottom]. *)
Inductive sequential_layer : Type :=
| TileInput
| BaseModel
| Flatten
| PostConvolution
| Dropout (rate : pyval).

(** The list [layers] that [_build_bottom] hands to [tf.keras.Sequential],
    when the base model comes from [hp.get_model]. *)
Definition sequential_layers (self : obj) : result (list sequential_layer) :=
  let layers := [TileInput; BaseModel] in
  let* pooling := getattr self "pooling" in
  let layers := if negb (py_truthy pooling) then (layers ++ [Flatten])%list
                else layers in
  let layers := (layers ++ [PostConvolution])%list in
  let* dropout := getattr self "dropout" in
  if py_truthy dropout then
    let* rate := getattr self "dropout" in
    Ok (layers ++ [Dropout rate])%list
  else Ok layers.

End Layers.

(** ** Model set-up: outcome names, slide-level input, class selection *)

Module Setup.
Import HyperParameters.

Local Open Scope Z_scope.

(** The argument [outcome_names]: [None], one name, or a list of names. *)
Inductive names_arg : Type :=
| NoNames
| OneName (s : string)
| Names (l : list string).

(** [not outcome_names] *)
Definition names_falsy (names : names_arg) : bool :=
  match names with
  | NoNames => true
  | OneName s => bool_decide (s = "")
  | Names l => match l with [] => true | _ :: _ => false end
  end.

(** [[f'Outcome {i}' for i in range(n)]] *)
Definition default_names (n : nat) : list string :=
  (fun i : nat => "Outcome " ++ pretty i) <$> seq 0 n.

(** The part of [Model.__init__] that settles [self.outcome_names], for
    [num_outcomes = outcome_labels.shape[1]]. *)
Definition outcome_names (names : names_arg) (num_outcomes : nat)
  : result (list string) :=
  let names := if names_falsy names then Names (default_names num_outcomes)
               else names in
  let names := match names with
               | Names l => l
               | OneName s => [s]
               | NoNames => []
               end in
  if negb (length names =? num_outcomes)%nat then Raise ModelError
  else Ok names.

(** [0 if not feature_sizes else sum(feature_sizes)] *)
Definition num_slide_features (feature_sizes : option (list Z)) : Z :=
  match feature_sizes with
  | None | Some [] => 0
  | Some l => foldl Z.add 0 l
  end.

(** Per slide, the value under the key ['input'] of its annotation, if any. *)
Abbreviation slide_inputs := (gmap string (option (list Q))).

Abbreviation feature_table := (gmap string (list Q)).

(** The dict comprehension [{slide: self.annotations[slide]['input'] ...}]
    inside [try ... except KeyError: raise ModelError]. *)
Fixpoint build_feature_table (items : list (string * option (list Q)))
    (table : feature_table) : result feature_table :=
  match items with
  | [] => Ok table
  | (slide, Some input) :: rest =>
      build_feature_table rest (<[slide := input]> table)
  | (_, None) :: _ => Raise ModelError
  end.

(** The loop that compares [len(self.slide_feature_table[slide])] with
    [self.num_slide_features]. *)
Fixpoint check_feature_lengths (features : Z) (slides : list string)
    (table : feature_table) : result unit :=
  match slides with
  | [] => Ok tt
  | slide :: rest =>
      match table !! slide with
      | None => Raise KeyError
      | Some input =>
          if negb (Z.of_nat (length input) =? features) then Raise ModelError
          else check_feature_lengths features rest table
      end
  end.

(** [CPHModel._setup_inputs]: the table is always built. *)
Definition _setup_inputs_cph (features : Z) (inputs : slide_inputs)
  : result feature_table :=
  let* table := build_feature_table (map_to_list inputs) ∅ in
  let* _ := check_feature_lengths features (map_to_list inputs).*1 table in
  Ok table.

(** [Model._setup_inputs]: nothing happens without slide-level features. *)
Definition _setup_inputs (features : Z) (inputs : slide_inputs)
  : result (option feature_table) :=
  if negb (features =? 0) then
    let* table := _setup_inputs_cph features inputs in
    Ok (Some table)
  else Ok None.

(** The slides all have an input, of the expected length. *)
Definition inputs_fit (features : Z) (inputs : slide_inputs) : Prop :=
  map_Forall (fun _ i => exists v : list Q,
                i = Some v /\ Z.of_nat (length v) = features) inputs.

(** The three model classes and their attribute [_model_type]. *)
Inductive model_class : Type :=
| ModelClass
| LinearModelClass
| CPHModelClass.


(** What the constructors settle before the lookup tables are built. *)
Record configured : Type := {
  cfg_outcome_names : list string;
  cfg_num_slide_features : Z;
  cfg_slide_feature_table : option feature_table
}.

(** [Model.__init__], [LinearModel.__init__] and [CPHModel.__init__], as far
    as outcome names and slide-level input go. *)
Definition init_model (c : model_class) (feature_sizes : option (list Z))
    (names : names_arg) (num_outcomes : nat) (inputs : slide_inputs)
  : result configured :=
  let features := num_slide_features feature_sizes in
  let* names := outcome_names names num_outcomes in
  let* table := match c with
                | CPHModelClass =>
                    let* t := _setup_inputs_cph features inputs in Ok (Some t)
                | _ => _setup_inputs features inputs
                end in
  let cfg := {| cfg_outcome_names := names;
                cfg_num_slide_features := features;
                cfg_slide_feature_table := table |} in
  match c with
  | CPHModelClass => if features =? 0 then Raise ModelError else Ok cfg
  | _ => Ok cfg
  end.


(** The label of [LinearModel._parse_tfrecord_labels] (and of [CPHModel]):
    one lookup per outcome. *)
Definition parse_labels (ann : Model.annotations) (num_classes : nat)
    (slide : string) : list Z :=
  (fun oi => Model.table_lookup (Model.annotations_table ann oi) slide)
    <$> seq 0 num_classes.

End Setup.

(** ** The parameters of [train] *)

From Stdlib Require Import Qround.

Module Train.

Local Open Scope Z_scope.

(** The exceptions of this part of [train]: those of [exn], and two more
    built-in ones. *)
Inductive train_exn : Type :=
| Builtin (e : exn)
| ValueError
| UnboundLocalError.

(** [max(l)]: [None] stands for the [ValueError] on an empty list. *)
Definition py_max (l : list Z) : option Z :=
  match l with
  | [] => None
  | x :: rest => Some (foldl Z.max x rest)
  end.

(** [round(q)]: the nearest integer, the even one of the two at a tie. *)
Definition py_round (q : Q) : Z :=
  let f := Qfloor q in
  match (q - inject_Z f ?= 1 # 2)%Q with
  | Lt => f
  | Gt => f + 1
  | Eq => if Z.even f then f else f + 1
  end.

(** The arguments of [train] that the parameters depend on. *)
Record train_args : Type := {
  val_tfrecords : option (list string);
  validate_on_batch : Z;
  starting_epoch : Z;
  ema_observations : Z;
  ema_smoothing : Z;
  steps_per_epoch_override : option Z;
  skip_metrics : bool
}.

(** The call [self.model.fit(..., steps_per_epoch=.., epochs=..,
    initial_epoch=.., callbacks=..)] closing [train]. *)
Record fit_call : Type := {
  steps_per_epoch : Z;
  epochs : Z;
  initial_epoch : Z;
  cb_args : Callback.cb_args
}.

(** [steps_per_epoch_override if steps_per_epoch_override else
    round(num_tiles/self.hp.batch_size)] *)
Definition steps_of (batch_size : Z) (override : option Z) (num_tiles : Z)
  : result Z :=
  match override with
  | Some n => if negb (n =? 0) then Ok n
              else if batch_size =? 0 then Raise ZeroDivisionError
              else Ok (py_round (inject_Z num_tiles / inject_Z batch_size))
  | None => if batch_size =? 0 then Raise ZeroDivisionError
            else Ok (py_round (inject_Z num_tiles / inject_Z batch_size))
  end.

(** The section [# Calculate parameters] of [train], up to the construction
    of [cb_args] (source lines 880-935).  [num_tiles] is what
    [sf.io.tfrecords.interleave] reports for the training shards.  The local
    variable [validation_data] is assigned only in the branch
    [if using_validation], and read when [cb_args] is built. *)
Definition parameters (hp : Callback.hparams) (toplayer_epochs batch_size : Z)
    (a : train_args) (num_tiles : Z) : train_exn + fit_call :=
  let using_validation := Model.nonempty (val_tfrecords a) in
  let validation_data := if using_validation then Some tt else None in
  match py_max (Callback.hp_finetune_epochs hp) with
  | None => inl ValueError
  | Some max_epoch =>
      let total_epochs := toplayer_epochs + (max_epoch - starting_epoch a) in
      match steps_of batch_size (steps_per_epoch_override a) num_tiles with
      | Raise e => inl (Builtin e)
      | Ok steps =>
          match validation_data with
          | None => inl UnboundLocalError
          | Some _ =>
              inr {| steps_per_epoch := steps;
                     epochs := total_epochs;
                     initial_epoch := toplayer_epochs;
                     cb_args := {|
                       Callback.starting_epoch := starting_epoch a;
                       Callback.using_validation := using_validation;
                       Callback.validate_on_batch := validate_on_batch a;
                       Callback.ema_observations := ema_observations a;
                       Callback.ema_smoothing := ema_smoothing a;
                       Callback.steps_per_epoch := steps;
                       Callback.skip_metrics := skip_metrics a |} |}
          end
      end
  end.

(** The number of epochs [model.fit] runs: those of
    [range(initial_epoch, epochs)]. *)
Definition epochs_run (c : fit_call) : nat :=
  Z.to_nat (epochs c - initial_epoch c).

End Train.

(** ** What a trace of the callback shows *)

Module Trace.
Import Callback.

(** The validation checks among the effects: one batch log line each. *)
Definition is_check (e : event) : bool :=
  match e with LogBatch _ _ _ _ => true | _ => false end.

Definition checks (tr : list event) : nat :=
  length (List.filter is_check tr).

(** The model directories written, in order. *)
Definition saved (tr : list event) : list string :=
  omap (fun e => match e with
                 | LogModelSaved model_path => Some model_path
                 | _ => None
                 end) tr.

(** The number of epochs ended, and of validation checks due, in a sequence
    of callback invocations. *)
Definition epoch_ends (calls : list call) : nat :=
  length (List.filter (fun c => match c with
                                | EpochEnd _ _ _ => true
                                | _ => false
                                end) calls).

Definition due_checks (args : cb_args) (calls : list call) : nat :=
  length (List.filter (fun c => match c with
                                | TrainBatchEnd batch _ _ => check_due args batch
                                | _ => false
                                end) calls).

(** How many validation checks must have been logged for the monitor to be
    in its present condition: the window holds no more values than checks
    were made; an EMA needs [ema_observations + 1] checks, the snapshot of
    two checks before one more, and a trigger one more again. *)
Definition enough_checks (args : cb_args) (st : state) : Prop :=
  let c := Z.of_nat (checks (trace st)) in
  let n := ema_observations args in
  (Z.of_nat (length (moving_average st)) <= c)%Z /\
  (unset (last_ema st) = false -> n + 1 <= c)%Z /\
  (unset (ema_one_check_prior st) = false -> n + 1 <= c)%Z /\
  (unset (ema_two_checks_prior st) = false -> n + 2 <= c)%Z /\
  (early_stop st = true -> n + 3 <= c)%Z.

End Trace.

(** ** Paths of shards *)

(** [ '/' in s ] *)
Fixpoint has_slash (s : string) : bool :=
  match s with
  | EmptyString => false
  | String c rest => bool_decide (c = "/"%char) || has_slash rest
  end.

(** Inputs used in the examples of the training loop. *)
Module RunExamples.
Import Callback.

(** No early stopping; checkpoints at epochs 1 and 3. *)
Definition no_stop_hp : hparams := {|
  hp_early_stop := false;
  hp_early_stop_method := "loss";
  hp_early_stop_patience := 0;
  hp_finetune_epochs := [1; 3];
  hp_loss := "sparse_categorical_crossentropy"
|}.

(** Early stopping on the loss, after a patience of five epochs. *)
Definition patient_hp : hparams := {|
  hp_early_stop := true;
  hp_early_stop_method := "loss";
  hp_early_stop_patience := 5;
  hp_finetune_epochs := [10];
  hp_loss := "sparse_categorical_crossentropy"
|}.

(** An epoch of three steps without any validation check in between. *)
Definition plain_epoch : epoch_input := {|
  e_steps := replicate 3 {| s_logs := ∅; s_val_metrics := ∅ |};
  e_logs := MonitorExamples.with_loss 1;
  e_eval := MonitorExamples.evaluation_5;
  e_weights := "weights"
|}.

(** [train(train_tfrecords, val_tfrecords, starting_epoch=..)] with the
    defaults of the signature and some validation shards. *)
Definition train_args (starting_epoch : Z) : Train.train_args := {|
  Train.val_tfrecords := Some ["/data/slideB.tfrecords"];
  Train.validate_on_batch := 512;
  Train.starting_epoch := starting_epoch;
  Train.ema_observations := 20;
  Train.ema_smoothing := 2;
  Train.steps_per_epoch_override := None;
  Train.skip_metrics := false
|}.

(** The same without validation shards. *)
Definition train_args_without_validation : Train.train_args := {|
  Train.val_tfrecords := Some [];
  Train.validate_on_batch := 512;
  Train.starting_epoch := 0;
  Train.ema_observations := 20;
  Train.ema_smoothing := 2;
  Train.steps_per_epoch_override := None;
  Train.skip_metrics := false
|}.

(** The call of [model.fit] that [train] makes when resuming after epoch 1,
    with 1600 tiles in batches of 16, and the state in which the training
    loop leaves the callback after the two epochs asked for (the initial
    state if anything raised). *)
Definition resumed_call : Train.fit_call :=
  match Train.parameters no_stop_hp 0 16 (train_args 1) 1600 with
  | inr c => c
  | inl _ => {| Train.steps_per_epoch := 0; Train.epochs := 0;
                Train.initial_epoch := 0;
                Train.cb_args := MonitorExamples.args |}
  end.

Definition state_after_training : state :=
  match fit no_stop_hp (Train.cb_args resumed_call) MonitorExamples.par
          [plain_epoch; plain_epoch]
          (init (Train.cb_args resumed_call) MonitorExamples.run_dir) with
  | Ok st => st
  | Raise _ => init (Train.cb_args resumed_call) MonitorExamples.run_dir
  end.

(** A window that can hold nothing, and a run without steps per epoch. *)
Definition no_window_args : cb_args := {|
  starting_epoch := 0;
  using_validation := true;
  validate_on_batch := 1;
  ema_observations := 0;
  ema_smoothing := 2;
  steps_per_epoch := 100;
  skip_metrics := false
|}.

Definition no_steps_args : cb_args := {|
  starting_epoch := 0;
  using_validation := true;
  validate_on_batch := 1;
  ema_observations := 1;
  ema_smoothing := 1;
  steps_per_epoch := 0;
  skip_metrics := false
|}.

(** The defaults of the constructor with [finetune_epochs=[]]. *)
Definition empty_epochs_args : HyperParameters.init_args :=
  HyperParameters.with_args (PInt 299) (PInt 302) (PFloat (1 # 10000))
    (PStr "sparse_categorical_crossentropy") (PStr BALANCE_BY_CATEGORY)
    (PStr NO_BALANCE) (PStr "max") (PList []).

(** Three base-model layers, all trainable. *)
Definition base_layers : list Layers.layer :=
  [ {| Layers.layer_name := "conv1"; Layers.trainable := true |};
    {| Layers.layer_name := "conv2"; Layers.trainable := true |};
    {| Layers.layer_name := "conv3"; Layers.trainable := true |} ].

End RunExamples.

(** * Properties of [HyperParameters] *)

Import HyperParameters.

(** *** The error monad *)
Lemma bind_Ok {A B : Type} (m : result A) (k : A -> result B) (b : B) :
  bind m k = Ok b -> exists a, m = Ok a /\ k a = Ok b.
Proof. destruct m as [a|e]; simpl; [eauto | discriminate]. Qed.

Lemma assert_Ok (c : bool) (u : unit) : assert c = Ok u -> c = true.
Proof. by destruct c. Qed.

Lemma Ok_inj {A : Type} (a b : A) : Ok a = Ok b -> a = b.
Proof. congruence. Qed.

Lemma py_in_list_str (s : string) (l : list string) :
  py_in_list (PStr s) l = bool_decide (s ∈ l).
Proof.
  unfold py_in_list.
  induction l as [|x l IH].
  - symmetry. apply bool_decide_eq_false_2. by intros ?%elem_of_nil.
  - cbn [existsb py_eq_str]. rewrite IH.
    destruct (bool_decide_reflect (s = x)) as [E|E],
      (bool_decide_reflect (s ∈ l)) as [E1|E1],
      (bool_decide_reflect (s ∈ x :: l)) as [E2|E2];
      simpl; try done; exfalso; rewrite elem_of_cons in E2; tauto.
Qed.

Lemma model_type_of_loss_str (l : string) :
  model_type_of_loss (PStr l) =
  if bool_decide (l = "negative_log_likelihood") then "cph"
  else if bool_decide (l ∈ _LinearLoss) then "linear" else "categorical".
Proof. unfold model_type_of_loss. cbn [py_eq_str]. by rewrite py_in_list_str. Qed.

(** *** The attribute dictionary built by [__init__] *)

Lemma setattrs_lookup (l : list (string * pyval)) (s : obj) (k : string) :
  NoDup l.*1 ->
  foldl setattr s l !! k =
  match (list_to_map l : obj) !! k with Some v => Some v | None => s !! k end.
Proof.
  revert s. induction l as [|[k0 v0] l IH]; intros s Hnd; simpl.
  - by rewrite lookup_empty.
  - apply NoDup_cons in Hnd as [Hk0 Hnd]. rewrite IH by done.
    unfold setattr; simpl.
    destruct (list_to_map l !! k) as [v|] eqn:Hl.
    + assert (k0 <> k).
      { intros ->. apply Hk0. apply list_elem_of_fmap.
        exists (k, v). split; [done|]. by apply elem_of_list_to_map_2. }
      by rewrite lookup_insert_ne, Hl.
    + destruct (decide (k0 = k)) as [->|Hne].
      * by rewrite !lookup_insert_eq.
      * by rewrite !lookup_insert_ne, Hl.
Qed.

Lemma setattrs_list_to_map (l : list (string * pyval)) :
  NoDup l.*1 -> foldl setattr ∅ l = list_to_map l.
Proof.
  intros Hnd. apply map_eq. intros k. rewrite setattrs_lookup by done.
  rewrite lookup_empty. by destruct (list_to_map l !! k).
Qed.

Lemma assignments_keys a l2 : (assignments a l2).*1 = field_names.
Proof. reflexivity. Qed.

Lemma assign_fields_names_ok : forallb is_arg field_names = true.
Proof. by vm_compute. Qed.

Lemma class_attrs_hidden : forallb (fun n => negb (is_arg n)) class_attrs = true.
Proof. by vm_compute. Qed.

Lemma field_names_NoDup : NoDup field_names.
Proof. apply (bool_decide_unpack (NoDup field_names)). by vm_compute. Qed.

Lemma assign_fields_Ok (a : init_args) (self : obj) :
  assign_fields a = Ok self ->
  exists l2, py_float (L2_weight a) = Ok l2 /\ self = list_to_map (assignments a l2).
Proof.
  unfold assign_fields. intros (l2 & Hl2 & Hs)%bind_Ok. exists l2. split; [done|].
  apply Ok_inj in Hs. rewrite <- Hs. apply setattrs_list_to_map.
  rewrite assignments_keys. apply field_names_NoDup.
Qed.

Lemma assign_fields_dom (a : init_args) (self : obj) (k : string) :
  assign_fields a = Ok self -> is_Some (self !! k) <-> k ∈ field_names.
Proof.
  intros (l2 & _ & ->)%assign_fields_Ok.
  rewrite <- elem_of_dom, dom_list_to_map_L, elem_of_list_to_set.
  by rewrite assignments_keys.
Qed.

Lemma assign_fields_lookup (a : init_args) (self : obj) (l2 : pyval) k v :
  py_float (L2_weight a) = Ok l2 ->
  assign_fields a = Ok self -> (k, v) ∈ assignments a l2 -> self !! k = Some v.
Proof.
  intros Hl2 (l2' & Hl2' & ->)%assign_fields_Ok Hin.
  rewrite Hl2 in Hl2'. apply Ok_inj in Hl2' as <-.
  apply elem_of_list_to_map_1; [|done].
  rewrite assignments_keys. apply field_names_NoDup.
Qed.

(** *** [get_dict] and [load_dict] *)

Lemma _get_args_of_spec (names : list string) :
  (forall n, n ∈ names -> n <> "") ->
  exists l, _get_args_of names = Ok l /\ forall k, k ∈ l <-> k ∈ names /\ is_arg k = true.
Proof.
  induction names as [|n names IH]; intros Hne.
  - exists []. split; [done|]. intros k. rewrite !elem_of_nil. tauto.
  - destruct IH as (l & Hl & Hspec).
    { intros m Hm. apply Hne. by right. }
    assert (n <> "") as Hn by (apply Hne; by left).
    destruct n as [|c n']; [done|].
    cbn [_get_args_of]. rewrite Hl. cbn [bind].
    eexists. split; [reflexivity|]. intros k.
    destruct (is_arg (String c n')) eqn:Hok.
    + rewrite !elem_of_cons, Hspec. split; [|tauto].
      intros [->|[? ?]]; [split; [by left | done] | split; [by right | done]].
    + rewrite elem_of_cons, Hspec. split; [tauto|].
      intros [[->|?] ?]; [congruence | done].
Qed.

Lemma get_dict_loop_spec (self : obj) (args : list string) (d : obj) :
  (forall k, k ∈ args -> is_Some (self !! k)) ->
  exists d', get_dict_loop self args d = Ok d' /\
    forall k, d' !! k = if bool_decide (k ∈ args) then self !! k else d !! k.
Proof.
  revert d. induction args as [|arg args IH]; intros d Hin.
  - exists d. split; [done|]. intros k.
    rewrite bool_decide_eq_false_2; [done | by intros ?%elem_of_nil].
  - destruct (Hin arg) as [v Hv]; [by left|].
    destruct (IH (<[arg := v]> d)) as (d' & Hd' & Hspec).
    { intros k Hk. apply Hin. by right. }
    exists d'. cbn [get_dict_loop]. unfold getattr. rewrite Hv. cbn [bind].
    split; [done|]. intros k. rewrite Hspec.
    destruct (bool_decide_reflect (k ∈ args)) as [E|E].
    + rewrite bool_decide_eq_true_2; [done | by right].
    + destruct (decide (k = arg)) as [->|Hne].
      * rewrite bool_decide_eq_true_2 by (by left).
        by rewrite lookup_insert_eq.
      * rewrite bool_decide_eq_false_2.
        -- by rewrite lookup_insert_ne.
        -- rewrite elem_of_cons. tauto.
Qed.

(** [get_dict] returns the instance attributes that pass the filter of
    [_get_args]. *)
Lemma get_dict_spec (self : obj) :
  (forall k, is_Some (self !! k) -> k <> "") ->
  exists d, get_dict self = Ok d /\
    forall k, d !! k = if is_arg k then self !! k else None.
Proof.
  intros Hne. unfold get_dict, _get_args.
  destruct (_get_args_of_spec (dir self)) as (args & Hargs & Hspec).
  { intros n [Hn|Hn]%elem_of_app.
    - apply Hne. apply list_elem_of_fmap in Hn as ([k v] & -> & Hkv).
      apply elem_of_map_to_list in Hkv. by eexists.
    - intros ->. apply (bool_decide_pack _) in Hn. by vm_compute in Hn. }
  rewrite Hargs. cbn [bind].
  assert (forall k, k ∈ args <-> is_Some (self !! k) /\ is_arg k = true) as Hargs'.
  { intros k. rewrite Hspec. unfold dir. rewrite elem_of_app. split.
    - intros [[Hk|Hk] Hok]; split; try done.
      + apply list_elem_of_fmap in Hk as ([k' v] & -> & Hkv).
        apply elem_of_map_to_list in Hkv. by eexists.
      + exfalso. pose proof class_attrs_hidden as Hh.
        rewrite forallb_forall in Hh. apply list_elem_of_In, Hh in Hk.
        rewrite Hok in Hk. done.
    - intros [[v Hv] Hok]. split; [|done]. left.
      apply list_elem_of_fmap. exists (k, v). split; [done|].
      by apply elem_of_map_to_list. }
  destruct (get_dict_loop_spec self args ∅) as (d & Hd & Hdspec).
  { intros k Hk. by apply Hargs'. }
  exists d. split; [done|]. intros k. rewrite Hdspec, lookup_empty.
  destruct (bool_decide_reflect (k ∈ args)) as [E|E].
  - apply Hargs' in E as [_ ->]. done.
  - destruct (is_arg k) eqn:Hok; [|done].
    destruct (self !! k) as [v|] eqn:Hv; [|done].
    exfalso. apply E, Hargs'. split; [by eexists | done].
Qed.

Lemma load_dict_union (self d : obj) : load_dict self d = d ∪ self.
Proof.
  unfold load_dict. apply map_eq. intros k.
  rewrite setattrs_lookup by apply NoDup_fst_map_to_list.
  rewrite list_to_map_to_list, lookup_union.
  destruct (d !! k), (self !! k); done.
Qed.

(** *** What the assertions of [__init__] establish *)

Lemma bind_Raise {A B : Type} (m : result A) (k : A -> result B) (e : exn) :
  bind m k = Raise e -> m = Raise e \/ exists a, m = Ok a /\ k a = Raise e.
Proof. destruct m as [a|e']; simpl; [eauto | intros [= ->]; by left]. Qed.

Lemma assert_Raise (c : bool) (e : exn) : assert c = Raise e -> config_exn e.
Proof. destruct c; [done | intros [= <-]; by left]. Qed.

Lemma py_in_keys_Raise v keys e : py_in_keys v keys = Raise e -> config_exn e.
Proof. destruct v; try done. intros [= <-]. by right. Qed.

Lemma py_in_unit_Raise v e : py_in_unit v = Raise e -> config_exn e.
Proof. unfold py_in_unit. destruct (py_num v); [done | intros [= <-]; by right]. Qed.

Lemma py_in_unit_Ok v b : py_in_unit v = Ok b -> in_unit_interval v = b.
Proof.
  unfold py_in_unit, in_unit_interval. destruct (py_num v); [|done].
  by intros [= <-].
Qed.

Lemma check_args_Raise (a : init_args) (e : exn) :
  check_args a = Raise e -> config_exn e.
Proof.
  unfold check_args. intros H.
  repeat (apply bind_Raise in H as [H | (? & _ & H)];
          [ first [ by eapply assert_Raise | by eapply py_in_keys_Raise
                  | by eapply py_in_unit_Raise
                  | destruct (finetune_epochs a); first [done | by eapply assert_Raise] ]
          | ]).
  by eapply assert_Raise.
Qed.

Lemma check_args_Ok (a : init_args) :
  check_args a = Ok tt ->
  isinstance_int (tile_px a) = true /\ isinstance_int (tile_um a) = true /\
  isinstance_float (learning_rate a) = true /\
  isinstance_int_float (L2_weight a) = true /\
  in_unit_interval (L2_weight a) = true /\ in_unit_interval (dropout a) = true.
Proof.
  unfold check_args. intros H.
  apply bind_Ok in H as (? & Hpx%assert_Ok & H).
  apply bind_Ok in H as (? & Hum%assert_Ok & H).
  do 3 apply bind_Ok in H as (? & _ & H).
  do 4 apply bind_Ok in H as (? & _ & H).
  apply bind_Ok in H as (? & Hlr%assert_Ok & H).
  do 12 apply bind_Ok in H as (? & _ & H).
  apply bind_Ok in H as (? & Hl2%assert_Ok & H).
  do 3 apply bind_Ok in H as (? & _ & H).
  do 2 apply bind_Ok in H as (? & _ & H).
  apply bind_Ok in H as (w & Hw%py_in_unit_Ok & H).
  apply bind_Ok in H as (? & ->%assert_Ok & H).
  apply bind_Ok in H as (p & Hp%py_in_unit_Ok & ->%assert_Ok).
  done.
Qed.

Lemma py_float_total v : isinstance_int_float v = true -> exists f, py_float v = Ok f.
Proof. destruct v; try done; unfold py_float; simpl; eauto. Qed.

Lemma check_args_assign (a : init_args) :
  check_args a = Ok tt -> exists self, assign_fields a = Ok self.
Proof.
  intros (_ & _ & _ & Hl2 & _)%check_args_Ok.
  apply py_float_total in Hl2 as [f Hf].
  unfold assign_fields. rewrite Hf. cbn [bind]. by eexists.
Qed.

Lemma assign_fields_loss a self :
  assign_fields a = Ok self -> self !! "loss" = Some (loss a).
Proof.
  intros H. destruct (assign_fields_Ok _ _ H) as (l2 & Hl2 & _).
  eapply assign_fields_lookup; [done..|].
  by apply (list_elem_of_lookup_2 _ 6%nat).
Qed.

Lemma assign_fields_balanced_training a self :
  assign_fields a = Ok self ->
  self !! "balanced_training" = Some (balanced_training a).
Proof.
  intros H. destruct (assign_fields_Ok _ _ H) as (l2 & Hl2 & _).
  eapply assign_fields_lookup; [done..|].
  by apply (list_elem_of_lookup_2 _ 16%nat).
Qed.

Lemma assign_fields_balanced_validation a self :
  assign_fields a = Ok self ->
  self !! "balanced_validation" = Some (balanced_validation a).
Proof.
  intros H. destruct (assign_fields_Ok _ _ H) as (l2 & Hl2 & _).
  eapply assign_fields_lookup; [done..|].
  by apply (list_elem_of_lookup_2 _ 17%nat).
Qed.

Lemma assign_fields_finetune_epochs a self :
  assign_fields a = Ok self ->
  self !! "finetune_epochs" =
    Some (if isinstance_list (finetune_epochs a) then finetune_epochs a
          else PList [finetune_epochs a]).
Proof.
  intros H. destruct (assign_fields_Ok _ _ H) as (l2 & Hl2 & _).
  eapply assign_fields_lookup; [done..|].
  by apply (list_elem_of_lookup_2 _ 3%nat).
Qed.

Lemma assign_fields_pooling a self :
  assign_fields a = Ok self ->
  self !! "pooling" =
    Some (if negb (py_eq_str (pooling a) "none") then pooling a else PNone).
Proof.
  intros H. destruct (assign_fields_Ok _ _ H) as (l2 & Hl2 & _).
  eapply assign_fields_lookup; [done..|].
  by apply (list_elem_of_lookup_2 _ 5%nat).
Qed.

(** [validate] on the instance [__init__] has just filled in. *)
Lemma validate_assigned a self :
  assign_fields a = Ok self ->
  validate self =
    if category_balanced_noncategorical a then Raise HyperParameterError
    else Ok true.
Proof.
  intros H. unfold validate, model_type, getattr, category_balanced_noncategorical.
  rewrite (assign_fields_loss _ _ H). cbn [bind].
  destruct (bool_decide (model_type_of_loss (loss a) = "categorical")); cbn [negb].
  - by rewrite andb_false_r.
  - rewrite (assign_fields_balanced_training _ _ H). cbn [bind].
    destruct (py_eq_str (balanced_training a) BALANCE_BY_CATEGORY); [done|].
    rewrite (assign_fields_balanced_validation _ _ H). cbn [bind].
    by destruct (py_eq_str (balanced_validation a) BALANCE_BY_CATEGORY).
Qed.

Lemma init_Ok_inv a self :
  __init__ a = Ok self ->
  check_args a = Ok tt /\ assign_fields a = Ok self /\
  category_balanced_noncategorical a = false.
Proof.
  unfold __init__. intros ([] & Hc & H)%bind_Ok.
  apply bind_Ok in H as (self' & Ha & H).
  apply bind_Ok in H as (b & Hv & H). apply Ok_inj in H as ->.
  rewrite (validate_assigned _ _ Ha) in Hv.
  by destruct (category_balanced_noncategorical a).
Qed.

Lemma init_succeeds a :
  check_args a = Ok tt -> category_balanced_noncategorical a = false ->
  exists self, __init__ a = Ok self.
Proof.
  intros Hc Hbad. destruct (check_args_assign _ Hc) as [self Hs].
  exists self. unfold __init__. rewrite Hc, Hs. cbn [bind].
  by rewrite (validate_assigned _ _ Hs), Hbad.
Qed.

(** ** The contract of [HyperParameters] *)

(** C3, as stated, fails: ['negative_log_likelihood'] is a member of
    [_LinearLoss], and yet [model_type()] does not return ['linear'] for
    hyperparameters built with that loss, because the survival test comes
    first. *)
Lemma model_type_linear_set_counterexample :
  ~ (forall (a : init_args) (self : obj) (l : string),
       __init__ a = Ok self -> loss a = PStr l -> l ∈ _LinearLoss ->
       model_type self = Ok "linear").
Proof.
  intros H.
  destruct (init_succeeds HPExamples.cph_args) as [self Hself];
    [by vm_compute..|].
  specialize (H HPExamples.cph_args self "negative_log_likelihood" Hself).
  assert (model_type self = Ok "cph") as Hcph.
  { apply init_Ok_inv in Hself as (_ & Hs & _).
    unfold model_type, getattr. by rewrite (assign_fields_loss _ _ Hs). }
  rewrite Hcph in H. discriminate H.
  - reflexivity.
  - apply (bool_decide_unpack _). by vm_compute.
Qed.

(** C3, amended: [model_type()] depends on the instance through its loss id
    only; it returns ['cph'] for ['negative_log_likelihood'], ['linear'] for
    every other member of [_LinearLoss], and ['categorical'] for every loss id
    outside [_LinearLoss]. *)
Theorem model_type_by_loss (self : obj) (l : string) :
  self !! "loss" = Some (PStr l) ->
  (l = "negative_log_likelihood" -> model_type self = Ok "cph") /\
  (l ∈ _LinearLoss -> l <> "negative_log_likelihood" ->
   model_type self = Ok "linear") /\
  (l ∉ _LinearLoss -> model_type self = Ok "categorical").
Proof.
  intros Hl. unfold model_type, getattr. rewrite Hl. cbn [bind].
  rewrite model_type_of_loss_str. repeat split.
  - intros ->. by rewrite bool_decide_eq_true_2.
  - intros Hin Hne. by rewrite bool_decide_eq_false_2, bool_decide_eq_true_2.
  - intros Hnin. rewrite (bool_decide_eq_false_2 (l ∈ _)) by done.
    rewrite bool_decide_eq_false_2; [done|].
    intros ->. apply Hnin. apply (bool_decide_unpack _). by vm_compute.
Qed.

Lemma model_type_by_loss_witness :
  model_type {["loss" := PStr "logcosh"]} = Ok "linear".
Proof.
  apply (model_type_by_loss {["loss" := PStr "logcosh"]} "logcosh").
  - by vm_compute.
  - apply (bool_decide_unpack _). by vm_compute.
  - discriminate.
Defined.

(** C4: whenever training or validation balancing is category-level and the
    loss id gives a non-categorical model type, constructing the
    hyperparameters raises: [HyperParameterError] from [validate] once the
    assertions on the arguments have passed, and the rejection of an
    assertion otherwise.  In every other case [validate] passes on the
    instance being built, and construction succeeds as soon as the assertions
    do. *)
Theorem category_balancing_validated (a : init_args) :
  (category_balanced_noncategorical a = true ->
   (exists e, __init__ a = Raise e /\ (e = HyperParameterError \/ config_exn e)) /\
   (check_args a = Ok tt -> __init__ a = Raise HyperParameterError)) /\
  (category_balanced_noncategorical a = false ->
   (forall self, assign_fields a = Ok self -> validate self = Ok true) /\
   (check_args a = Ok tt -> exists self, __init__ a = Ok self)).
Proof.
  split; intros Hbad.
  - assert (check_args a = Ok tt -> __init__ a = Raise HyperParameterError) as Hok.
    { intros Hc. destruct (check_args_assign _ Hc) as [self Hs].
      unfold __init__. rewrite Hc, Hs. cbn [bind].
      by rewrite (validate_assigned _ _ Hs), Hbad. }
    split; [|done].
    destruct (check_args a) as [[]|e] eqn:Hc.
    + exists HyperParameterError. split; [by apply Hok | by left].
    + exists e. split; [unfold __init__; by rewrite Hc|].
      right. by eapply check_args_Raise.
  - split.
    + intros self Hs. by rewrite (validate_assigned _ _ Hs), Hbad.
    + intros Hc. by apply init_succeeds.
Qed.

Lemma category_balancing_validated_witness :
  __init__ HPExamples.linear_balanced_args = Raise HyperParameterError /\
  exists self, __init__ HPExamples.cph_args = Ok self.
Proof.
  split.
  - apply (category_balancing_validated HPExamples.linear_balanced_args);
      by vm_compute.
  - apply (category_balancing_validated HPExamples.cph_args); by vm_compute.
Defined.

(** Every attribute of a freshly built instance is listed by [_get_args], so
    [get_dict] returns the whole attribute dictionary. *)
Lemma get_dict_constructed (a : init_args) (hp : obj) :
  __init__ a = Ok hp -> get_dict hp = Ok hp.
Proof.
  intros (_ & Hs & _)%init_Ok_inv.
  assert (forall k, is_Some (hp !! k) -> is_arg k = true) as Hargs.
  { intros k Hk. apply (assign_fields_dom _ _ _ Hs) in Hk.
    pose proof assign_fields_names_ok as Hok. rewrite forallb_forall in Hok.
    by apply Hok, list_elem_of_In. }
  destruct (get_dict_spec hp) as (d & Hd & Hspec).
  { intros k Hk ->. by apply Hargs in Hk. }
  rewrite Hd. f_equal. apply map_eq. intros k. rewrite Hspec.
  destruct (is_arg k) eqn:Hk; [done|].
  destruct (hp !! k) eqn:Hv; [|done].
  rewrite Hargs in Hk by (by eexists). done.
Qed.

(** C5: for hyperparameters [hp] built from valid arguments, loading
    [hp.get_dict()] with [load_dict] into any other validly built instance
    gives an instance with exactly the attributes of [hp]; serializing it
    again gives the same dictionary.  The canonicalized fields are part of
    the dictionary: [finetune_epochs] is stored as a list, and
    [pooling='none'] as [None]. *)
Theorem get_dict_load_dict_roundtrip (a a0 : init_args) (hp hp0 : obj) :
  __init__ a = Ok hp -> __init__ a0 = Ok hp0 ->
  exists d, get_dict hp = Ok d /\
    load_dict hp0 d = hp /\
    get_dict (load_dict hp0 d) = Ok d /\
    (forall k, k ∈ field_names -> is_Some (d !! k) /\ load_dict hp0 d !! k = hp !! k) /\
    (exists l, d !! "finetune_epochs" = Some (PList l)) /\
    (pooling a = PStr "none" -> d !! "pooling" = Some PNone).
Proof.
  intros Hhp Hhp0. exists hp.
  pose proof (get_dict_constructed _ _ Hhp) as Hd.
  destruct (init_Ok_inv _ _ Hhp) as (Hc & Hs & _).
  destruct (init_Ok_inv _ _ Hhp0) as (_ & Hs0 & _).
  assert (load_dict hp0 hp = hp) as Hload.
  { rewrite load_dict_union. apply map_eq. intros k. rewrite lookup_union.
    destruct (hp !! k) as [v|] eqn:Hv.
    - by destruct (hp0 !! k).
    - destruct (hp0 !! k) as [v0|] eqn:Hv0; [|done].
      assert (is_Some (hp !! k)) as [? ?]; [|congruence].
      apply (assign_fields_dom _ _ _ Hs), (assign_fields_dom _ _ _ Hs0).
      by eexists. }
  rewrite Hload. repeat split; try done.
  - by apply (assign_fields_dom _ _ _ Hs).
  - rewrite (assign_fields_finetune_epochs _ _ Hs).
    destruct (finetune_epochs a); cbn [isinstance_list]; by eexists.
  - intros Hp. rewrite (assign_fields_pooling _ _ Hs), Hp. done.
Qed.

Lemma get_dict_load_dict_roundtrip_witness :
  exists hp hp0 d,
    __init__ HPExamples.cph_args = Ok hp /\ __init__ defaults = Ok hp0 /\
    get_dict hp = Ok d /\ load_dict hp0 d = hp /\
    d !! "pooling" = Some PNone.
Proof.
  destruct (init_succeeds HPExamples.cph_args) as [hp Hhp]; [by vm_compute..|].
  destruct (init_succeeds defaults) as [hp0 Hhp0]; [by vm_compute..|].
  destruct (get_dict_load_dict_roundtrip _ _ hp hp0 Hhp Hhp0)
    as (d & Hd & Hload & _ & _ & _ & Hpool).
  exists hp, hp0, d. split; [exact Hhp|]. split; [exact Hhp0|].
  split; [exact Hd|]. split; [exact Hload|]. by apply Hpool.
Defined.

(** C6, as stated, fails: with [tile_px=0], [tile_um=-1] and
    [learning_rate=-1.0] (all other arguments at their defaults) the
    constructor returns an instance. *)
Lemma nonpositive_arguments_counterexample :
  ~ (forall a : init_args,
       positive_int (tile_px a) = false \/ positive_int (tile_um a) = false \/
       positive_float (learning_rate a) = false \/
       in_unit_interval (L2_weight a) = false \/
       in_unit_interval (dropout a) = false ->
       raises (__init__ a)).
Proof.
  intros H. destruct (H HPExamples.nonpositive_args) as [e He].
  - left. reflexivity.
  - destruct (init_succeeds HPExamples.nonpositive_args) as [self Hs];
      [by vm_compute..|].
    rewrite Hs in He. discriminate He.
Qed.

(** C6, amended: the constructor fails, by a failed assertion (or the
    [TypeError] of an unhashable [model] or [optimizer] met on the way),
    whenever [tile_px] or [tile_um] is not an integer, the learning rate is
    not a float, or the L2 weight or the dropout rate is not a number of
    [[0, 1]].  The sign of [tile_px], [tile_um] and [learning_rate] is not
    examined. *)
Theorem ill_typed_arguments_rejected (a : init_args) :
  isinstance_int (tile_px a) = false \/ isinstance_int (tile_um a) = false \/
  isinstance_float (learning_rate a) = false \/
  in_unit_interval (L2_weight a) = false \/
  in_unit_interval (dropout a) = false ->
  exists e, __init__ a = Raise e /\ config_exn e.
Proof.
  intros Hbad. destruct (check_args a) as [[]|e] eqn:Hc.
  - apply check_args_Ok in Hc as (Hpx & Hum & Hlr & _ & Hl2 & Hdo).
    destruct Hbad as [H|[H|[H|[H|H]]]]; congruence.
  - exists e. split; [|by eapply check_args_Raise].
    unfold __init__. by rewrite Hc.
Qed.

Lemma ill_typed_arguments_rejected_witness :
  exists e, __init__ HPExamples.string_tile_args = Raise e /\ config_exn e.
Proof.
  apply (ill_typed_arguments_rejected HPExamples.string_tile_args).
  left. reflexivity.
Defined.

(** * Properties of the callback *)

Section CallbackFacts.
Import Callback.

Variable hp : hparams.
Variable args : cb_args.
Variable par : parent.

Lemma getitem_Some (d : metrics) (key : string) :
  is_Some (d !! key) -> exists v, getitem d key = Ok v /\ d !! key = Some v.
Proof. intros [v Hv]. exists v. unfold getitem. by rewrite Hv. Qed.

Lemma on_train_batch_end_not_due batch logs vm st :
  check_due args batch = false -> on_train_batch_end hp args batch logs vm st = Ok st.
Proof. intros H. unfold on_train_batch_end. by rewrite H. Qed.

Lemma on_train_batch_end_due batch logs vm st vl tl :
  check_due args batch = true ->
  getitem vm "loss" = Ok vl -> getitem logs "loss" = Ok tl ->
  on_train_batch_end hp args batch logs vm st =
    let st1 := observe (early_stop_value_of hp vm vl) st in
    if invalid_metric hp then Ok (emit (LogBatch batch tl vl Raw) st1)
    else bind (smooth args batch tl vl (early_stop_value_of hp vm vl) st1)
              (check_early_stop hp args batch).
Proof.
  intros Hdue Hvl Htl. unfold on_train_batch_end.
  rewrite Hdue, Hvl. cbn [bind]. rewrite Htl. reflexivity.
Qed.

(** *** The smoothing step *)

(** The three outcomes of [smooth] on a window that has just received a
    value. *)
Lemma smooth_cases batch tl vl v st :
  0 < ema_observations args -> moving_average st <> [] ->
  (Z.of_nat (length (moving_average st)) <= ema_observations args /\
   smooth args batch tl vl v st = Ok (emit (LogBatch batch tl vl Raw) st)) \/
  (ema_observations args < Z.of_nat (length (moving_average st)) /\
   unset (last_ema st) = true /\
   let w := tail (moving_average st) in
   let sma := (py_sum w / inject_Z (Z.of_nat (length w)))%Q in
   smooth args batch tl vl v st =
     Ok (emit (LogBatch batch tl vl (SMA sma))
           (set_last_ema sma (set_moving_average w st)))) \/
  (ema_observations args < Z.of_nat (length (moving_average st)) /\
   unset (last_ema st) = false /\
   let w := tail (moving_average st) in
   let ema := (v * ema_weight args + last_ema st * (1 - ema_weight args))%Q in
   smooth args batch tl vl v st =
     Ok (emit (LogBatch batch tl vl (EMA ema))
           (set_last_ema ema (set_moving_average w st)))).
Proof.
  intros Hn Hne. unfold smooth.
  destruct (Z.leb_spec (Z.of_nat (length (moving_average st)))
              (ema_observations args)) as [Hle|Hgt].
  - left. done.
  - right. destruct (moving_average st) as [|x w] eqn:Hma; [done|].
    cbn [bind tail last_ema set_moving_average moving_average].
    destruct (unset (last_ema st)) eqn:Hu.
    + left. split; [done|]. split; [done|].
      rewrite bool_decide_eq_false_2; [done|].
      cbn [length] in Hgt. lia.
    + right. split; [done|]. split; [done|].
      destruct (Z.eqb_spec (1 + ema_observations args) 0) as [E|E]; [lia|done].
Qed.

(** *** The early-stopping step *)

Lemma check_early_stop_cases batch st :
  steps_per_epoch args <> 0 ->
  (fires hp args batch st = true /\
   check_early_stop hp args batch st =
     Ok (set_early_stop true (set_stop_training true
           (emit (LogEarlyStop (epoch_count st + 1) batch) st)))) \/
  (fires hp args batch st = false /\
   exists st', check_early_stop hp args batch st = Ok st' /\
     early_stop st' = early_stop st /\ stop_training st' = stop_training st /\
     last_ema st' = last_ema st /\ moving_average st' = moving_average st /\
     trace st' = trace st /\ epoch_count st' = epoch_count st /\
     files st' = files st /\ results st' = results st /\
     ((ema_two_checks_prior st' = ema_two_checks_prior st /\
       ema_one_check_prior st' = ema_one_check_prior st) \/
      (ema_two_checks_prior st' = ema_one_check_prior st /\
       ema_one_check_prior st' = last_ema st /\ unset (last_ema st) = false))).
Proof.
  intros Hs. unfold check_early_stop, fires.
  destruct (hp_early_stop hp && negb (unset (last_ema st))) eqn:Hg; cbn [andb].
  - destruct (Z.eqb_spec (steps_per_epoch args) 0) as [E|E]; [done|].
    apply andb_true_iff in Hg as [_ Hu%negb_true_iff].
    destruct (Qgt_bool _ _); cbn [andb].
    + destruct (not_improving hp st).
      * by left.
      * right. split; [done|]. eexists. split; [done|].
        repeat split; try done. right. done.
    + right. split; [done|]. eexists. split; [done|].
      repeat split; try done. by left.
  - right. split; [done|]. eexists. split; [done|].
    repeat split; try done. by left.
Qed.

End CallbackFacts.

Section MonitorFacts.
Import Callback.

Variable hp : hparams.
Variable args : cb_args.
Variable par : parent.

Hypothesis observations_positive : 0 < ema_observations args.
Hypothesis steps_nonzero : steps_per_epoch args <> 0.

(** [evaluate_model] and [on_epoch_end] never raise, leave the monitor alone
    and add no monitor effect. *)
Lemma evaluate_model_monitor logs ev st :
  exists st', evaluate_model args logs ev st = Ok st' /\
    early_stop st' = early_stop st /\ last_ema st' = last_ema st /\
    moving_average st' = moving_average st /\
    ema_two_checks_prior st' = ema_two_checks_prior st /\
    ema_one_check_prior st' = ema_one_check_prior st /\
    epoch_count st' = epoch_count st /\ files st' = files st /\
    exists evs : list event, trace st' = (trace st ++ evs)%list /\
      forallb (fun e => negb (is_monitor_event e)) evs = true.
Proof.
  unfold evaluate_model. cbv zeta.
  destruct (skip_metrics args); cbn [negb]; (eexists; split; [reflexivity|]);
    (split_and!; [done..|]); cbn [emit set_results trace].
  - eexists. rewrite <- app_assoc. split; [reflexivity|]. done.
  - eexists. rewrite <- !app_assoc. split; [reflexivity|]. done.
Qed.

Lemma copy_sidecars_monitor model_path st :
  let st' := (copy_sidecars model_path st).1 in
  early_stop st' = early_stop st /\ last_ema st' = last_ema st /\
  moving_average st' = moving_average st /\
  ema_two_checks_prior st' = ema_two_checks_prior st /\
  ema_one_check_prior st' = ema_one_check_prior st /\
  epoch_count st' = epoch_count st /\ trace st' = trace st.
Proof.
  unfold copy_sidecars.
  destruct (shutil_copy _ _ (files st)) as [fs1|e]; [|done].
  destruct (shutil_copy _ _ fs1) as [fs2|e]; done.
Qed.

Lemma on_epoch_end_monitor logs ev w st :
  exists st', on_epoch_end hp args par logs ev w st = Ok st' /\
    early_stop st' = early_stop st /\ last_ema st' = last_ema st /\
    moving_average st' = moving_average st /\
    ema_two_checks_prior st' = ema_two_checks_prior st /\
    ema_one_check_prior st' = ema_one_check_prior st /\
    epoch_count st' = epoch_count st + 1 /\
    stop_training st' = early_stop st /\
    exists evs : list event, trace st' = (trace st ++ evs)%list /\
      forallb (fun e => negb (is_monitor_event e)) evs = true.
Proof.
  unfold on_epoch_end.
  set (st0 := set_epoch_count (epoch_count st + 1) st).
  set (mp := model_path_at par (epoch_count st0)).
  destruct (bool_decide (epoch_count st0 ∈ hp_finetune_epochs hp)).
  - pose proof (copy_sidecars_monitor mp (model_save mp w st0))
      as (H1 & H2 & H3 & H4 & H5 & H6 & H7).
    destruct (copy_sidecars mp (model_save mp w st0)) as [st1 [e|]];
      cbn [fst] in *.
    + destruct (using_validation args).
      * destruct (evaluate_model_monitor logs ev
                    (emit (LogModelSaved mp) (emit LogCopyWarning st1)))
          as (st2 & -> & E1 & E2 & E3 & E4 & E5 & E6 & _ & evs & E7 & E8).
        cbn [bind]. eexists. split; [reflexivity|].
        cbn [set_stop_training early_stop last_ema moving_average
             ema_two_checks_prior ema_one_check_prior epoch_count
             stop_training trace].
        rewrite E1, E2, E3, E4, E5, E6, E7. cbn [emit early_stop last_ema
          moving_average ema_two_checks_prior ema_one_check_prior epoch_count
          trace].
        rewrite H1, H2, H3, H4, H5, H6, H7. split_and!; [done..|].
        exists ([LogCopyWarning; LogModelSaved mp] ++ evs)%list.
        split; [by rewrite <- !app_assoc|]. done.
      * cbn [bind]. eexists. split; [reflexivity|].
        cbn [set_stop_training emit early_stop last_ema moving_average
             ema_two_checks_prior ema_one_check_prior epoch_count
             stop_training trace].
        rewrite H1, H2, H3, H4, H5, H6, H7. split_and!; [done..|].
        exists [LogCopyWarning; LogModelSaved mp].
        split; [by rewrite <- !app_assoc|]. done.
    + destruct (using_validation args).
      * destruct (evaluate_model_monitor logs ev (emit (LogModelSaved mp) st1))
          as (st2 & -> & E1 & E2 & E3 & E4 & E5 & E6 & _ & evs & E7 & E8).
        cbn [bind]. eexists. split; [reflexivity|].
        cbn [set_stop_training early_stop last_ema moving_average
             ema_two_checks_prior ema_one_check_prior epoch_count
             stop_training trace].
        rewrite E1, E2, E3, E4, E5, E6, E7. cbn [emit early_stop last_ema
          moving_average ema_two_checks_prior ema_one_check_prior epoch_count
          trace].
        rewrite H1, H2, H3, H4, H5, H6, H7. split_and!; [done..|].
        exists ([LogModelSaved mp] ++ evs)%list.
        split; [by rewrite <- !app_assoc|]. done.
      * cbn [bind]. eexists. split; [reflexivity|].
        cbn [set_stop_training emit early_stop last_ema moving_average
             ema_two_checks_prior ema_one_check_prior epoch_count
             stop_training trace].
        rewrite H1, H2, H3, H4, H5, H6, H7. split_and!; [done..|].
        exists [LogModelSaved mp]. done.
  - destruct (early_stop st0) eqn:Hes.
    + destruct (evaluate_model_monitor logs ev st0)
        as (st2 & -> & E1 & E2 & E3 & E4 & E5 & E6 & _ & evs & E7 & E8).
      cbn [bind]. eexists. split; [reflexivity|].
      cbn [set_stop_training early_stop last_ema moving_average
           ema_two_checks_prior ema_one_check_prior epoch_count
           stop_training trace].
      rewrite E1, E2, E3, E4, E5, E6, E7. split_and!; [done..|]. by exists evs.
    + cbn [bind]. eexists. split; [reflexivity|]. split_and!; [done..|].
      exists []. by rewrite app_nil_r.
Qed.

(** *** The window invariant *)



Lemma Qgt_bool_iff (a b : Q) : Qgt_bool a b = true <-> (b < a)%Q.
Proof.
  unfold Qgt_bool. rewrite negb_true_iff, <- not_true_iff_false, Qle_bool_iff.
  split; [apply Qnot_le_lt | apply Qlt_not_le].
Qed.

(** [not_improving], spelled out. *)
Lemma not_improving_iff st :
  not_improving hp st = true <->
  unset (ema_two_checks_prior st) = false /\
  ((hp_early_stop_method hp = "accuracy" /\
    (last_ema st <= ema_two_checks_prior st)%Q) \/
   (hp_early_stop_method hp = "loss" /\
    (ema_two_checks_prior st <= last_ema st)%Q)).
Proof.
  unfold not_improving.
  rewrite andb_true_iff, negb_true_iff, orb_true_iff, !andb_true_iff.
  rewrite !bool_decide_eq_true, !Qle_bool_iff. done.
Qed.


(** A check with an undefined metric only logs. *)
Lemma log_only_step batch logs vm st :
  invalid_metric hp = true -> check_due args batch = true ->
  is_Some (vm !! "loss") -> is_Some (logs !! "loss") ->
  exists vl tl, vm !! "loss" = Some vl /\ logs !! "loss" = Some tl /\
    on_train_batch_end hp args batch logs vm st =
      Ok (emit (LogBatch batch tl vl Raw)
            (observe (early_stop_value_of hp vm vl) st)).
Proof.
  intros Hinvalid Hdue (vl & Hvl & Hvl')%getitem_Some
    (tl & Htl & Htl')%getitem_Some.
  exists vl, tl. split_and!; [done..|].
  rewrite (on_train_batch_end_due hp args batch logs vm st vl tl Hdue Hvl Htl).
  cbv zeta. by rewrite Hinvalid.
Qed.

Lemma on_train_batch_end_Ok_inv batch logs vm st st' :
  on_train_batch_end hp args batch logs vm st = Ok st' ->
  (check_due args batch = false /\ st' = st) \/
  (check_due args batch = true /\ is_Some (vm !! "loss") /\
   is_Some (logs !! "loss")).
Proof.
  unfold on_train_batch_end. destruct (check_due args batch).
  - intros H. right. split; [done|].
    unfold getitem in H.
    destruct (vm !! "loss"); [|done]. cbn [bind] in H.
    destruct (logs !! "loss"); [|done]. by split.
  - intros H%Ok_inj. by left.
Qed.

Lemma triggers_app (tr evs : list event) :
  triggers (tr ++ evs) = (triggers tr + triggers evs)%nat.
Proof. unfold triggers. by rewrite List.filter_app, length_app. Qed.

Lemma triggers_other (evs : list event) :
  forallb (fun e => negb (is_monitor_event e)) evs = true -> triggers evs = 0%nat.
Proof.
  unfold triggers. induction evs as [|e evs IH]; [done|].
  cbn [forallb List.filter]. intros [He Hevs]%andb_true_iff.
  destruct e; try done; cbn [is_trigger]; by apply IH.
Qed.



(** *** The training loop stops at the first trigger *)







End MonitorFacts.


(** ** A run whose metric is undefined *)

Section UndefinedMetric.
Import Callback.

Variable hp : hparams.
Variable args : cb_args.
Variable par : parent.

Hypothesis by_accuracy : hp_early_stop_method hp = "accuracy".
Hypothesis not_categorical : hp_model_type hp <> "categorical".

Lemma undefined_metric : invalid_metric hp = true.
Proof.
  unfold invalid_metric.
  rewrite (bool_decide_eq_false_2 _ not_categorical).
  by rewrite (bool_decide_eq_true_2 _ by_accuracy).
Qed.

Lemma log_only_init fs : log_only (init args fs).
Proof. by unfold log_only. Qed.

Lemma log_only_on_train_batch_end batch logs vm st st' :
  log_only st -> on_train_batch_end hp args batch logs vm st = Ok st' ->
  log_only st'.
Proof.
  intros Hlo Hc.
  destruct (on_train_batch_end_Ok_inv _ _ _ _ _ _ _ Hc)
    as [[_ ->]|(Hdue & Hvm & Hlogs)]; [done|].
  destruct (log_only_step hp args batch logs vm st undefined_metric Hdue Hvm Hlogs)
    as (vl & tl & _ & _ & Hstep).
  rewrite Hstep in Hc. apply Ok_inj in Hc as <-.
  destruct Hlo as (H1 & H2 & H3 & H4 & H5 & H6).
  unfold log_only.
  cbn [emit observe set_moving_average set_stop_training early_stop
       stop_training last_ema ema_two_checks_prior ema_one_check_prior trace].
  split_and!; [done..|].
  rewrite forallb_app, H6. done.
Qed.

Lemma log_only_on_epoch_end logs ev w st st' :
  log_only st -> on_epoch_end hp args par logs ev w st = Ok st' -> log_only st'.
Proof.
  intros (H1 & H2 & H3 & H4 & H5 & H6) Hc.
  destruct (on_epoch_end_monitor hp args par logs ev w st)
    as (st'' & Hstep & E1 & E2 & E3 & E4 & E5 & E6 & E7 & evs & E8 & E9).
  rewrite Hstep in Hc. apply Ok_inj in Hc as <-.
  unfold log_only. rewrite E1, E2, E4, E5, E7, E8. split_and!; [done..|].
  rewrite forallb_app, H6. cbn [andb].
  clear -E9. induction evs as [|e evs IH]; [done|].
  cbn [forallb] in *. apply andb_true_iff in E9 as [-> ?]. by apply IH.
Qed.

Lemma log_only_run calls st st' :
  log_only st -> run hp args par calls st = Ok st' -> log_only st'.
Proof.
  revert st. induction calls as [|c calls IH]; intros st Hlo Hrun.
  - cbn [run] in Hrun. by apply Ok_inj in Hrun as <-.
  - cbn [run] in Hrun. apply bind_Ok in Hrun as (st1 & Hc & Hrun).
    eapply IH; [|done]. destruct c; cbn [invoke] in Hc.
    + by eapply log_only_on_train_batch_end.
    + by eapply log_only_on_epoch_end.
Qed.

Lemma log_only_run_steps steps batch st st' :
  log_only st -> run_steps hp args batch steps st = Ok st' -> log_only st'.
Proof.
  revert batch st. induction steps as [|s steps IH]; intros batch st Hlo Hrun.
  - cbn [run_steps] in Hrun. by apply Ok_inj in Hrun as <-.
  - cbn [run_steps] in Hrun. apply bind_Ok in Hrun as (st1 & Hc & Hrun).
    pose proof (log_only_on_train_batch_end _ _ _ _ _ Hlo Hc) as Hlo1.
    destruct (stop_training st1).
    + by apply Ok_inj in Hrun as <-.
    + by eapply IH.
Qed.

Lemma log_only_fit epochs st st' :
  log_only st -> fit hp args par epochs st = Ok st' -> log_only st'.
Proof.
  revert st. induction epochs as [|e epochs IH]; intros st Hlo Hfit.
  - cbn [fit] in Hfit. by apply Ok_inj in Hfit as <-.
  - cbn [fit] in Hfit. apply bind_Ok in Hfit as (st1 & Hsteps & Hfit).
    apply bind_Ok in Hfit as (st2 & Hend & Hfit).
    pose proof (log_only_run_steps _ _ _ _ Hlo Hsteps) as Hlo1.
    pose proof (log_only_on_epoch_end _ _ _ _ _ Hlo1 Hend) as Hlo2.
    destruct (stop_training st2).
    + by apply Ok_inj in Hfit as <-.
    + by eapply IH.
Qed.

(** C10: when [early_stop_method] is ['accuracy'] and the model type is not
    categorical, every validation check only logs the validation result: the
    check appends one unsmoothed log line and leaves the EMA, the snapshots
    and the early-stop flag as they are.  Over a whole run, whatever the
    order of the callbacks, the EMA stays unset, the flag is never set, the
    model is never told to stop, and no early stop is logged; this is so
    under the training loop in particular. *)
Theorem undefined_metric_logs_only :
  (forall st batch logs vm,
     check_due args batch = true ->
     is_Some (vm !! "loss") -> is_Some (logs !! "loss") ->
     exists vl tl st',
       vm !! "loss" = Some vl /\ logs !! "loss" = Some tl /\
       on_train_batch_end hp args batch logs vm st = Ok st' /\
       trace st' = (trace st ++ [LogBatch batch tl vl Raw])%list /\
       last_ema st' = last_ema st /\ early_stop st' = early_stop st /\
       ema_two_checks_prior st' = ema_two_checks_prior st /\
       ema_one_check_prior st' = ema_one_check_prior st /\
       stop_training st' = false) /\
  (forall calls fs st,
     run hp args par calls (init args fs) = Ok st ->
     log_only st /\ triggers (trace st) = 0%nat) /\
  (forall epochs fs st,
     fit hp args par epochs (init args fs) = Ok st ->
     log_only st /\ triggers (trace st) = 0%nat).
Proof.
  assert (forall st, log_only st -> triggers (trace st) = 0%nat) as Hnone.
  { intros st (_ & _ & _ & _ & _ & H). unfold triggers.
    induction (trace st) as [|e tr IH]; [done|].
    cbn [forallb List.filter] in *. apply andb_true_iff in H as [He Htr].
    destruct e as [? ? ? []| | | | | |]; try done; cbn [is_trigger]; by apply IH. }
  split_and!.
  - intros st batch logs vm Hdue Hvm Hlogs.
    destruct (log_only_step hp args batch logs vm st undefined_metric Hdue Hvm Hlogs)
      as (vl & tl & Hvl & Htl & Hstep).
    exists vl, tl. eexists. split_and!; [done | done | exact Hstep | done..].
  - intros calls fs st Hrun.
    pose proof (log_only_run _ _ _ (log_only_init fs) Hrun) as Hlo.
    split; [done | by apply Hnone].
  - intros epochs fs st Hfit.
    pose proof (log_only_fit _ _ _ (log_only_init fs) Hfit) as Hlo.
    split; [done | by apply Hnone].
Qed.

End UndefinedMetric.

(** ** The smoothing step against the monitor of the specification *)

Section Smoothing.
Import Callback MonitorSpec.

Variable hp : hparams.
Variable args : cb_args.
Variable par : parent.

Hypothesis observations_positive : 0 < ema_observations args.
Hypothesis steps_nonzero : steps_per_epoch args <> 0.
Hypothesis metric_defined : invalid_metric hp = false.













End Smoothing.



(** ** Checkpoints at the end of an epoch *)

Section Checkpoints.
Import Callback.

Variable hp : hparams.
Variable args : cb_args.
Variable par : parent.

Lemma last_char_app (a b : string) :
  b <> "" -> last_char (a ++ b) = last_char b.
Proof.
  intros Hb. induction a as [|c a IH]; [done|].
  change (String c a ++ b) with (String c (a ++ b)).
  destruct (a ++ b) as [|c' s] eqn:E.
  - destruct a; cbn in E; [by subst | discriminate].
  - rewrite <- IH. reflexivity.
Qed.

Lemma last_char_path_join (a b : string) :
  b <> "" -> last_char (path_join a b) = last_char b.
Proof.
  intros Hb. unfold path_join.
  assert (last_char (if bool_decide (a = "") then b
                     else if ends_with_slash a then a ++ b
                          else a ++ "/" ++ b) = last_char b) as H.
  { destruct (bool_decide (a = "")); [done|].
    destruct (ends_with_slash a); [by apply last_char_app|].
    rewrite last_char_app; [by apply (last_char_app "/")|].
    by destruct b. }
  destruct b as [|c b]; [done|].
  destruct c as [[] [] [] [] [] [] [] []]; try exact H. done.
Qed.

Lemma path_join_ne (a a' f f' : string) :
  f <> "" -> f' <> "" -> last_char f <> last_char f' ->
  path_join a f <> path_join a' f'.
Proof.
  intros Hf Hf' Hne E. apply Hne.
  by rewrite <- (last_char_path_join a f), <- (last_char_path_join a' f'), E.
Qed.

Lemma readable_insert_ne (fs : file_system) (p q : string) (f : file) :
  p <> q -> readable (<[p := f]> fs) q = readable fs q.
Proof. intros Hne. unfold readable. by rewrite lookup_insert_ne. Qed.

Lemma evaluate_model_spec logs ev st :
  exists st', evaluate_model args logs ev st = Ok st' /\
    results st' =
      <["epoch" ++ pretty (epoch_count st) := epoch_result_of args logs ev]>
        (results st) /\
    files st' = files st /\ early_stop st' = early_stop st /\
    epoch_count st' = epoch_count st /\
    (forall e, e ∈ trace st -> e ∈ trace st') /\
    (skip_metrics args = false ->
     MetricsFromDataset ("val_epoch" ++ pretty (epoch_count st)) ∈ trace st') /\
    UpdateResultsLog ("epoch" ++ pretty (epoch_count st))
      (epoch_result_of args logs ev) ∈ trace st'.
Proof.
  unfold evaluate_model. cbv zeta.
  destruct (skip_metrics args); cbn [negb]; (eexists; split; [reflexivity|]);
    cbn [emit set_results results files early_stop epoch_count trace];
    (split_and!; [done..| | |]).
  - intros e He. rewrite !elem_of_app. tauto.
  - done.
  - rewrite !elem_of_app, !list_elem_of_singleton. tauto.
  - intros e He. rewrite !elem_of_app. tauto.
  - intros _. rewrite !elem_of_app, !list_elem_of_singleton. tauto.
  - rewrite !elem_of_app, !list_elem_of_singleton. tauto.
Qed.

(** The [try] block of [on_epoch_end] on the file system [fs] left by
    [model.save]: which files it leaves, and whether it raised. *)
Lemma copy_sidecars_spec mp st :
  let hj_src := path_join (dirname mp) "hyperparameters.json" in
  let sm_src := path_join (dirname mp) "slide_manifest.log" in
  let hj_dst := path_join mp "hyperparameters.json" in
  let sm_dst := path_join mp "slide_manifest.log" in
  let out := copy_sidecars mp st in
  trace out.1 = trace st /\ results out.1 = results st /\
  early_stop out.1 = early_stop st /\ epoch_count out.1 = epoch_count st /\
  (forall p, p <> hj_dst -> p <> sm_dst -> files out.1 !! p = files st !! p) /\
  (forall c1 c2,
     readable (files st) hj_src = Some c1 ->
     readable (files st) sm_src = Some c2 ->
     out.2 = None /\ files out.1 !! hj_dst = Some (Regular c1) /\
     files out.1 !! sm_dst = Some (Regular c2)) /\
  (readable (files st) hj_src = None \/ readable (files st) sm_src = None ->
   is_Some out.2).
Proof.
  cbv zeta. unfold copy_sidecars, shutil_copy.
  assert (path_join mp "hyperparameters.json"
          <> path_join (dirname mp) "slide_manifest.log") as Hne1
    by (by apply path_join_ne).
  assert (path_join mp "hyperparameters.json"
          <> path_join mp "slide_manifest.log") as Hne2
    by (by apply path_join_ne).
  destruct (readable (files st) (path_join (dirname mp) "hyperparameters.json"))
    as [c1|] eqn:H1.
  - rewrite readable_insert_ne by done.
    destruct (readable (files st) (path_join (dirname mp) "slide_manifest.log"))
      as [c2|] eqn:H2; cbn [fst snd set_files files trace results early_stop
                            epoch_count].
    + split_and!; [done..| | |].
      * intros p Hp1 Hp2. by rewrite !lookup_insert_ne.
      * intros ? ? [= <-] [= <-]. split_and!; [done | |].
        -- by rewrite lookup_insert_ne, lookup_insert_eq.
        -- by rewrite lookup_insert_eq.
      * by intros [?|?].
    + split_and!; [done..| | |].
      * intros p Hp1 Hp2. by rewrite !lookup_insert_ne.
      * by intros ? ? _ ?.
      * intros _. by eexists.
  - cbn [fst snd]. split_and!; [done..| | |].
    + done.
    + by intros ? ? ?.
    + intros _. by eexists.
Qed.

(** What [on_epoch_end] does, case by case. *)
Lemma on_epoch_end_spec logs ev w st :
  let N := epoch_count st + 1 in
  let mp := model_path_at par N in
  exists st',
    on_epoch_end hp args par logs ev w st = Ok st' /\
    epoch_count st' = N /\ stop_training st' = early_stop st /\
    (N ∈ hp_finetune_epochs hp ->
     files st' !! path_join mp "saved_model.pb" = Some (Regular w) /\
     LogModelSaved mp ∈ trace st' /\
     (forall c1 c2,
        readable (files st) (path_join (dirname mp) "hyperparameters.json")
          = Some c1 ->
        readable (files st) (path_join (dirname mp) "slide_manifest.log")
          = Some c2 ->
        files st' !! path_join mp "hyperparameters.json" = Some (Regular c1) /\
        files st' !! path_join mp "slide_manifest.log" = Some (Regular c2)) /\
     (forall p,
        p <> path_join mp "saved_model.pb" ->
        p <> path_join mp "hyperparameters.json" ->
        p <> path_join mp "slide_manifest.log" ->
        files st' !! p = files st !! p) /\
     (using_validation args = true ->
      results st' = <["epoch" ++ pretty N := epoch_result_of args logs ev]>
                      (results st) /\
      (skip_metrics args = false ->
       MetricsFromDataset ("val_epoch" ++ pretty N) ∈ trace st')) /\
     (using_validation args = false -> results st' = results st) /\
     (readable (files st) (path_join (dirname mp) "hyperparameters.json")
        = None \/
      readable (files st) (path_join (dirname mp) "slide_manifest.log")
        = None ->
      LogCopyWarning ∈ trace st')) /\
    (N ∉ hp_finetune_epochs hp ->
     files st' = files st /\
     (early_stop st = true ->
      results st' = <["epoch" ++ pretty N := epoch_result_of args logs ev]>
                      (results st) /\
      (skip_metrics args = false ->
       MetricsFromDataset ("val_epoch" ++ pretty N) ∈ trace st')) /\
     (early_stop st = false ->
      results st' = results st /\ trace st' = trace st)).
Proof.
  cbv zeta. unfold on_epoch_end.
  set (st0 := set_epoch_count (epoch_count st + 1) st).
  change (epoch_count st0) with (epoch_count st + 1).
  set (mp := model_path_at par (epoch_count st + 1)).
  destruct (bool_decide_reflect (epoch_count st + 1 ∈ hp_finetune_epochs hp))
    as [Hin|Hnin].
  - pose proof (copy_sidecars_spec mp (model_save mp w st0))
      as (C1 & C2 & C3 & C4 & C5 & C6 & C7). cbv zeta in *.
    assert (path_join mp "saved_model.pb" <> path_join mp "hyperparameters.json")
      as Hne1 by (by apply path_join_ne).
    assert (path_join mp "saved_model.pb" <> path_join mp "slide_manifest.log")
      as Hne2 by (by apply path_join_ne).
    assert (path_join mp "saved_model.pb"
            <> path_join (dirname mp) "hyperparameters.json")
      as Hne3 by (by apply path_join_ne).
    assert (path_join mp "saved_model.pb"
            <> path_join (dirname mp) "slide_manifest.log")
      as Hne4 by (by apply path_join_ne).
    set (st1 := match copy_sidecars mp (model_save mp w st0) with
                | (s, None) => s
                | (s, Some _) => emit LogCopyWarning s
                end).
    assert (files st1 = files (copy_sidecars mp (model_save mp w st0)).1 /\
            results st1 = results st /\ early_stop st1 = early_stop st /\
            epoch_count st1 = epoch_count st + 1)
      as (F1 & F2 & F3 & F4).
    { unfold st1. destruct (copy_sidecars mp (model_save mp w st0)) as [s [e|]];
        cbn [fst emit files results early_stop epoch_count] in *;
        rewrite ?C2, ?C3, ?C4; done. }
    assert (files st1 !! path_join mp "saved_model.pb" = Some (Regular w)) as Hw.
    { rewrite F1, C5 by done. cbn [model_save set_files files].
      by rewrite lookup_insert_eq. }
    assert (forall c1 c2,
      readable (files st) (path_join (dirname mp) "hyperparameters.json")
        = Some c1 ->
      readable (files st) (path_join (dirname mp) "slide_manifest.log")
        = Some c2 ->
      files st1 !! path_join mp "hyperparameters.json" = Some (Regular c1) /\
      files st1 !! path_join mp "slide_manifest.log" = Some (Regular c2)) as Hcopy.
    { intros c1 c2 H1 H2. rewrite F1.
      destruct (C6 c1 c2) as (_ & ? & ?); [| |done];
        cbn [model_save set_files files]; by rewrite readable_insert_ne. }
    assert (forall p,
      p <> path_join mp "saved_model.pb" ->
      p <> path_join mp "hyperparameters.json" ->
      p <> path_join mp "slide_manifest.log" ->
      files st1 !! p = files st !! p) as Hframe.
    { intros p P1 P2 P3. rewrite F1, C5 by done.
      cbn [model_save set_files files]. by rewrite lookup_insert_ne. }
    assert (LogModelSaved mp ∈ trace (emit (LogModelSaved mp) st1)) as Hsaved.
    { cbn [emit trace]. rewrite elem_of_app, list_elem_of_singleton. tauto. }
    assert (readable (files st) (path_join (dirname mp) "hyperparameters.json")
              = None \/
            readable (files st) (path_join (dirname mp) "slide_manifest.log")
              = None ->
            LogCopyWarning ∈ trace (emit (LogModelSaved mp) st1)) as Hwarn.
    { intros Hmiss. destruct C7 as [e He].
      { cbn [model_save set_files files]. by rewrite !readable_insert_ne. }
      unfold st1. destruct (copy_sidecars mp (model_save mp w st0)) as [s o].
      cbn [snd] in He. subst o. cbn [emit trace].
      rewrite !elem_of_app, !list_elem_of_singleton. tauto. }
    destruct (using_validation args).
    + destruct (evaluate_model_spec logs ev (emit (LogModelSaved mp) st1))
        as (st2 & -> & E1 & E2 & E3 & E4 & E5 & E6 & _).
      cbn [bind]. eexists. split; [reflexivity|].
      cbn [set_stop_training epoch_count stop_training files results trace].
      cbn [emit epoch_count files results early_stop] in E1, E2, E3, E4, E6.
      rewrite E2, E3, E4, F3, F4. split; [done|]. split; [done|].
      split; [|done]. intros _. rewrite E1, F2, F4. rewrite F4 in E6.
      split_and!; [done | by apply E5 | done | done | by intros _ | done |].
      intros Hmiss. by apply E5, Hwarn.
    + cbn [bind]. eexists. split; [reflexivity|].
      cbn [set_stop_training emit epoch_count stop_training files results
           trace early_stop].
      rewrite F3, F4. split; [done|]. split; [done|].
      split; [|done]. intros _.
      split_and!; [done | done | done | done | done | by intros _ | done].
  - destruct (early_stop st0) eqn:Hes; change (early_stop st0) with (early_stop st) in Hes.
    + destruct (evaluate_model_spec logs ev st0)
        as (st2 & -> & E1 & E2 & E3 & E4 & E5 & E6 & _).
      cbn [bind]. eexists. split; [reflexivity|].
      cbn [set_stop_training epoch_count stop_training files results trace].
      change (epoch_count st0) with (epoch_count st + 1) in *.
      rewrite E2, E3, E4. split; [done|]. split; [done|].
      split; [done|]. intros _. split; [done|].
      split; [|by rewrite Hes]. intros _. by rewrite E1.
    + cbn [bind]. eexists. split; [reflexivity|].
      split; [done|]. split; [done|]. split; [done|].
      intros _. split; [done|]. split; [by rewrite Hes|]. done.
Qed.

(** C7, amended: [on_epoch_end] never raises.  When the epoch counter
    reaches a member of [finetune_epochs] it saves the model into the
    directory [{name}_epoch{N}] of the output directory, copies
    [hyperparameters.json] and [slide_manifest.log] there when both can be
    read beside it, touches no other file, and, if validation data
    exists, evaluates the model and stores the results under [epoch{N}].
    At any other epoch no file is written, so no checkpoint directory is
    created -- also when early stopping has triggered: then only the
    evaluation runs and its results are stored; without a trigger nothing
    happens at all. *)
Theorem checkpoint_at_finetune_epochs logs ev w st :
  let N := epoch_count st + 1 in
  let mp := model_path_at par N in
  exists st',
    on_epoch_end hp args par logs ev w st = Ok st' /\
    epoch_count st' = N /\ stop_training st' = early_stop st /\
    (N ∈ hp_finetune_epochs hp ->
     files st' !! path_join mp "saved_model.pb" = Some (Regular w) /\
     LogModelSaved mp ∈ trace st' /\
     (forall c1 c2,
        readable (files st) (path_join (dirname mp) "hyperparameters.json")
          = Some c1 ->
        readable (files st) (path_join (dirname mp) "slide_manifest.log")
          = Some c2 ->
        files st' !! path_join mp "hyperparameters.json" = Some (Regular c1) /\
        files st' !! path_join mp "slide_manifest.log" = Some (Regular c2)) /\
     (forall p,
        p <> path_join mp "saved_model.pb" ->
        p <> path_join mp "hyperparameters.json" ->
        p <> path_join mp "slide_manifest.log" ->
        files st' !! p = files st !! p) /\
     (using_validation args = true ->
      results st' = <["epoch" ++ pretty N := epoch_result_of args logs ev]>
                      (results st) /\
      (skip_metrics args = false ->
       MetricsFromDataset ("val_epoch" ++ pretty N) ∈ trace st')) /\
     (using_validation args = false -> results st' = results st)) /\
    (N ∉ hp_finetune_epochs hp ->
     files st' = files st /\
     (early_stop st = true ->
      results st' = <["epoch" ++ pretty N := epoch_result_of args logs ev]>
                      (results st) /\
      (skip_metrics args = false ->
       MetricsFromDataset ("val_epoch" ++ pretty N) ∈ trace st')) /\
     (early_stop st = false ->
      results st' = results st /\ trace st' = trace st)).
Proof.
  cbv zeta.
  destruct (on_epoch_end_spec logs ev w st)
    as (st' & Hstep & He & Hs & Hin & Hnin).
  exists st'. split_and!; [done..| |done].
  intros H. destruct (Hin H) as (? & ? & ? & ? & ? & ? & _). done.
Qed.

(** C8: when a sidecar file cannot be copied at a checkpoint epoch (one of
    [hyperparameters.json], [slide_manifest.log] is missing beside the
    checkpoint directory, or cannot be read), [on_epoch_end] still returns:
    the failure is logged as a warning, the model has been saved, the
    evaluation still runs if validation data exists, and
    [model.stop_training] is left to the early-stop flag alone, so training
    goes on. *)
Theorem sidecar_copy_failure_not_fatal logs ev w st :
  let N := epoch_count st + 1 in
  let mp := model_path_at par N in
  N ∈ hp_finetune_epochs hp ->
  readable (files st) (path_join (dirname mp) "hyperparameters.json") = None
  \/ readable (files st) (path_join (dirname mp) "slide_manifest.log") = None ->
  exists st',
    on_epoch_end hp args par logs ev w st = Ok st' /\
    LogCopyWarning ∈ trace st' /\
    files st' !! path_join mp "saved_model.pb" = Some (Regular w) /\
    LogModelSaved mp ∈ trace st' /\
    stop_training st' = early_stop st /\
    (using_validation args = true ->
     results st' !! ("epoch" ++ pretty N) = Some (epoch_result_of args logs ev)).
Proof.
  cbv zeta. intros HN Hmiss.
  destruct (on_epoch_end_spec logs ev w st)
    as (st' & Hstep & He & Hs & Hin & _).
  destruct (Hin HN) as (Hw & Hsaved & _ & _ & Hval & _ & Hwarn).
  exists st'. split_and!; [done | by apply Hwarn | done | done | done |].
  intros Huv. destruct (Hval Huv) as [-> _]. by rewrite lookup_insert_eq.
Qed.

End Checkpoints.

(** C7, as stated, fails on the early-stop branch.  In the run of the
    examples ([finetune_epochs = [10]]) early stopping triggers during the
    first epoch: the epoch ends with the evaluation stored under [epoch1], and
    the output directory holds exactly the files it held before -- no
    checkpoint directory has been created. *)
Lemma early_stop_checkpoint_counterexample :
  exists st,
    Callback.fit MonitorExamples.hp MonitorExamples.args MonitorExamples.par
      [MonitorExamples.epoch; MonitorExamples.epoch]
      (Callback.init MonitorExamples.args MonitorExamples.run_dir) = Ok st /\
    Callback.early_stop st = true /\ Callback.epoch_count st = 1 /\
    Callback.triggers (Callback.trace st) = 1%nat /\
    Callback.files st = MonitorExamples.run_dir /\
    is_Some (Callback.results st !! "epoch1").
Proof.
  exists (MonitorExamples.state_after_fit MonitorExamples.run_dir
            [MonitorExamples.epoch; MonitorExamples.epoch]).
  split; [vm_compute; reflexivity|]. split; [vm_compute; reflexivity|].
  split; [vm_compute; reflexivity|]. split; [vm_compute; reflexivity|].
  split; [vm_compute; reflexivity|]. vm_compute. eexists. reflexivity.
Qed.

Lemma checkpoint_at_finetune_epochs_witness :
  exists st',
    Callback.on_epoch_end MonitorExamples.hp MonitorExamples.resumed_args
      MonitorExamples.par (MonitorExamples.with_loss 1)
      MonitorExamples.evaluation_5 "weights"
      (Callback.init MonitorExamples.resumed_args MonitorExamples.run_dir)
    = Ok st' /\
    Callback.files st' !! "/out/model_epoch10/saved_model.pb" = Some (Regular "weights") /\
    Callback.files st' !! "/out/model_epoch10/hyperparameters.json" = Some (Regular "hp") /\
    Callback.files st' !! "/out/model_epoch10/slide_manifest.log"
      = Some (Regular "manifest") /\
    is_Some (Callback.results st' !! "epoch10").
Proof.
  destruct (checkpoint_at_finetune_epochs MonitorExamples.hp
              MonitorExamples.resumed_args MonitorExamples.par
              (MonitorExamples.with_loss 1) MonitorExamples.evaluation_5
              "weights"
              (Callback.init MonitorExamples.resumed_args MonitorExamples.run_dir))
    as (st' & Hstep & _ & _ & Hin & _).
  destruct Hin as (Hw & _ & Hcopy & _ & Hval & _).
  { apply (bool_decide_unpack _). by vm_compute. }
  destruct (Hcopy "hp" "manifest") as [Hhp Hsm]; [by vm_compute..|].
  destruct (Hval eq_refl) as [Hres _].
  exists st'. split; [exact Hstep|].
  split; [exact Hw|]. split; [exact Hhp|]. split; [exact Hsm|].
  rewrite Hres. eexists. apply lookup_insert_eq.
Defined.

Lemma sidecar_copy_failure_not_fatal_witness :
  exists st',
    Callback.on_epoch_end MonitorExamples.hp MonitorExamples.resumed_args
      MonitorExamples.par (MonitorExamples.with_loss 1)
      MonitorExamples.evaluation_5 "weights"
      (Callback.init MonitorExamples.resumed_args
         MonitorExamples.run_dir_unreadable_manifest)
    = Ok st' /\
    Callback.LogCopyWarning ∈ Callback.trace st' /\
    Callback.files st' !! "/out/model_epoch10/saved_model.pb" = Some (Regular "weights") /\
    Callback.stop_training st' = false.
Proof.
  destruct (sidecar_copy_failure_not_fatal MonitorExamples.hp
              MonitorExamples.resumed_args MonitorExamples.par
              (MonitorExamples.with_loss 1) MonitorExamples.evaluation_5
              "weights"
              (Callback.init MonitorExamples.resumed_args
                 MonitorExamples.run_dir_unreadable_manifest))
    as (st' & Hstep & Hwarn & Hw & _ & Hstop & _).
  - apply (bool_decide_unpack _). by vm_compute.
  - right. by vm_compute.
  - exists st'. split; [exact Hstep|]. split; [exact Hwarn|].
    split; [exact Hw|]. exact Hstop.
Defined.

Lemma undefined_metric_logs_only_witness :
  exists st,
    Callback.fit MonitorExamples.linear_hp MonitorExamples.args
      MonitorExamples.par [MonitorExamples.epoch; MonitorExamples.epoch]
      (Callback.init MonitorExamples.args ∅) = Ok st /\
    Callback.log_only st /\ Callback.epoch_count st = 2.
Proof.
  destruct (undefined_metric_logs_only MonitorExamples.linear_hp
              MonitorExamples.args MonitorExamples.par)
    as (_ & _ & Hfit); [reflexivity | by vm_compute |].
  assert (exists st,
            Callback.fit MonitorExamples.linear_hp MonitorExamples.args
              MonitorExamples.par [MonitorExamples.epoch; MonitorExamples.epoch]
              (Callback.init MonitorExamples.args ∅) = Ok st /\
            Callback.epoch_count st = 2) as (st & Hst & Hepoch).
  { vm_compute. eexists. split; reflexivity. }
  exists st. split; [exact Hst|]. split; [|exact Hepoch].
  by apply (Hfit _ _ _ Hst).
Defined.

(** * Properties of the manifest and of the label lookup *)

Section ManifestFacts.
Import Model.



End ManifestFacts.




(** * The hyperparameters the callback reads *)

Section View.

Lemma py_in_list_PStr (v : pyval) (l : list string) :
  py_in_list v l = true -> exists s, v = PStr s /\ s ∈ l.
Proof.
  assert (forall w, (forall s, w <> PStr s) -> py_in_list w l = false) as Hother.
  { intros w Hw. unfold py_in_list. induction l as [|x l IH]; [done|].
    cbn [existsb]. rewrite IH, orb_false_r.
    destruct w as [| | | |s| |]; try done. by destruct (Hw s). }
  intros H.
  destruct v as [| | | |s| |]; try (rewrite Hother in H; done).
  exists s. split; [done|].
  rewrite py_in_list_str in H. by apply bool_decide_eq_true in H.
Qed.

Lemma mapM_py_int (l : list pyval) :
  forallb isinstance_int l = true -> is_Some (mapM Callback.py_int l).
Proof.
  intros H. apply mapM_is_Some. apply Forall_forall. intros v Hv.
  rewrite forallb_forall in H. apply list_elem_of_In, H in Hv.
  destruct v; try done; by eexists.
Qed.

Lemma check_args_Ok_monitor (a : init_args) :
  check_args a = Ok tt ->
  isinstance_int_list (finetune_epochs a) = true /\
  (forall l, finetune_epochs a = PList l -> forallb isinstance_int l = true) /\
  py_in_list (loss a) _AllLoss = true /\
  isinstance_bool (early_stop a) = true /\
  isinstance_int (early_stop_patience a) = true /\
  py_in_list (early_stop_method a) ["loss"; "accuracy"] = true.
Proof.
  unfold check_args. intros H.
  do 3 apply bind_Ok in H as (? & _ & H).
  apply bind_Ok in H as (? & Hfe%assert_Ok & H).
  apply bind_Ok in H as (? & Hall & H).
  do 3 apply bind_Ok in H as (? & _ & H).
  apply bind_Ok in H as (? & Hloss%assert_Ok & H).
  do 7 apply bind_Ok in H as (? & _ & H).
  apply bind_Ok in H as (? & Hes%assert_Ok & H).
  apply bind_Ok in H as (? & Hp%assert_Ok & H).
  apply bind_Ok in H as (? & Hm%assert_Ok & _).
  split_and!; try done.
  intros l Hl. rewrite Hl in Hall. by apply assert_Ok in Hall.
Qed.

(** Every instance built by [__init__] has a view, whose model type is the
    one [model_type()] returns. *)
Lemma constructed_view (a : init_args) (self : obj) :
  __init__ a = Ok self ->
  exists v, Callback.view self = Some v /\
    model_type self = Ok (Callback.hp_model_type v) /\
    Callback.hp_early_stop_method v ∈ ["loss"; "accuracy"].
Proof.
  intros (Hc & Hs & _)%init_Ok_inv.
  destruct (check_args_Ok_monitor _ Hc) as (Hfe & Hall & Hloss & Hes & Hp & Hm).
  destruct (assign_fields_Ok _ _ Hs) as (l2 & Hl2 & _).
  assert (self !! "early_stop" = Some (early_stop a)) as E1.
  { eapply assign_fields_lookup; [done..|].
    by apply (list_elem_of_lookup_2 _ 12%nat). }
  assert (self !! "early_stop_method" = Some (early_stop_method a)) as E2.
  { eapply assign_fields_lookup; [done..|].
    by apply (list_elem_of_lookup_2 _ 13%nat). }
  assert (self !! "early_stop_patience" = Some (early_stop_patience a)) as E3.
  { eapply assign_fields_lookup; [done..|].
    by apply (list_elem_of_lookup_2 _ 14%nat). }
  pose proof (assign_fields_finetune_epochs _ _ Hs) as E4.
  pose proof (assign_fields_loss _ _ Hs) as E5.
  apply py_in_list_PStr in Hloss as (lo & Hlo & _).
  apply py_in_list_PStr in Hm as (m & Hmeth & Hmin).
  destruct (early_stop a) as [|stop| | | | |] eqn:Ees; try done.
  assert (exists p, Callback.py_int (early_stop_patience a) = Some p) as [p Hpi].
  { destruct (early_stop_patience a); try done; by eexists. }
  assert (exists l ns, self !! "finetune_epochs" = Some (PList l) /\
                       mapM Callback.py_int l = Some ns) as (l & ns & E4' & Hns).
  { rewrite E4. destruct (finetune_epochs a) as [|b|n| | |l|] eqn:Ef; try done;
      cbn [isinstance_list].
    - eexists _, _. split; [done|]. reflexivity.
    - eexists _, _. split; [done|]. reflexivity.
    - destruct (mapM_py_int l (Hall l eq_refl)) as [ns Hns].
      by exists l, ns. }
  eexists. unfold Callback.view.
  rewrite E1, E2, E3, E4', E5, Hmeth, Hlo, Hpi, Hns.
  split; [reflexivity|]. split; [|done].
  unfold model_type, getattr. rewrite E5, Hlo. reflexivity.
Qed.

End View.

(** * Further properties of [HyperParameters] *)

Section HyperParametersFacts.

Implicit Types (self hp d : obj) (a : init_args).


Lemma is_arg_nonempty (k : string) : is_arg k = true -> k <> "".
Proof. by intros H ->. Qed.


Lemma constructed_dom a hp (k : string) :
  __init__ a = Ok hp -> is_Some (hp !! k) <-> k ∈ field_names.
Proof. intros (_ & Hs & _)%init_Ok_inv. by apply (assign_fields_dom a). Qed.







End HyperParametersFacts.

(** * What the constructor guarantees to the optimizer and the model builder *)

Section ConstructedFacts.

Implicit Types (hp : obj) (a : init_args).

Lemma check_args_Ok_build a :
  check_args a = Ok tt ->
  py_in_list (pooling a) ["max"; "avg"; "none"] = true /\
  isinstance_int_float (learning_rate_decay a) = true /\
  py_in_keys (optimizer a) _OptDict_keys = Ok true /\
  in_unit_interval (learning_rate_decay a) = true.
Proof.
  unfold check_args. intros H.
  do 7 apply bind_Ok in H as (? & _ & H).
  apply bind_Ok in H as (? & Hpool%assert_Ok & H).
  do 2 apply bind_Ok in H as (? & _ & H).
  apply bind_Ok in H as (? & Hdecay%assert_Ok & H).
  do 3 apply bind_Ok in H as (? & _ & H).
  apply bind_Ok in H as (o & Ho & H).
  apply bind_Ok in H as (? & ->%assert_Ok & H).
  do 10 apply bind_Ok in H as (? & _ & H).
  apply bind_Ok in H as (d & Hd%py_in_unit_Ok & H).
  apply bind_Ok in H as (? & ->%assert_Ok & _).
  done.
Qed.

Lemma py_in_keys_PStr (v : pyval) (keys : list string) :
  py_in_keys v keys = Ok true -> exists s, v = PStr s /\ s ∈ keys.
Proof.
  intros H. apply py_in_list_PStr.
  destruct v; cbn [py_in_keys] in H; try done; by apply Ok_inj in H.
Qed.

Lemma constructed_lookup a hp (i : nat) (k : string) (v : pyval) :
  __init__ a = Ok hp ->
  (forall l2, assignments a l2 !! i = Some (k, v)) -> hp !! k = Some v.
Proof.
  intros (_ & Hs & _)%init_Ok_inv Hi.
  destruct (assign_fields_Ok _ _ Hs) as (l2 & Hl2 & _).
  eapply assign_fields_lookup; [done..|].
  by apply (list_elem_of_lookup_2 _ i).
Qed.

Lemma in_unit_interval_num (v : pyval) :
  in_unit_interval v = true -> exists q, py_num v = Some q /\ (0 <= q <= 1)%Q.
Proof.
  unfold in_unit_interval. destruct (py_num v) as [q|]; [|done].
  intros [H0 H1]%andb_true_iff. exists q. split; [done|].
  by rewrite <- !Qle_bool_iff.
Qed.

(** X5: what every instance returned by the constructor satisfies: it has
    exactly the 24 hyperparameter attributes; [validate] accepts it again;
    [finetune_epochs] is a list of integers (a single integer has been
    wrapped); [pooling] is ['max'], ['avg'] or [None] (never the string
    ['none']); [L2_weight] is a float of the interval [[0, 1]]. *)
Theorem constructed_instance_invariant a hp :
  __init__ a = Ok hp ->
  (forall k, is_Some (hp !! k) <-> k ∈ field_names) /\
  validate hp = Ok true /\
  (exists l, hp !! "finetune_epochs" = Some (PList l) /\
             forallb isinstance_int l = true) /\
  (hp !! "pooling" = Some (PStr "max") \/ hp !! "pooling" = Some (PStr "avg") \/
   hp !! "pooling" = Some PNone) /\
  (exists q, hp !! "L2_weight" = Some (PFloat q) /\ (0 <= q <= 1)%Q).
Proof.
  intros Hhp. destruct (init_Ok_inv _ _ Hhp) as (Hc & Hs & Hbal).
  destruct (check_args_Ok_monitor _ Hc) as (Hfe & Hall & _).
  destruct (check_args_Ok_build _ Hc) as (Hpool & _).
  destruct (check_args_Ok _ Hc) as (_ & _ & _ & _ & Hl2 & _).
  split_and!.
  - intros k. by apply (constructed_dom a).
  - by rewrite (validate_assigned _ _ Hs), Hbal.
  - rewrite (assign_fields_finetune_epochs _ _ Hs).
    destruct (finetune_epochs a) as [|b|n| | |l|] eqn:Ef; try done;
      cbn [isinstance_list]; eexists; (split; [reflexivity|]); try done.
    by apply Hall.
  - rewrite (assign_fields_pooling _ _ Hs).
    apply py_in_list_PStr in Hpool as (s & -> & Hin).
    cbn [py_eq_str]. rewrite !elem_of_cons in Hin.
    destruct Hin as [->|[->|[->|Hin]]]; [by left | by right; left | by right; right|].
    by apply elem_of_nil in Hin.
  - apply in_unit_interval_num in Hl2 as (q & Hq & Hrange).
    exists q. split; [|done].
    destruct (assign_fields_Ok _ _ Hs) as (l2 & Hfl & _).
    eapply assign_fields_lookup; [done..|].
    unfold py_float in Hfl. rewrite Hq in Hfl. apply Ok_inj in Hfl as <-.
    by apply (list_elem_of_lookup_2 _ 21%nat).
Qed.

Lemma constructed_instance_invariant_witness :
  exists hp, __init__ HPExamples.cph_args = Ok hp /\
    hp !! "pooling" = Some PNone /\ validate hp = Ok true.
Proof.
  destruct (init_succeeds HPExamples.cph_args) as [hp Hhp]; [by vm_compute..|].
  destruct (constructed_instance_invariant _ hp Hhp)
    as (_ & Hvalid & _ & _ & _).
  exists hp. split; [exact Hhp|]. split; [|exact Hvalid].
  apply (constructed_lookup HPExamples.cph_args hp 5 _ _ Hhp). reflexivity.
Defined.

Lemma py_eq_int_unit (v : pyval) (q : Q) :
  py_num v = Some q -> (0 <= q <= 1)%Q ->
  py_eq_int v 0 || py_eq_int v 1 = false -> (0 < q < 1)%Q.
Proof.
  intros Hq [H0 H1] H. unfold py_eq_int in H. rewrite Hq in H.
  apply orb_false_iff in H as [E0 E1].
  apply not_true_iff_false in E0, E1. rewrite Qeq_bool_iff in E0, E1.
  split.
  - apply Qle_lteq in H0 as [?|E]; [done|]. destruct E0. by symmetry.
  - apply Qle_lteq in H1 as [?|E]; [done|]. by destruct E1.
Qed.

(** X6: [get_opt] on an instance returned by the constructor never raises.
    The optimizer class is the one named by the argument [optimizer]; it
    receives the plain learning rate (keyword [lr]) when the decay equals 0
    or 1, and otherwise an exponential-decay schedule with staircase (keyword
    [learning_rate]), in which case the decay rate lies strictly between 0
    and 1. *)
Theorem get_opt_constructed a hp :
  __init__ a = Ok hp ->
  exists cls, optimizer a = PStr cls /\ cls ∈ _OptDict_keys /\
    let decay := learning_rate_decay a in
    Optimizers.get_opt hp =
      Ok (if py_eq_int decay 0 || py_eq_int decay 1 then
            {| Optimizers.opt_class := cls; Optimizers.opt_keyword := "lr";
               Optimizers.opt_rate := Optimizers.Constant (learning_rate a) |}
          else
            {| Optimizers.opt_class := cls;
               Optimizers.opt_keyword := "learning_rate";
               Optimizers.opt_rate :=
                 Optimizers.ExponentialDecay (learning_rate a)
                   (learning_rate_decay_steps a) decay true |}) /\
    (py_eq_int decay 0 || py_eq_int decay 1 = false ->
     exists q, py_num decay = Some q /\ (0 < q < 1)%Q).
Proof.
  intros Hhp. destruct (init_Ok_inv _ _ Hhp) as (Hc & Hs & _).
  destruct (check_args_Ok_build _ Hc) as (_ & _ & Hopt & Hunit).
  destruct (py_in_keys_PStr _ _ Hopt) as (cls & Hcls & Hin).
  exists cls. split; [done|]. split; [done|]. cbv zeta.
  assert (hp !! "learning_rate" = Some (learning_rate a)) as E1
    by by apply (constructed_lookup a hp 7).
  assert (hp !! "learning_rate_decay" = Some (learning_rate_decay a)) as E2
    by by apply (constructed_lookup a hp 8).
  assert (hp !! "learning_rate_decay_steps" = Some (learning_rate_decay_steps a))
    as E3 by by apply (constructed_lookup a hp 9).
  assert (hp !! "optimizer" = Some (optimizer a)) as E4
    by by apply (constructed_lookup a hp 11).
  assert (Optimizers._OptDict_getitem (optimizer a) = Ok cls) as E5.
  { unfold Optimizers._OptDict_getitem. rewrite Hopt. cbn [bind].
    by rewrite Hcls. }
  split.
  - unfold Optimizers.get_opt, getattr. rewrite E2. cbn [bind].
    destruct (py_eq_int (learning_rate_decay a) 0
              || py_eq_int (learning_rate_decay a) 1); cbn [negb].
    + rewrite E4. cbn [bind]. rewrite E5. cbn [bind]. by rewrite E1.
    + rewrite E1. cbn [bind]. rewrite E3. cbn [bind].
      rewrite E4. cbn [bind]. by rewrite E5.
  - intros Hne. apply in_unit_interval_num in Hunit as (q & Hq & Hrange).
    exists q. split; [done|]. by apply (py_eq_int_unit (learning_rate_decay a)).
Qed.

Lemma get_opt_constructed_witness :
  exists hp c, __init__ defaults = Ok hp /\ Optimizers.get_opt hp = Ok c /\
    Optimizers.opt_class c = "Adam" /\ Optimizers.opt_keyword c = "lr".
Proof.
  destruct (init_succeeds defaults) as [hp Hhp]; [by vm_compute..|].
  destruct (get_opt_constructed defaults hp Hhp) as (cls & Hcls & _ & Hopt & _).
  exists hp. eexists. split; [exact Hhp|]. split; [exact Hopt|].
  apply (f_equal (fun v => match v with PStr s => s | _ => "" end)) in Hcls.
  cbn in Hcls. rewrite <- Hcls. split; reflexivity.
Defined.

End ConstructedFacts.

(** * Freezing the base model and assembling the tile model *)

Section LayersFacts.
Import Layers.

Implicit Types (layers : list layer) (K : Z).

Lemma trainable_count_app layers1 layers2 :
  trainable_count (layers1 ++ layers2) =
  (trainable_count layers1 + trainable_count layers2)%nat.
Proof. unfold trainable_count. by rewrite List.filter_app, length_app. Qed.

Lemma trainable_count_frozen layers : trainable_count (freeze <$> layers) = 0%nat.
Proof. unfold trainable_count. by induction layers. Qed.

Lemma trainable_count_all layers :
  Forall (fun l => trainable l = true) layers ->
  trainable_count layers = length layers.
Proof.
  unfold trainable_count. induction 1 as [|l layers Hl _ IH]; [done|].
  cbn [List.filter]. rewrite Hl. cbn [length]. by rewrite IH.
Qed.

Lemma _freeze_layers_lookup K layers (i : nat) :
  _freeze_layers K layers !! i =
  (fun l => if bool_decide
                 (i < slice_stop (Z.of_nat (length layers))
                        (Z.of_nat (length layers) - (K - 1)))%nat
            then freeze l else l) <$> layers !! i.
Proof.
  unfold _freeze_layers. cbv zeta.
  set (n := slice_stop _ _).
  rewrite <- (take_drop n layers) at 3.
  destruct (decide (i < n)%nat) as [Hi|Hi].
  - rewrite bool_decide_eq_true_2 by done.
    destruct (decide (i < length (take n layers))%nat) as [Hlen|Hlen].
    + rewrite !lookup_app_l by (by rewrite ?length_fmap).
      by rewrite list_lookup_fmap.
    + rewrite !lookup_app_r by (rewrite ?length_fmap; lia).
      rewrite length_fmap. rewrite length_take in Hlen.
      rewrite !lookup_drop, !(lookup_ge_None_2 layers); [done|lia..].
  - rewrite bool_decide_eq_false_2 by done.
    assert (length (take n layers) <= i)%nat as Hlen
      by (rewrite length_take; lia).
    rewrite !lookup_app_r by (by rewrite ?length_fmap).
    rewrite length_fmap. by destruct (drop n layers !! _).
Qed.

(** X7: [_freeze_layers] keeps the layers, their order and their names, and
    never makes a layer trainable.  For [1 <= trainable_layers <= len + 1] it
    freezes exactly the first [len - (trainable_layers - 1)] layers, so that
    [trainable_layers - 1] layers at the end are left as they were: one less
    than the number announced in the log line, and none at all for
    [trainable_layers = 1]. *)
Theorem freeze_layers_positions K layers :
  Forall2 (fun l l' => layer_name l' = layer_name l /\
                       (trainable l' = true -> trainable l = true))
          layers (_freeze_layers K layers) /\
  (1 <= K <= Z.of_nat (length layers) + 1 ->
   forall (i : nat) l, layers !! i = Some l ->
     _freeze_layers K layers !! i =
       Some (if bool_decide (Z.of_nat i < Z.of_nat (length layers) - (K - 1))
             then freeze l else l)).
Proof.
  split.
  - apply Forall2_same_length_lookup. split.
    + unfold _freeze_layers. cbv zeta.
      rewrite length_app, length_fmap, <- length_app, take_drop. done.
    + intros i l l' Hl. rewrite _freeze_layers_lookup, Hl. cbn [fmap option_fmap
        option_map]. intros [= <-]. by case_bool_decide.
  - intros HK i l Hl. rewrite _freeze_layers_lookup, Hl. cbn [fmap option_fmap
      option_map]. f_equal. unfold slice_stop.
    destruct (Z.ltb_spec (Z.of_nat (length layers) - (K - 1)) 0); [lia|].
    repeat case_bool_decide; try done; lia.
Qed.

Lemma freeze_layers_positions_witness :
  _freeze_layers 2 RunExamples.base_layers !! 1%nat
  = Some {| layer_name := "conv2"; trainable := false |}.
Proof.
  destruct (freeze_layers_positions 2 RunExamples.base_layers) as [_ H].
  by apply (H ltac:(cbn; lia) 1%nat {| layer_name := "conv2"; trainable := true |}).
Defined.

(** X8: how many layers of an entirely trainable base model stay trainable
    after the freezing step of [_build_bottom], for every value of
    [trainable_layers]: all of them for 0 (no freezing); none for 1 and for
    negative values; [trainable_layers - 1] up to [len + 1]; beyond that the
    negative slice bound wraps around, so that only
    [trainable_layers - len - 1] layers stay trainable up to [2 * len + 1];
    and all of them above. *)
Theorem freeze_base_trainable_count K layers :
  Forall (fun l => trainable l = true) layers ->
  let len := Z.of_nat (length layers) in
  Z.of_nat (trainable_count (freeze_base K layers)) =
    (if K =? 0 then len
     else if K <=? 1 then 0
     else if K <=? len + 1 then K - 1
     else if K <=? 2 * len + 1 then K - len - 1
     else len)%Z.
Proof.
  intros Hall len. unfold freeze_base.
  destruct (Z.eqb_spec K 0) as [->|HK]; cbn [negb].
  { by rewrite trainable_count_all. }
  unfold _freeze_layers. cbv zeta. fold len.
  rewrite trainable_count_app, trainable_count_frozen.
  rewrite trainable_count_all by by apply Forall_drop.
  rewrite length_drop. unfold slice_stop. cbn [Nat.add]. subst len.
  destruct (Z.ltb_spec (Z.of_nat (length layers) - (K - 1)) 0),
    (Z.leb_spec K 1), (Z.leb_spec K (Z.of_nat (length layers) + 1)),
    (Z.leb_spec K (2 * Z.of_nat (length layers) + 1)); lia.
Qed.

Lemma freeze_base_trainable_count_witness :
  trainable_count (freeze_base 5 RunExamples.base_layers) = 1%nat.
Proof.
  apply Nat2Z.inj.
  apply (freeze_base_trainable_count 5 RunExamples.base_layers).
  repeat constructor.
Defined.

End LayersFacts.

Section TileModelFacts.
Import Layers.

Implicit Types (hp : obj) (a : init_args).

Lemma py_truthy_number (v : pyval) :
  is_Some (py_num v) -> py_truthy v = negb (py_eq_int v 0).
Proof.
  unfold py_eq_int. destruct v as [|b|n|q| | |]; intros [x Hx]; try done.
  - by destruct b.
  - cbn [py_truthy py_num]. unfold Qeq_bool. cbn. by rewrite Z.mul_1_r.
Qed.

(** X9: the tile model that [_build_bottom] assembles for an instance
    returned by the constructor, in terms of the constructor's arguments: the
    input and the base model, then a [Flatten] layer exactly when
    [pooling='none'] was given, then the identity layer ['post_convolution'],
    and at the end a [Dropout] layer exactly when the dropout rate is not
    zero.  Reading the hyperparameters never fails. *)
Theorem sequential_layers_constructed a hp :
  __init__ a = Ok hp ->
  sequential_layers hp =
    Ok ([TileInput; BaseModel]
        ++ (if py_eq_str (pooling a) "none" then [Flatten] else [])
        ++ [PostConvolution]
        ++ (if py_eq_int (dropout a) 0 then [] else [Dropout (dropout a)]))%list.
Proof.
  intros Hhp. destruct (init_Ok_inv _ _ Hhp) as (Hc & Hs & _).
  destruct (check_args_Ok_build _ Hc) as (Hpool & _).
  destruct (check_args_Ok _ Hc) as (_ & _ & _ & _ & _ & Hdrop).
  assert (hp !! "dropout" = Some (dropout a)) as E
    by by apply (constructed_lookup a hp 22).
  unfold sequential_layers, getattr.
  rewrite (assign_fields_pooling _ _ Hs), E. cbn [bind].
  rewrite py_truthy_number.
  2:{ apply in_unit_interval_num in Hdrop as (q & -> & _). by eexists. }
  apply py_in_list_PStr in Hpool as (s & -> & Hin). cbn [py_eq_str].
  assert (s <> "") as Hs'.
  { intros ->. apply (bool_decide_pack _) in Hin. by vm_compute in Hin. }
  destruct (bool_decide (s = "none")); cbn [negb py_truthy];
    rewrite ?bool_decide_eq_false_2 by done; cbn [negb];
    by destruct (py_eq_int (dropout a) 0).
Qed.

Lemma sequential_layers_constructed_witness :
  exists hp, __init__ HPExamples.cph_args = Ok hp /\
    sequential_layers hp = Ok [TileInput; BaseModel; Flatten; PostConvolution].
Proof.
  destruct (init_succeeds HPExamples.cph_args) as [hp Hhp]; [by vm_compute..|].
  exists hp. split; [exact Hhp|].
  exact (sequential_layers_constructed HPExamples.cph_args hp Hhp).
Defined.

End TileModelFacts.

(** * Model set-up *)

Section SetupFacts.
Import Setup.

Implicit Types (names : names_arg) (inputs : slide_inputs).

Lemma default_names_length (n : nat) : length (default_names n) = n.
Proof. unfold default_names. by rewrite length_fmap, length_seq. Qed.

Lemma default_names_NoDup (n : nat) : NoDup (default_names n).
Proof.
  unfold default_names. apply NoDup_fmap_2_strong; [|apply NoDup_seq].
  intros i j _ _ H. by apply (inj (String.app "Outcome ")), (inj pretty) in H.
Qed.

Lemma outcome_names_Raise names (n : nat) (e : exn) :
  outcome_names names n = Raise e -> e = ModelError.
Proof.
  unfold outcome_names. destruct (negb _); [|done]. by intros [= <-].
Qed.

(** X10: how [Model.__init__] settles the outcome names.  [None], an empty
    list and an empty string all give the default names ['Outcome 0'],
    ['Outcome 1'], ..., one per outcome and pairwise distinct; a single
    non-empty name is accepted exactly for a single-outcome model; any
    accepted list has one name per outcome, and the only failure is
    [ModelError]. *)
Theorem outcome_names_settled names (n : nat) :
  (names_falsy names = true -> outcome_names names n = Ok (default_names n)) /\
  NoDup (default_names n) /\
  (forall s, s <> "" ->
     outcome_names (OneName s) n = if bool_decide (n = 1%nat) then Ok [s]
                                   else Raise ModelError) /\
  (forall l, outcome_names names n = Ok l -> length l = n) /\
  (forall e, outcome_names names n = Raise e -> e = ModelError).
Proof.
  split_and!.
  - intros Hf. unfold outcome_names. rewrite Hf, default_names_length.
    by rewrite Nat.eqb_refl.
  - apply default_names_NoDup.
  - intros s Hs. unfold outcome_names. cbn [names_falsy].
    rewrite bool_decide_eq_false_2 by done. cbn [length].
    destruct n as [|[|n]]; done.
  - intros l. unfold outcome_names.
    destruct (Nat.eqb_spec
      (length match (if names_falsy names then Names (default_names n)
                     else names) with
              | Names l0 => l0 | OneName s => [s] | NoNames => [] end) n)
      as [E|E]; cbn [negb]; [|done].
    by intros <-%Ok_inj.
  - intros e. apply outcome_names_Raise.
Qed.

Lemma outcome_names_settled_witness :
  outcome_names (Names []) 2 = Ok ["Outcome 0"; "Outcome 1"] /\
  outcome_names (OneName "grade") 2 = Raise ModelError.
Proof.
  destruct (outcome_names_settled (Names []) 2) as (Hdef & _ & Hone & _).
  split.
  - by apply Hdef.
  - by apply (Hone "grade").
Defined.

(** *** Slide-level input *)

Lemma build_feature_table_Ok (items : list (string * option (list Q)))
    (table : feature_table) :
  NoDup items.*1 -> Forall (fun kv => is_Some kv.2) items ->
  exists t, build_feature_table items table = Ok t /\
    forall k, t !! k = match (list_to_map items : slide_inputs) !! k with
                       | Some i => i
                       | None => table !! k
                       end.
Proof.
  revert table. induction items as [|[s i] items IH]; intros table Hnd Hall.
  - exists table. split; [done|]. intros k.
    by rewrite list_to_map_nil, lookup_empty.
  - apply NoDup_cons in Hnd as [Hs Hnd]. apply Forall_cons in Hall as [[v Hv] Hall].
    cbn [snd] in Hv. subst i.
    destruct (IH (<[s := v]> table) Hnd Hall) as (t & Ht & Hspec).
    exists t. split; [done|]. intros k. rewrite Hspec, list_to_map_cons.
    cbn [fst snd].
    destruct (decide (k = s)) as [->|Hk].
    + rewrite (not_elem_of_list_to_map_1 items s) by done.
      by rewrite !lookup_insert_eq.
    + by rewrite !lookup_insert_ne.
Qed.

Lemma build_feature_table_Raise (items : list (string * option (list Q)))
    (table : feature_table) :
  ~ Forall (fun kv => is_Some kv.2) items ->
  build_feature_table items table = Raise ModelError.
Proof.
  revert table. induction items as [|[s [v|]] items IH]; intros table Hall.
  - by destruct Hall.
  - cbn [build_feature_table]. apply IH. intros H. apply Hall.
    apply Forall_cons. split; [by eexists | done].
  - done.
Qed.

Lemma check_feature_lengths_Ok (features : Z) (slides : list string)
    (table : feature_table) :
  Forall (fun s => exists v, table !! s = Some v /\
                             Z.of_nat (length v) = features) slides ->
  check_feature_lengths features slides table = Ok tt.
Proof.
  induction 1 as [|s slides (v & Hv & Hlen) _ IH]; [done|].
  cbn [check_feature_lengths]. rewrite Hv.
  by rewrite (proj2 (Z.eqb_eq _ _) Hlen).
Qed.

Lemma check_feature_lengths_Raise (features : Z) (slides : list string)
    (table : feature_table) :
  Forall (fun s => is_Some (table !! s)) slides ->
  ~ Forall (fun s => exists v, table !! s = Some v /\
                               Z.of_nat (length v) = features) slides ->
  check_feature_lengths features slides table = Raise ModelError.
Proof.
  induction 1 as [|s slides [v Hv] _ IH]; intros Hbad.
  - by destruct Hbad.
  - cbn [check_feature_lengths]. rewrite Hv.
    destruct (Z.eqb_spec (Z.of_nat (length v)) features) as [E|E]; [|done].
    cbn [negb]. apply IH. intros H. apply Hbad. apply Forall_cons.
    split; [by exists v | done].
Qed.

Lemma inputs_fit_cases (features : Z) inputs :
  inputs_fit features inputs \/ ~ inputs_fit features inputs.
Proof.
  unfold inputs_fit. rewrite map_Forall_to_list.
  induction (map_to_list inputs) as [|[s [v|]] l IH].
  - left. constructor.
  - destruct (decide (Z.of_nat (length v) = features)) as [E|E].
    + destruct IH as [IH|IH].
      * left. constructor; [by exists v | done].
      * right. intros [_ H]%Forall_cons. by apply IH.
    + right. intros [(w & Hw & Hlen) _]%Forall_cons. cbn in Hw.
      by injection Hw as <-.
  - right. intros [(w & Hw & _) _]%Forall_cons. done.
Qed.

Lemma _setup_inputs_cph_spec (features : Z) inputs :
  (inputs_fit features inputs ->
   _setup_inputs_cph features inputs = Ok (omap id inputs)) /\
  (~ inputs_fit features inputs ->
   _setup_inputs_cph features inputs = Raise ModelError).
Proof.
  unfold _setup_inputs_cph, inputs_fit.
  pose proof (NoDup_fst_map_to_list inputs) as Hnd.
  destruct (decide (Forall (fun kv : string * option (list Q) => is_Some kv.2)
                      (map_to_list inputs))) as [Hall|Hall].
  - destruct (build_feature_table_Ok _ ∅ Hnd Hall) as (t & -> & Hspec).
    cbn [bind].
    assert (t = omap id inputs) as ->.
    { apply map_eq. intros k. rewrite Hspec, list_to_map_to_list, lookup_omap.
      rewrite lookup_empty. by destruct (inputs !! k). }
    assert (Forall (fun s => is_Some (omap id inputs !! s)) (map_to_list inputs).*1)
      as Hdom.
    { apply Forall_fmap, Forall_forall. intros [s i] Hin. cbn.
      rewrite Forall_forall in Hall. destruct (Hall _ Hin) as [v Hv].
      cbn in Hv. subst i. apply elem_of_map_to_list in Hin.
      rewrite lookup_omap, Hin. by eexists. }
    assert (Forall (fun s => exists v, omap id inputs !! s = Some v /\
                                       Z.of_nat (length v) = features)
              (map_to_list inputs).*1 <->
            map_Forall (fun _ i => exists v : list Q,
                          i = Some v /\ Z.of_nat (length v) = features) inputs)
      as Hiff.
    { rewrite map_Forall_to_list, Forall_fmap, !Forall_forall.
      split; intros H [s i] Hin; specialize (H _ Hin); cbn in *;
        apply elem_of_map_to_list in Hin; rewrite lookup_omap, Hin in *;
        destruct H as (v & Hv & Hlen); exists v; cbn in *; by subst. }
    split; intros Hfit.
    + by rewrite check_feature_lengths_Ok by by apply Hiff.
    + rewrite check_feature_lengths_Raise; [done..|]. by rewrite Hiff.
  - rewrite build_feature_table_Raise by done. split; [|done].
    intros Hfit. destruct Hall. rewrite map_Forall_to_list in Hfit.
    eapply Forall_impl; [exact Hfit|]. intros [s i] (v & Hv & _). cbn in *.
    by eexists.
Qed.

End SetupFacts.

Section ModelClassFacts.
Import Setup.

Implicit Types (names : names_arg) (inputs : slide_inputs).

(** X11: slide-level input.  [Model._setup_inputs] does nothing when there
    are no slide-level features; otherwise, like [CPHModel._setup_inputs] in
    every case, it succeeds exactly when every slide has an ['input'] entry
    whose length is the number of features, the table then holding each
    slide's input; if not, the failure is [ModelError] (an input missing or
    of the wrong length), never a [KeyError]. *)
Theorem setup_inputs_outcome (features : Z) inputs :
  (features = 0 -> _setup_inputs features inputs = Ok None) /\
  (features <> 0 -> inputs_fit features inputs ->
   _setup_inputs features inputs = Ok (Some (omap id inputs))) /\
  (features <> 0 -> ~ inputs_fit features inputs ->
   _setup_inputs features inputs = Raise ModelError) /\
  (inputs_fit features inputs ->
   _setup_inputs_cph features inputs = Ok (omap id inputs)) /\
  (~ inputs_fit features inputs ->
   _setup_inputs_cph features inputs = Raise ModelError).
Proof.
  destruct (_setup_inputs_cph_spec features inputs) as [Hok Hbad].
  unfold _setup_inputs. split_and!; try done.
  - by intros ->.
  - intros Hf Hfit. rewrite (proj2 (Z.eqb_neq _ _) Hf). cbn [negb].
    by rewrite Hok.
  - intros Hf Hfit. rewrite (proj2 (Z.eqb_neq _ _) Hf). cbn [negb].
    by rewrite Hbad.
Qed.

Lemma setup_inputs_outcome_witness :
  _setup_inputs 2 {[ "slideA" := Some [1%Q; 0%Q]; "slideB" := None ]}
  = Raise ModelError.
Proof.
  destruct (setup_inputs_outcome 2
              {[ "slideA" := Some [1%Q; 0%Q]; "slideB" := None ]})
    as (_ & _ & H & _).
  apply H; [done|]. intros Hfit.
  destruct (Hfit "slideB" None) as (v & Hv & _); [by vm_compute | done].
Defined.

Lemma _setup_inputs_cph_Raise (features : Z) inputs (e : exn) :
  _setup_inputs_cph features inputs = Raise e -> e = ModelError.
Proof.
  destruct (_setup_inputs_cph_spec features inputs) as [Hok Hbad].
  destruct (inputs_fit_cases features inputs) as [H|H].
  - by rewrite Hok.
  - rewrite Hbad; [congruence | done].
Qed.

(** X12: constructing a model fails, as far as outcome names and slide-level
    input are concerned, only with [ModelError]; and a [CPHModel] without
    slide-level features ([feature_sizes] is [None], empty, or sums to zero)
    cannot be constructed at all, whatever the annotations: it always ends in
    [ModelError]. *)
Theorem cph_model_requires_features (c : model_class)
    (feature_sizes : option (list Z)) names (n : nat) inputs :
  (forall e, init_model c feature_sizes names n inputs = Raise e ->
             e = ModelError) /\
  (num_slide_features feature_sizes = 0 ->
   init_model CPHModelClass feature_sizes names n inputs = Raise ModelError) /\
  num_slide_features None = 0 /\ num_slide_features (Some []) = 0.
Proof.
  pose proof (outcome_names_Raise names n) as Hnames.
  split_and!; try done.
  - intros e. unfold init_model. cbv zeta.
    destruct (outcome_names names n) as [l|e'] eqn:Hn;
      [|intros [= <-]; by apply Hnames].
    cbn [bind]. destruct c.
    + unfold _setup_inputs. destruct (negb _); [|done].
      destruct (_setup_inputs_cph _ inputs) as [t|e'] eqn:Ht; [done|].
      intros [= <-]. by eapply _setup_inputs_cph_Raise.
    + unfold _setup_inputs. destruct (negb _); [|done].
      destruct (_setup_inputs_cph _ inputs) as [t|e'] eqn:Ht; [done|].
      intros [= <-]. by eapply _setup_inputs_cph_Raise.
    + destruct (_setup_inputs_cph _ inputs) as [t|e'] eqn:Ht.
      * cbn [bind]. destruct (Z.eqb _ _); [by intros [= <-] | done].
      * intros [= <-]. by eapply _setup_inputs_cph_Raise.
  - intros Hf. unfold init_model. cbv zeta. rewrite Hf.
    destruct (outcome_names names n) as [l|e] eqn:Hn.
    + cbn [bind].
      destruct (_setup_inputs_cph 0 inputs) as [t|e] eqn:Ht; [done|].
      cbn [bind]. f_equal. by eapply _setup_inputs_cph_Raise.
    + cbn [bind]. f_equal. by apply Hnames.
Qed.

Lemma cph_model_requires_features_witness :
  init_model CPHModelClass None NoNames 1 {[ "slideA" := Some [] ]}
  = Raise ModelError.
Proof.
  destruct (cph_model_requires_features CPHModelClass None NoNames 1
              {[ "slideA" := Some [] ]}) as (_ & H & _).
  by apply H.
Defined.


(** X14: the label vector of a linear (or CPH) model is the slide's row of
    outcome labels: [_parse_tfrecord_labels] returns, for a slide of the
    annotations, exactly the labels the annotations give it, in order; for a
    slide that is not annotated every entry is the default [-1] of the lookup
    tables. *)
Theorem parse_labels_roundtrip (ann : Model.annotations) (slide : string)
    (n : nat) :
  (forall a, ann !! slide = Some a -> length (Model.outcome_label a) = n ->
             parse_labels ann n slide = Model.outcome_label a) /\
  (ann !! slide = None -> parse_labels ann n slide = replicate n (-1)).
Proof.
  unfold parse_labels, Model.table_lookup, Model.annotations_table. split.
  - intros a Ha Hlen. apply list_eq. intros i.
    rewrite list_lookup_fmap.
    destruct (decide (i < n)%nat) as [Hi|Hi].
    + rewrite lookup_seq_lt by done. cbn [fmap option_fmap option_map Nat.add].
      rewrite lookup_omap, Ha. cbn [mbind option_bind].
      destruct (lookup_lt_is_Some_2 (Model.outcome_label a) i) as [z Hz];
        [lia|]. by rewrite Hz.
    + rewrite lookup_seq_ge by lia. symmetry. apply lookup_ge_None. lia.
  - intros Ha. apply list_eq. intros i.
    rewrite list_lookup_fmap.
    destruct (decide (i < n)%nat) as [Hi|Hi].
    + rewrite lookup_seq_lt by done. cbn [fmap option_fmap option_map Nat.add].
      rewrite lookup_omap, Ha. cbn [mbind option_bind].
      by rewrite lookup_replicate_2.
    + rewrite lookup_seq_ge by lia. symmetry. apply lookup_ge_None.
      rewrite length_replicate. lia.
Qed.

Lemma parse_labels_roundtrip_witness :
  parse_labels ModelExamples.ann 1 "slideA" = [1] /\
  parse_labels ModelExamples.ann 1 "slideB" = [-1].
Proof.
  destruct (parse_labels_roundtrip ModelExamples.ann "slideA" 1) as [H _].
  destruct (parse_labels_roundtrip ModelExamples.ann "slideB" 1) as [_ H'].
  split.
  - by apply (H {| Model.submitter_id := "patient1";
                   Model.outcome_label := [1] |}).
  - by apply H'.
Defined.

End ModelClassFacts.

(** * Further properties of the callback *)

Section CallbackSteps.
Import Callback Trace.

Variable hp : hparams.
Variable args : cb_args.
Variable par : parent.

(** What a successful smoothing step changes. *)
Lemma smooth_Ok_frame batch tl vl v st st2 :
  smooth args batch tl vl v st = Ok st2 ->
  early_stop st2 = early_stop st /\ stop_training st2 = stop_training st /\
  ema_two_checks_prior st2 = ema_two_checks_prior st /\
  ema_one_check_prior st2 = ema_one_check_prior st /\
  epoch_count st2 = epoch_count st /\ files st2 = files st /\
  results st2 = results st /\
  (exists s, trace st2 = (trace st ++ [LogBatch batch tl vl s])%list) /\
  ((last_ema st2 = last_ema st /\ moving_average st2 = moving_average st /\
    Z.of_nat (length (moving_average st)) <= ema_observations args) \/
   (ema_observations args < Z.of_nat (length (moving_average st)) /\
    moving_average st2 = tail (moving_average st))).
Proof.
  unfold smooth.
  destruct (Z.leb_spec (Z.of_nat (length (moving_average st)))
              (ema_observations args)) as [Hle|Hgt].
  - intros <-%Ok_inj. split_and!; try done; [by eexists | by left].
  - destruct (moving_average st) as [|x w] eqn:Hma; [done|].
    cbn [bind set_moving_average last_ema moving_average].
    destruct (unset (last_ema st)).
    + destruct (bool_decide (length w = 0%nat)); [done|].
      intros <-%Ok_inj. split_and!; try done; [by eexists | by right].
    + destruct (Z.eqb (1 + ema_observations args) 0); [done|].
      intros <-%Ok_inj. split_and!; try done; [by eexists | by right].
Qed.

(** What a successful early-stopping step changes: nothing, or it fires, or
    it shifts the snapshots. *)
Lemma check_early_stop_Ok_frame batch st st' :
  check_early_stop hp args batch st = Ok st' ->
  last_ema st' = last_ema st /\ moving_average st' = moving_average st /\
  epoch_count st' = epoch_count st /\ files st' = files st /\
  results st' = results st /\
  ((st' = st) \/
   (hp_early_stop hp = true /\ unset (last_ema st) = false /\
    steps_per_epoch args <> 0 /\
    Qgt_bool (elapsed_epochs args batch st)
             (inject_Z (hp_early_stop_patience hp)) = true /\
    ((not_improving hp st = true /\ early_stop st' = true /\
      stop_training st' = true /\
      trace st' = (trace st ++ [LogEarlyStop (epoch_count st + 1) batch])%list /\
      ema_two_checks_prior st' = ema_two_checks_prior st /\
      ema_one_check_prior st' = ema_one_check_prior st) \/
     (not_improving hp st = false /\ early_stop st' = early_stop st /\
      stop_training st' = stop_training st /\ trace st' = trace st /\
      ema_two_checks_prior st' = ema_one_check_prior st /\
      ema_one_check_prior st' = last_ema st)))).
Proof.
  unfold check_early_stop.
  destruct (hp_early_stop hp) eqn:Hon; cbn [andb];
    [|intros <-%Ok_inj; split_and!; try done; by left].
  destruct (unset (last_ema st)) eqn:Hu; cbn [negb];
    [intros <-%Ok_inj; split_and!; try done; by left|].
  destruct (Z.eqb_spec (steps_per_epoch args) 0) as [E|E]; [done|].
  destruct (Qgt_bool _ _) eqn:Hgt;
    [|intros <-%Ok_inj; split_and!; try done; by left].
  destruct (not_improving hp st) eqn:Hni; intros <-%Ok_inj;
    (split_and!; try done); right; (split_and!; try done).
  - left. by split_and!.
  - right. by split_and!.
Qed.

(** The ways in which [on_train_batch_end] returns. *)
Lemma on_train_batch_end_Ok_cases batch logs vm st st' :
  on_train_batch_end hp args batch logs vm st = Ok st' ->
  (check_due args batch = false /\ st' = st) \/
  (check_due args batch = true /\
   exists vl tl, vm !! "loss" = Some vl /\ logs !! "loss" = Some tl /\
     ((invalid_metric hp = true /\
       st' = emit (LogBatch batch tl vl Raw)
               (observe (early_stop_value_of hp vm vl) st)) \/
      (invalid_metric hp = false /\
       exists st2,
         smooth args batch tl vl (early_stop_value_of hp vm vl)
           (observe (early_stop_value_of hp vm vl) st) = Ok st2 /\
         check_early_stop hp args batch st2 = Ok st'))).
Proof.
  intros H. destruct (check_due args batch) eqn:Hdue.
  - right. split; [done|]. unfold on_train_batch_end in H. rewrite Hdue in H.
    unfold getitem in H.
    destruct (vm !! "loss") as [vl|]; [|done]. cbn [bind] in H.
    destruct (logs !! "loss") as [tl|]; [|done]. cbn [bind] in H.
    exists vl, tl. split; [done|]. split; [done|].
    destruct (invalid_metric hp).
    + left. split; [done|]. by apply Ok_inj in H.
    + right. split; [done|]. apply bind_Ok in H as (st2 & H2 & H').
      by exists st2.
  - left. split; [done|].
    rewrite (on_train_batch_end_not_due hp args batch logs vm st Hdue) in H.
    by apply Ok_inj in H.
Qed.

(** The fields every successful [on_train_batch_end] leaves alone, and the
    direction in which it can move the early-stop flag. *)
Lemma on_train_batch_end_frame batch logs vm st st' :
  on_train_batch_end hp args batch logs vm st = Ok st' ->
  epoch_count st' = epoch_count st /\ files st' = files st /\
  results st' = results st /\
  (early_stop st = true -> early_stop st' = true) /\
  (hp_early_stop hp = false ->
   early_stop st' = early_stop st /\
   ema_two_checks_prior st' = ema_two_checks_prior st /\
   ema_one_check_prior st' = ema_one_check_prior st) /\
  exists evs : list event, trace st' = (trace st ++ evs)%list /\
    forallb is_monitor_event evs = true /\
    (hp_early_stop hp = false -> triggers evs = 0%nat) /\
    checks evs = (if check_due args batch then 1 else 0)%nat.
Proof.
  intros H.
  destruct (on_train_batch_end_Ok_cases _ _ _ _ _ H)
    as [[Hdue ->]|(Hdue & vl & tl & _ & _ & [[_ ->]|(_ & st2 & Hsm & Hce)])];
    rewrite Hdue.
  - split_and!; try done. exists []. by rewrite app_nil_r.
  - split_and!; try done. by eexists.
  - destruct (smooth_Ok_frame _ _ _ _ _ _ Hsm)
      as (E1 & E2 & E3 & E4 & E5 & E6 & E7 & (s & E8) & _).
    cbn [observe set_moving_average set_stop_training early_stop stop_training
         ema_two_checks_prior ema_one_check_prior epoch_count files results
         trace] in *.
    destruct (check_early_stop_Ok_frame _ _ _ Hce)
      as (_ & _ & F3 & F4 & F5 &
          [->|(Hon & _ & _ & _ &
               [(_ & G1 & G2 & G3 & G4 & G5)|(_ & G1 & G2 & G3 & G4 & G5)])]).
    + split_and!; try congruence; try (intros ?; split_and!; congruence).
      exists [LogBatch batch tl vl s]. by rewrite E8.
    + split_and!; try congruence; try (intros ?; split_and!; congruence).
      exists [LogBatch batch tl vl s; LogEarlyStop (epoch_count st2 + 1) batch].
      rewrite G3, E8, <- app_assoc. split_and!; try done. congruence.
    + split_and!; try congruence; try (intros ?; split_and!; congruence).
      exists [LogBatch batch tl vl s]. rewrite G3, E8. by split_and!.
Qed.

End CallbackSteps.

Section CallbackRuns.
Import Callback Trace.

Variable hp : hparams.
Variable args : cb_args.
Variable par : parent.

Lemma checks_app (tr evs : list event) :
  checks (tr ++ evs) = (checks tr + checks evs)%nat.
Proof. unfold checks. by rewrite List.filter_app, length_app. Qed.

Lemma checks_other (evs : list event) :
  forallb (fun e => negb (is_monitor_event e)) evs = true -> checks evs = 0%nat.
Proof.
  unfold checks. induction evs as [|e evs IH]; [done|].
  cbn [forallb List.filter]. intros [He Hevs]%andb_true_iff.
  destruct e; try done; cbn [is_check]; by apply IH.
Qed.

(** The number of epoch ends and of due checks in one invocation. *)
Lemma invoke_frame (c : call) st st' :
  invoke hp args par c st = Ok st' ->
  epoch_count st' = epoch_count st + Z.of_nat (epoch_ends [c]) /\
  (early_stop st = true -> early_stop st' = true) /\
  (hp_early_stop hp = false ->
   early_stop st' = early_stop st /\
   ema_two_checks_prior st' = ema_two_checks_prior st /\
   ema_one_check_prior st' = ema_one_check_prior st) /\
  exists evs : list event, trace st' = (trace st ++ evs)%list /\
    (hp_early_stop hp = false -> triggers evs = 0%nat) /\
    checks evs = due_checks args [c].
Proof.
  destruct c as [batch logs vm|logs ev w]; cbn [invoke]; intros H.
  - destruct (on_train_batch_end_frame hp args _ _ _ _ _ H)
      as (E1 & _ & _ & E2 & E3 & evs & E4 & _ & E5 & E6).
    split_and!; [cbn; lia | done..|].
    exists evs. split_and!; [done..|]. rewrite E6. unfold due_checks.
    cbn [List.filter]. by destruct (check_due args batch).
  - destruct (on_epoch_end_monitor hp args par logs ev w st)
      as (st'' & Hstep & E1 & _ & _ & E2 & E3 & E4 & _ & evs & E5 & E6).
    rewrite Hstep in H. apply Ok_inj in H as ->.
    split_and!; [cbn; lia | congruence | by intros _ |].
    exists evs. split_and!; [done | |].
    + intros _. by apply triggers_other.
    + by rewrite checks_other.
Qed.

Lemma epoch_ends_cons (c : call) (calls : list call) :
  epoch_ends (c :: calls) = (epoch_ends [c] + epoch_ends calls)%nat.
Proof. unfold epoch_ends. cbn [List.filter]. by destruct c. Qed.

Lemma due_checks_cons (c : call) (calls : list call) :
  due_checks args (c :: calls)
  = (due_checks args [c] + due_checks args calls)%nat.
Proof.
  unfold due_checks. cbn [List.filter].
  destruct c as [batch ? ?|]; [|done]. by destruct (check_due args batch).
Qed.

(** X15: the early-stop flag is never cleared.  Whatever callbacks follow,
    once [early_stop] is set it stays set, and every later [on_epoch_end]
    tells the model to stop (it sets [model.stop_training]), although each
    validation check in between resets [model.stop_training]. *)
Theorem early_stop_never_cleared (calls : list call) st st' :
  run hp args par calls st = Ok st' -> early_stop st = true ->
  early_stop st' = true /\
  forall logs ev w, exists st'',
    on_epoch_end hp args par logs ev w st' = Ok st'' /\
    stop_training st'' = true.
Proof.
  intros Hrun Hes.
  assert (early_stop st' = true) as Hes'.
  { revert st Hrun Hes. induction calls as [|c calls IH]; intros st Hrun Hes.
    - cbn [run] in Hrun. by apply Ok_inj in Hrun as <-.
    - cbn [run] in Hrun. apply bind_Ok in Hrun as (st1 & Hc & Hrun).
      apply (IH st1 Hrun).
      destruct (invoke_frame _ _ _ Hc) as (_ & H & _). by apply H. }
  split; [done|]. intros logs ev w.
  destruct (on_epoch_end_monitor hp args par logs ev w st')
    as (st'' & Hstep & _ & _ & _ & _ & _ & _ & Hstop & _).
  exists st''. split; [done|]. congruence.
Qed.

(** X16: the counters of a run.  Over any sequence of callbacks that returns,
    [epoch_count] has grown by the number of [on_epoch_end] calls, and the
    batch log lines written are one per validation check that was due
    (nothing else writes one, and no due check goes unlogged). *)
Theorem run_counters (calls : list call) st st' :
  run hp args par calls st = Ok st' ->
  epoch_count st' = epoch_count st + Z.of_nat (epoch_ends calls) /\
  checks (trace st') = (checks (trace st) + due_checks args calls)%nat.
Proof.
  revert st. induction calls as [|c calls IH]; intros st Hrun.
  - cbn [run] in Hrun. apply Ok_inj in Hrun as <-. cbn. split; lia.
  - cbn [run] in Hrun. apply bind_Ok in Hrun as (st1 & Hc & Hrun).
    destruct (invoke_frame _ _ _ Hc) as (E1 & _ & _ & evs & E2 & _ & E3).
    destruct (IH st1 Hrun) as [F1 F2].
    rewrite epoch_ends_cons, due_checks_cons, F1, F2, E1, E2, checks_app, E3.
    split; lia.
Qed.

(** X17: with [hp.early_stop] false, no sequence of callbacks ever sets the
    early-stop flag, takes a snapshot of the EMA, or logs a trigger. *)
Theorem disabled_early_stop_never_triggers (calls : list call) st st' :
  hp_early_stop hp = false -> run hp args par calls st = Ok st' ->
  early_stop st' = early_stop st /\
  ema_two_checks_prior st' = ema_two_checks_prior st /\
  ema_one_check_prior st' = ema_one_check_prior st /\
  triggers (trace st') = triggers (trace st).
Proof.
  intros Hoff. revert st. induction calls as [|c calls IH]; intros st Hrun.
  - cbn [run] in Hrun. by apply Ok_inj in Hrun as <-.
  - cbn [run] in Hrun. apply bind_Ok in Hrun as (st1 & Hc & Hrun).
    destruct (invoke_frame _ _ _ Hc) as (_ & _ & E & evs & E2 & E3 & _).
    destruct (E Hoff) as (E4 & E5 & E6).
    destruct (IH st1 Hrun) as (F1 & F2 & F3 & F4).
    rewrite F1, F2, F3, F4, E2, triggers_app, (E3 Hoff).
    split_and!; [done..|lia].
Qed.

(** X18: with an undefined metric (early-stop method ['accuracy'] on a model
    that is not categorical) the list of observed values is never trimmed:
    over any sequence of callbacks it grows by one value per validation check
    that was due, beyond [ema_observations]. *)
Theorem undefined_metric_window_grows (calls : list call) st st' :
  invalid_metric hp = true -> run hp args par calls st = Ok st' ->
  length (moving_average st') =
    (length (moving_average st) + due_checks args calls)%nat.
Proof.
  intros Hmode. revert st. induction calls as [|c calls IH]; intros st Hrun.
  - cbn [run] in Hrun. apply Ok_inj in Hrun as <-. cbn. lia.
  - cbn [run] in Hrun. apply bind_Ok in Hrun as (st1 & Hc & Hrun).
    rewrite (IH st1 Hrun), due_checks_cons.
    destruct c as [batch logs vm|logs ev w]; cbn [invoke] in Hc.
    + destruct (on_train_batch_end_Ok_cases hp args _ _ _ _ _ Hc)
        as [[Hdue ->]|(Hdue & vl & tl & _ & _ & [[_ ->]|(Hv & _)])];
        [| |congruence]; unfold due_checks; cbn [List.filter]; rewrite Hdue.
      * cbn. lia.
      * cbn [emit observe set_moving_average moving_average].
        rewrite length_app. cbn. lia.
    + destruct (on_epoch_end_monitor hp args par logs ev w st)
        as (st'' & Hstep & _ & _ & E & _).
      rewrite Hstep in Hc. apply Ok_inj in Hc as ->. rewrite E. cbn. lia.
Qed.

End CallbackRuns.

Section MonitorBounds.
Import Callback Trace.

Variable hp : hparams.
Variable args : cb_args.
Variable par : parent.

Lemma enough_checks_invoke (c : call) st st' :
  enough_checks args st -> invoke hp args par c st = Ok st' ->
  enough_checks args st'.
Proof.
  unfold enough_checks. cbv zeta. intros (J1 & J2 & J3 & J4 & J5) H.
  destruct c as [batch logs vm|logs ev w]; cbn [invoke] in H.
  - destruct (on_train_batch_end_Ok_cases hp args _ _ _ _ _ H)
      as [[_ ->]|(_ & vl & tl & _ & _ & [[_ ->]|(_ & st2 & Hsm & Hce)])].
    + done.
    + cbn [emit observe set_moving_average set_stop_training moving_average
           last_ema ema_one_check_prior ema_two_checks_prior early_stop trace].
      rewrite checks_app, length_app. cbn [checks List.filter is_check length].
      split_and!; [lia | intros E; apply J2 in E; lia
                  | intros E; apply J3 in E; lia
                  | intros E; apply J4 in E; lia
                  | intros E; apply J5 in E; lia].
    + destruct (smooth_Ok_frame _ _ _ _ _ _ _ Hsm)
        as (E1 & _ & E3 & E4 & _ & _ & _ & (s & E8) & Hwin).
      cbn [observe set_moving_average set_stop_training early_stop
           ema_two_checks_prior ema_one_check_prior last_ema moving_average
           trace] in *.
      assert (Z.of_nat (checks (trace st2)) = Z.of_nat (checks (trace st)) + 1)
        as Hc2.
      { rewrite E8, checks_app. cbn [checks List.filter is_check length]. lia. }
      assert (Z.of_nat (length (moving_average st2))
              <= Z.of_nat (checks (trace st2)) /\
              (unset (last_ema st2) = false ->
               ema_observations args + 1 <= Z.of_nat (checks (trace st2))))
        as [K1 K2].
      { destruct Hwin as [(W1 & W2 & _)|(W1 & W2)].
        - rewrite W1, W2, length_app. cbn [length]. split; [lia|].
          intros E. apply J2 in E. lia.
        - rewrite length_app in W1. cbn [length] in W1. rewrite W2.
          assert (length (tail (moving_average st ++ [early_stop_value_of hp vm vl]))
                  = length (moving_average st)) as ->.
          { destruct (moving_average st); [done|]. cbn [app tail length].
            rewrite length_app. cbn [length]. lia. }
          split; [lia|]. intros _. lia. }
      destruct (check_early_stop_Ok_frame hp args _ _ _ Hce)
        as (F1 & F2 & _ & _ & _ &
            [->|(_ & Hu & _ & _ &
                 [(Hni & G1 & _ & G3 & G4 & G5)|(_ & G1 & _ & G3 & G4 & G5)])]).
      * rewrite E1, E3, E4.
        split_and!; [done | done | intros E; apply J3 in E; lia
                    | intros E; apply J4 in E; lia
                    | intros E; apply J5 in E; lia].
      * assert (Z.of_nat (checks (trace st'))
                = Z.of_nat (checks (trace st2))) as ->.
        { rewrite G3, checks_app. cbn [checks List.filter is_check length]. lia. }
        rewrite F1, F2, G4, G5, E3, E4.
        apply not_improving_iff in Hni as [Htwo _]. rewrite E3 in Htwo.
        apply J4 in Htwo.
        split_and!; [done | done | intros E; apply J3 in E; lia
                    | intros _; lia | intros _; lia].
      * rewrite F1, F2, G1, G3, G4, G5, E1, E4.
        split_and!; [done | done | done | intros E; apply J3 in E; lia
                    | intros E; apply J5 in E; lia].
  - destruct (on_epoch_end_monitor hp args par logs ev w st)
      as (st'' & Hstep & E1 & E2 & E3 & E4 & E5 & _ & _ & evs & E6 & E7).
    rewrite Hstep in H. apply Ok_inj in H as ->.
    rewrite E1, E2, E3, E4, E5, E6, checks_app, (checks_other _ E7).
    rewrite Nat.add_0_r. done.
Qed.

(** X19: the monitor cannot act before it has seen enough validation
    checks.  In any run from the initial state, the EMA is not seeded before
    [ema_observations + 1] checks have been logged, the snapshot of two
    checks before does not exist before [ema_observations + 2] checks, and
    early stopping is not triggered before the check number
    [ema_observations + 3]. *)
Theorem trigger_needs_observations (calls : list call) (fs : file_system) st :
  run hp args par calls (init args fs) = Ok st ->
  let c := Z.of_nat (checks (trace st)) in
  (unset (last_ema st) = false -> ema_observations args + 1 <= c) /\
  (unset (ema_two_checks_prior st) = false -> ema_observations args + 2 <= c) /\
  (early_stop st = true -> ema_observations args + 3 <= c).
Proof.
  intros Hrun.
  assert (enough_checks args st) as (_ & J2 & _ & J4 & J5); [|done].
  assert (enough_checks args (init args fs)) as Hinit.
  { unfold enough_checks. cbn. split_and!; try done; lia. }
  revert Hrun Hinit. generalize (init args fs).
  induction calls as [|c calls IH]; intros st0 Hrun Hinv.
  - cbn [run] in Hrun. by apply Ok_inj in Hrun as <-.
  - cbn [run] in Hrun. apply bind_Ok in Hrun as (st1 & Hc & Hrun).
    apply (IH st1 Hrun). by eapply enough_checks_invoke.
Qed.

End MonitorBounds.

Section CheckErrors.
Import Callback Trace.

Variable hp : hparams.
Variable args : cb_args.
Variable par : parent.

(** X20: the only way a call of [on_train_batch_end] fails, when
    [ema_observations] is positive and [steps_per_epoch] is not zero: a
    validation check is due and the validation metrics or the training logs
    have no ['loss'] entry; the exception is then [KeyError].  In particular
    [pop(0)] and the two divisions of the smoothing step never fail, in
    whatever state the callback is. *)
Theorem check_fails_only_on_missing_loss batch logs vm st (e : exn) :
  0 < ema_observations args -> steps_per_epoch args <> 0 ->
  on_train_batch_end hp args batch logs vm st = Raise e <->
  e = KeyError /\ check_due args batch = true /\
  (vm !! "loss" = None \/ logs !! "loss" = None).
Proof.
  intros Hn Hsteps. split.
  - intros H. unfold on_train_batch_end in H.
    destruct (check_due args batch) eqn:Hdue; [|done].
    unfold getitem in H.
    destruct (vm !! "loss") as [vl|] eqn:Hvl;
      [|injection H as <-; split_and!; [done..|by left]].
    cbn [bind] in H.
    destruct (logs !! "loss") as [tl|] eqn:Htl;
      [|injection H as <-; split_and!; [done..|by right]].
    cbn [bind] in H. exfalso.
    destruct (invalid_metric hp); [done|].
    set (v := early_stop_value_of hp vm vl) in *.
    assert (exists st2, smooth args batch tl vl v (observe v st) = Ok st2)
      as [st2 Hsm].
    { destruct (smooth_cases args batch tl vl v (observe v st) Hn)
        as [(_ & ->)|[(_ & _ & ->)|(_ & _ & ->)]]; try by eexists.
      cbn [observe set_moving_average moving_average].
      intros Hnil. by apply app_eq_nil in Hnil as [_ ?]. }
    rewrite Hsm in H. cbn [bind] in H.
    destruct (check_early_stop_cases hp args batch st2 Hsteps)
      as [(_ & Hce)|(_ & st' & Hce & _)]; by rewrite Hce in H.
  - intros (-> & Hdue & Hmiss). unfold on_train_batch_end, getitem.
    rewrite Hdue. destruct Hmiss as [->|Hl]; [done|].
    destruct (vm !! "loss"); [|done]. cbn [bind]. by rewrite Hl.
Qed.

(** X21: with [ema_observations <= 0] the monitor cannot start: the first
    validation check (empty window, no EMA yet) of a run whose metric is
    defined raises [ZeroDivisionError], since the window is empty again once
    its only value has been popped. *)
Theorem first_check_needs_positive_observations batch logs vm st :
  ema_observations args <= 0 -> invalid_metric hp = false ->
  check_due args batch = true ->
  is_Some (vm !! "loss") -> is_Some (logs !! "loss") ->
  moving_average st = [] -> unset (last_ema st) = true ->
  on_train_batch_end hp args batch logs vm st = Raise ZeroDivisionError.
Proof.
  intros Hn Hmode Hdue (vl & Hvl & _)%getitem_Some (tl & Htl & _)%getitem_Some
    Hma Hu.
  rewrite (on_train_batch_end_due hp args batch logs vm st vl tl Hdue Hvl Htl).
  cbv zeta. rewrite Hmode. unfold smooth.
  cbn [observe set_moving_average set_stop_training moving_average last_ema].
  rewrite Hma. cbn [app length].
  destruct (Z.leb_spec (Z.of_nat 1) (ema_observations args)) as [H|H]; [lia|].
  cbn [bind set_moving_average last_ema]. by rewrite Hu.
Qed.

(** X22: with [steps_per_epoch = 0] and early stopping enabled, no run can
    establish an EMA: in every run from the initial state that returns, the
    EMA is still unset and the early-stop flag is off.  The check that would
    seed the EMA (full window, simple moving average different from the
    marker [-1]) raises [ZeroDivisionError] in the patience test. *)
Theorem zero_steps_never_seeds :
  steps_per_epoch args = 0 -> hp_early_stop hp = true ->
  (forall (calls : list call) (fs : file_system) st,
     run hp args par calls (init args fs) = Ok st ->
     unset (last_ema st) = true /\ early_stop st = false) /\
  (forall batch logs vm vl tl st,
     invalid_metric hp = false -> check_due args batch = true ->
     vm !! "loss" = Some vl -> logs !! "loss" = Some tl ->
     0 < ema_observations args ->
     Z.of_nat (length (moving_average st)) = ema_observations args ->
     unset (last_ema st) = true ->
     let w := tail (moving_average st ++ [early_stop_value_of hp vm vl]) in
     unset (py_sum w / inject_Z (Z.of_nat (length w))) = false ->
     on_train_batch_end hp args batch logs vm st = Raise ZeroDivisionError).
Proof.
  intros Hsteps Hon. split.
  - intros calls fs.
    assert (unset (last_ema (init args fs)) = true /\
            early_stop (init args fs) = false) as Hinit by done.
    revert Hinit. generalize (init args fs).
    induction calls as [|c calls IH]; intros st0 [Hu Hes] st Hrun.
    + cbn [run] in Hrun. by apply Ok_inj in Hrun as <-.
    + cbn [run] in Hrun. apply bind_Ok in Hrun as (st1 & Hc & Hrun).
      apply (IH st1); [|done].
      destruct c as [batch logs vm|logs ev w]; cbn [invoke] in Hc.
      * destruct (on_train_batch_end_Ok_cases hp args _ _ _ _ _ Hc)
          as [[_ ->]|(_ & vl & tl & _ & _ & [[_ ->]|(_ & st2 & Hsm & Hce)])];
          [done | done |].
        destruct (smooth_Ok_frame _ _ _ _ _ _ _ Hsm) as (E1 & _).
        destruct (check_early_stop_Ok_frame hp args _ _ _ Hce)
          as (_ & _ & _ & _ & _ & [->|(_ & _ & ? & _)]); [|done].
        split; [|by rewrite E1].
        unfold check_early_stop in Hce. rewrite Hon, Hsteps in Hce.
        cbn [andb] in Hce. by destruct (unset (last_ema st2)).
      * destruct (on_epoch_end_monitor hp args par logs ev w st0)
          as (st'' & Hstep & E1 & E2 & _).
        rewrite Hstep in Hc. apply Ok_inj in Hc as ->. by rewrite E1, E2.
  - intros batch logs vm vl tl st Hmode Hdue Hvl Htl Hn Hlen Hu w Hsma.
    assert (getitem vm "loss" = Ok vl) as Hvl' by (unfold getitem; by rewrite Hvl).
    assert (getitem logs "loss" = Ok tl) as Htl' by (unfold getitem; by rewrite Htl).
    rewrite (on_train_batch_end_due hp args batch logs vm st vl tl Hdue Hvl' Htl').
    cbv zeta. rewrite Hmode.
    set (v := early_stop_value_of hp vm vl) in *.
    destruct (smooth_cases args batch tl vl v (observe v st) Hn)
      as [(Hc & _)|[(_ & _ & ->)|(_ & Hu' & _)]].
    + cbn [observe set_moving_average moving_average].
      intros Hnil. by apply app_eq_nil in Hnil as [_ ?].
    + cbn [observe set_moving_average set_stop_training moving_average] in Hc.
      rewrite length_app in Hc. cbn [length] in Hc. lia.
    + cbv zeta. cbn [bind observe set_moving_average set_stop_training
        moving_average]. fold w. unfold check_early_stop.
      cbn [emit set_last_ema last_ema]. rewrite Hon, Hsma, Hsteps. done.
    + cbn [observe set_moving_average set_stop_training last_ema] in Hu'.
      congruence.
Qed.

End CheckErrors.

Section TrainingLoop.
Import Callback Trace.

Variable hp : hparams.
Variable args : cb_args.
Variable par : parent.

Lemma check_due_small (batch : Z) :
  0 <= batch < validate_on_batch args -> check_due args batch = false.
Proof.
  intros Hb. unfold check_due.
  destruct (using_validation args); [|done].
  destruct (Z.eqb_spec (validate_on_batch args) 0) as [E|E]; [done|].
  destruct (Z.ltb_spec 0 batch) as [Hpos|Hpos]; [|done].
  cbn [andb negb]. apply Z.eqb_neq. rewrite Z.mod_small by lia. lia.
Qed.

Lemma run_steps_no_check (steps : list step_input) (batch : Z) st :
  0 <= batch -> batch + Z.of_nat (length steps) <= validate_on_batch args ->
  run_steps hp args batch steps st = Ok st.
Proof.
  revert batch. induction steps as [|s steps IH]; intros batch Hb Hlen; [done|].
  cbn [run_steps length] in *.
  rewrite (on_train_batch_end_not_due hp args) by (apply check_due_small; lia).
  cbn [bind]. destruct (stop_training st); [done|]. apply IH; lia.
Qed.

(** X23: epochs too short for a validation check.  When no epoch has more
    steps than [validate_on_batch] (512 unless the caller says otherwise),
    no batch index of the training loop is a positive multiple of
    [validate_on_batch]: the loop never fails, performs no validation check
    during an epoch, and leaves the early-stopping monitor as it found it,
    so that early stopping cannot trigger whatever the losses are. *)
Theorem short_epochs_never_check (epochs : list epoch_input) st :
  Forall (fun e => Z.of_nat (length (e_steps e)) <= validate_on_batch args)
         epochs ->
  exists st', fit hp args par epochs st = Ok st' /\
    early_stop st' = early_stop st /\ last_ema st' = last_ema st /\
    moving_average st' = moving_average st /\
    ema_two_checks_prior st' = ema_two_checks_prior st /\
    checks (trace st') = checks (trace st) /\
    triggers (trace st') = triggers (trace st).
Proof.
  intros Hshort. revert st.
  induction Hshort as [|e epochs He _ IH]; intros st.
  - exists st. by split_and!.
  - cbn [fit]. rewrite run_steps_no_check by lia. cbn [bind].
    destruct (on_epoch_end_monitor hp args par (e_logs e) (e_eval e)
                (e_weights e) st)
      as (st1 & -> & E1 & E2 & E3 & E4 & _ & _ & _ & evs & E5 & E6).
    cbn [bind].
    assert (checks (trace st1) = checks (trace st) /\
            triggers (trace st1) = triggers (trace st)) as [E7 E8].
    { rewrite E5, checks_app, triggers_app, (checks_other _ E6),
        (triggers_other _ E6). lia. }
    destruct (stop_training st1).
    + exists st1. by split_and!.
    + destruct (IH st1) as (st' & -> & F1 & F2 & F3 & F4 & F5 & F6).
      exists st'. split_and!; congruence.
Qed.

(** *** Which checkpoints a run writes *)

Lemma saved_app (tr evs : list event) : saved (tr ++ evs) = (saved tr ++ saved evs)%list.
Proof. apply omap_app. Qed.

Lemma saved_monitor (evs : list event) :
  forallb is_monitor_event evs = true -> saved evs = [].
Proof.
  induction evs as [|e evs IH]; [done|].
  cbn [forallb]. intros [He Hevs]%andb_true_iff.
  destruct e; try done; by apply IH.
Qed.

Lemma evaluate_model_saved logs ev st st' :
  evaluate_model args logs ev st = Ok st' -> saved (trace st') = saved (trace st).
Proof.
  unfold evaluate_model. cbv zeta. intros <-%Ok_inj.
  destruct (skip_metrics args); cbn [negb emit set_results trace];
    rewrite !saved_app; cbn; by rewrite ?app_nil_r.
Qed.

Lemma on_epoch_end_saved logs ev w st st' :
  on_epoch_end hp args par logs ev w st = Ok st' ->
  saved (trace st') =
    (saved (trace st)
     ++ if bool_decide (epoch_count st + 1 ∈ hp_finetune_epochs hp)
        then [model_path_at par (epoch_count st + 1)] else [])%list.
Proof.
  unfold on_epoch_end.
  set (st0 := set_epoch_count (epoch_count st + 1) st).
  change (epoch_count st0) with (epoch_count st + 1).
  set (mp := model_path_at par (epoch_count st + 1)).
  assert (forall (m : result state) st',
            (let* st1 := m in Ok (set_stop_training (early_stop st1) st1))
            = Ok st' ->
            exists st1, m = Ok st1 /\ trace st' = trace st1) as Hlast.
  { intros m st2 (st1 & -> & <-%Ok_inj)%bind_Ok. by exists st1. }
  destruct (bool_decide (epoch_count st + 1 ∈ hp_finetune_epochs hp)).
  - pose proof (copy_sidecars_monitor mp (model_save mp w st0))
      as (_ & _ & _ & _ & _ & _ & Htr).
    destruct (copy_sidecars mp (model_save mp w st0)) as [st1 [e|]];
      cbn [fst] in Htr; intros (st2 & H2 & ->)%Hlast.
    + destruct (using_validation args).
      * apply evaluate_model_saved in H2 as ->.
        cbn [emit trace]. rewrite !saved_app, Htr. cbn.
        by rewrite app_nil_r.
      * apply Ok_inj in H2 as <-.
        cbn [emit trace]. rewrite !saved_app, Htr. cbn.
        by rewrite app_nil_r.
    + destruct (using_validation args).
      * apply evaluate_model_saved in H2 as ->.
        cbn [emit trace]. by rewrite !saved_app, Htr.
      * apply Ok_inj in H2 as <-.
        cbn [emit trace]. by rewrite !saved_app, Htr.
  - intros (st2 & H2 & ->)%Hlast. rewrite app_nil_r.
    destruct (early_stop st0).
    + by apply evaluate_model_saved in H2 as ->.
    + by apply Ok_inj in H2 as <-.
Qed.

Lemma run_steps_disabled (steps : list step_input) (batch : Z) st st' :
  hp_early_stop hp = false ->
  run_steps hp args batch steps st = Ok st' ->
  early_stop st' = early_stop st /\ epoch_count st' = epoch_count st /\
  saved (trace st') = saved (trace st).
Proof.
  intros Hoff. revert batch st.
  induction steps as [|s steps IH]; intros batch st Hrun.
  - cbn [run_steps] in Hrun. by apply Ok_inj in Hrun as <-.
  - cbn [run_steps] in Hrun. apply bind_Ok in Hrun as (st1 & Hc & Hrun).
    destruct (on_train_batch_end_frame hp args _ _ _ _ _ Hc)
      as (E1 & _ & _ & _ & E2 & evs & E3 & E4 & _).
    destruct (E2 Hoff) as (E5 & _).
    assert (saved (trace st1) = saved (trace st)) as E6.
    { by rewrite E3, saved_app, (saved_monitor _ E4), app_nil_r. }
    destruct (stop_training st1).
    + apply Ok_inj in Hrun as <-. by split_and!.
    + destruct (IH _ _ Hrun) as (F1 & F2 & F3). split_and!; congruence.
Qed.

End TrainingLoop.

Section Schedule.
Import Callback Trace.

Variable hp : hparams.
Variable args : cb_args.
Variable par : parent.

Lemma fit_schedule (epochs : list epoch_input) st st' :
  hp_early_stop hp = false -> early_stop st = false ->
  fit hp args par epochs st = Ok st' ->
  epoch_count st' = epoch_count st + Z.of_nat (length epochs) /\
  saved (trace st') =
    (saved (trace st)
     ++ (model_path_at par
         <$> filter (fun N => N ∈ hp_finetune_epochs hp)
               (seqZ (epoch_count st + 1) (Z.of_nat (length epochs)))))%list.
Proof.
  intros Hoff. revert st.
  induction epochs as [|e epochs IH]; intros st Hes Hfit.
  - cbn [fit] in Hfit. apply Ok_inj in Hfit as <-. cbn [length].
    split; [lia | by rewrite app_nil_r].
  - cbn [fit] in Hfit. apply bind_Ok in Hfit as (st1 & Hsteps & Hfit).
    apply bind_Ok in Hfit as (st2 & Hend & Hfit).
    destruct (run_steps_disabled hp args _ _ _ _ Hoff Hsteps) as (E1 & E2 & E3).
    pose proof (on_epoch_end_saved hp args par _ _ _ _ _ Hend) as E4.
    destruct (on_epoch_end_monitor hp args par (e_logs e) (e_eval e)
                (e_weights e) st1)
      as (st2' & Hend' & F1 & _ & _ & _ & _ & F2 & F3 & _).
    rewrite Hend' in Hend. apply Ok_inj in Hend as ->.
    rewrite F3, E1, Hes in Hfit.
    destruct (IH st2) as [G1 G2]; [congruence | done |].
    rewrite G1, G2, E4, E3, F2, E2. split; [cbn [length]; lia|].
    rewrite <- app_assoc. f_equal.
    rewrite (seqZ_cons (epoch_count st + 1)) by (cbn [length]; lia).
    rewrite filter_cons.
    replace (Z.succ (epoch_count st + 1)) with (epoch_count st + 1 + 1) by lia.
    replace (Z.pred (Z.of_nat (length (e :: epochs))))
      with (Z.of_nat (length epochs)) by (cbn [length]; lia).
    destruct (decide (epoch_count st + 1 ∈ hp_finetune_epochs hp)) as [Hin|Hin].
    + by rewrite bool_decide_eq_true_2.
    + by rewrite bool_decide_eq_false_2.
Qed.

(** X24: the checkpoints of a run without early stopping.  With
    [hp.early_stop] false the training loop, started on a fresh callback,
    runs every epoch it is given, and the model directories it writes are,
    in order, those of the epochs
    [starting_epoch + 1, ..., starting_epoch + len] that are members of
    [finetune_epochs]; no other epoch is saved. *)
Theorem checkpoint_schedule (epochs : list epoch_input) (fs : file_system) st :
  hp_early_stop hp = false ->
  fit hp args par epochs (init args fs) = Ok st ->
  epoch_count st = starting_epoch args + Z.of_nat (length epochs) /\
  saved (trace st) =
    model_path_at par
    <$> filter (fun N => N ∈ hp_finetune_epochs hp)
          (seqZ (starting_epoch args + 1) (Z.of_nat (length epochs))).
Proof.
  intros Hoff Hfit.
  destruct (fit_schedule epochs (init args fs) st Hoff eq_refl Hfit)
    as [Hcount Hsaved].
  split; [exact Hcount|]. rewrite Hsaved. reflexivity.
Qed.

(** *** Patience *)

Lemma elapsed_within (batch : Z) st :
  0 <= batch < steps_per_epoch args ->
  epoch_count st + 1 <= hp_early_stop_patience hp ->
  Qgt_bool (elapsed_epochs args batch st)
           (inject_Z (hp_early_stop_patience hp)) = false.
Proof.
  intros Hb Hp. apply not_true_iff_false. intros H%Qgt_bool_iff.
  unfold elapsed_epochs in H.
  assert (inject_Z batch / inject_Z (steps_per_epoch args) < 1)%Q as Hfrac.
  { apply Qlt_shift_div_r.
    - change 0%Q with (inject_Z 0). rewrite <- Zlt_Qlt. lia.
    - rewrite Qmult_1_l, <- Zlt_Qlt. lia. }
  assert (inject_Z (hp_early_stop_patience hp)
          < inject_Z (1 + epoch_count st))%Q as Hlt.
  { eapply Qlt_le_trans; [exact H|]. rewrite inject_Z_plus.
    apply Qplus_le_l. by apply Qlt_le_weak. }
  rewrite <- Zlt_Qlt in Hlt. lia.
Qed.

Lemma run_steps_patient (steps : list step_input) (batch : Z) st st' :
  0 <= batch -> batch + Z.of_nat (length steps) <= steps_per_epoch args ->
  epoch_count st + 1 <= hp_early_stop_patience hp ->
  run_steps hp args batch steps st = Ok st' ->
  early_stop st' = early_stop st /\ epoch_count st' = epoch_count st /\
  ema_two_checks_prior st' = ema_two_checks_prior st /\
  ema_one_check_prior st' = ema_one_check_prior st /\
  triggers (trace st') = triggers (trace st).
Proof.
  revert batch st. induction steps as [|s steps IH];
    intros batch st Hb Hlen Hp Hrun.
  - cbn [run_steps] in Hrun. by apply Ok_inj in Hrun as <-.
  - cbn [run_steps length] in *.
    apply bind_Ok in Hrun as (st1 & Hc & Hrun).
    assert (early_stop st1 = early_stop st /\ epoch_count st1 = epoch_count st /\
            ema_two_checks_prior st1 = ema_two_checks_prior st /\
            ema_one_check_prior st1 = ema_one_check_prior st /\
            triggers (trace st1) = triggers (trace st))
      as (E1 & E2 & E3 & E4 & E5).
    { destruct (on_train_batch_end_Ok_cases hp args _ _ _ _ _ Hc)
        as [[_ ->]|(_ & vl & tl & _ & _ & [[_ ->]|(_ & st2 & Hsm & Hce)])].
      - done.
      - cbn [emit observe set_moving_average set_stop_training early_stop
             epoch_count ema_two_checks_prior ema_one_check_prior trace].
        split_and!; [done..|]. rewrite triggers_app. cbn. lia.
      - destruct (smooth_Ok_frame _ _ _ _ _ _ _ Hsm)
          as (S1 & _ & S3 & S4 & S5 & _ & _ & (sm & S8) & _).
        cbn [observe set_moving_average set_stop_training early_stop
             epoch_count ema_two_checks_prior ema_one_check_prior trace] in *.
        assert (triggers (trace st2) = triggers (trace st)) as S9.
        { rewrite S8, triggers_app. cbn. lia. }
        destruct (check_early_stop_Ok_frame hp args _ _ _ Hce)
          as (_ & _ & _ & _ & _ & [->|(_ & _ & _ & Hgt & _)]); [done|].
        rewrite elapsed_within in Hgt; [done | lia | by rewrite S5]. }
    destruct (stop_training st1).
    + apply Ok_inj in Hrun as <-. by split_and!.
    + destruct (IH (batch + 1) st1) as (F1 & F2 & F3 & F4 & F5);
        [lia | lia | by rewrite E2 | done |].
      split_and!; congruence.
Qed.

(** X25: patience is honoured by the training loop.  When every epoch has
    at most [steps_per_epoch] steps, a run of the training loop that ends
    within the first [early_stop_patience] epochs (counted from zero, so
    including the epochs before [starting_epoch]) never triggers early
    stopping and takes no snapshot of the EMA: it runs all its epochs. *)
Theorem patience_is_honoured (epochs : list epoch_input) st st' :
  Forall (fun e => Z.of_nat (length (e_steps e)) <= steps_per_epoch args)
         epochs ->
  epoch_count st + Z.of_nat (length epochs) <= hp_early_stop_patience hp ->
  early_stop st = false ->
  fit hp args par epochs st = Ok st' ->
  early_stop st' = false /\
  epoch_count st' = epoch_count st + Z.of_nat (length epochs) /\
  ema_two_checks_prior st' = ema_two_checks_prior st /\
  ema_one_check_prior st' = ema_one_check_prior st /\
  triggers (trace st') = triggers (trace st).
Proof.
  intros Hshort. revert st.
  induction Hshort as [|e epochs He _ IH]; intros st Hp Hes Hfit.
  - cbn [fit] in Hfit. apply Ok_inj in Hfit as <-. cbn [length].
    split_and!; [done | lia | done..].
  - cbn [fit length] in *.
    apply bind_Ok in Hfit as (st1 & Hsteps & Hfit).
    apply bind_Ok in Hfit as (st2 & Hend & Hfit).
    destruct (run_steps_patient (e_steps e) 0 st st1)
      as (E1 & E2 & E3 & E4 & E5); [lia | lia | lia | done |].
    destruct (on_epoch_end_monitor hp args par (e_logs e) (e_eval e)
                (e_weights e) st1)
      as (st2' & Hend' & F1 & _ & _ & F2 & F3 & F4 & F5 & evs & F6 & F7).
    rewrite Hend' in Hend. apply Ok_inj in Hend as ->.
    rewrite F5, E1, Hes in Hfit.
    destruct (IH st2) as (G1 & G2 & G3 & G4 & G5); [lia | congruence | done |].
    rewrite G2, G3, G4, G5, F2, F3, F4, F6, triggers_app,
      (triggers_other _ F7), E2, E3, E4, E5.
    split_and!; [done | lia | done | done | lia].
Qed.

End Schedule.

(** * The parameters of [train] *)

Section TrainFacts.
Import Callback Trace.

Implicit Types (hp : hparams) (a : Train.train_args).




Lemma py_max_spec (l : list Z) (m : Z) :
  Train.py_max l = Some m -> m ∈ l /\ forall x, x ∈ l -> x <= m.
Proof.
  destruct l as [|x0 l]; [done|]. cbn [Train.py_max]. intros [= <-].
  revert x0. induction l as [|y l IH]; intros x0; cbn [foldl].
  - split; [by left|]. intros x ->%list_elem_of_singleton. lia.
  - destruct (IH (Z.max x0 y)) as [Hin Hle]. split.
    + apply elem_of_cons in Hin as [Hin|Hin]; [|by right; right].
      rewrite Hin. destruct (Z.max_spec x0 y) as [[_ ->]|[_ ->]];
        [right; left | left]; done.
    + intros x Hx. rewrite !elem_of_cons in Hx.
      destruct Hx as [->|[->|Hx]].
      * etrans; [|apply Hle; by left]. lia.
      * etrans; [|apply Hle; by left]. lia.
      * apply Hle. by right.
Qed.

(** X27: [train] cannot run without validation shards.  With
    [val_tfrecords] empty or [None], the local variable [validation_data] is
    never assigned, and reading it to build [cb_args] raises
    [UnboundLocalError], unless an earlier statement has already failed; in
    no case is [model.fit] reached.  Hence a callback created by [train]
    always has [using_validation] set, and its [steps_per_epoch] and
    [starting_epoch] are those of the call. *)
Theorem train_requires_validation hp (toplayer_epochs batch_size : Z) a
    (num_tiles : Z) :
  let outcome :=
    Train.parameters hp toplayer_epochs batch_size a num_tiles in
  (Model.nonempty (Train.val_tfrecords a) = false -> exists e, outcome = inl e) /\
  (Model.nonempty (Train.val_tfrecords a) = false ->
   hp_finetune_epochs hp <> [] -> batch_size <> 0 ->
   outcome = inl Train.UnboundLocalError) /\
  (forall c, outcome = inr c ->
     using_validation (Train.cb_args c) = true /\
     steps_per_epoch (Train.cb_args c) = Train.steps_per_epoch c /\
     starting_epoch (Train.cb_args c) = Train.starting_epoch a).
Proof.
  cbv zeta. unfold Train.parameters. split_and!.
  - intros ->. destruct (Train.py_max _); [|by eexists].
    destruct (Train.steps_of _ _ _); by eexists.
  - intros -> Hft Hbs. destruct (hp_finetune_epochs hp); [done|].
    cbn [Train.py_max]. unfold Train.steps_of.
    rewrite (proj2 (Z.eqb_neq _ _) Hbs).
    destruct (Train.steps_per_epoch_override a) as [n|]; [|done].
    by destruct (negb _).
  - intros c. destruct (Train.py_max _); [|done].
    destruct (Train.steps_of _ _ _); [|done].
    destruct (Model.nonempty (Train.val_tfrecords a)) eqn:Hval; [|done].
    by intros [= <-].
Qed.

Lemma train_requires_validation_witness :
  Train.parameters MonitorExamples.hp 0 16
    RunExamples.train_args_without_validation 1000
  = inl Train.UnboundLocalError.
Proof.
  destruct (train_requires_validation MonitorExamples.hp 0 16
    RunExamples.train_args_without_validation 1000) as (_ & H & _).
  by apply H.
Defined.

(** X28: an empty list of epochs passes the constructor and fails in
    [train].  For hyperparameters built with [finetune_epochs=[]] (which the
    assertions of the constructor accept), [train] raises the [ValueError] of
    [max] on an empty list, whatever its other arguments. *)
Theorem empty_finetune_epochs_fail (ha : init_args) (self : obj) hp
    (toplayer_epochs batch_size : Z) a (num_tiles : Z) :
  finetune_epochs ha = PList [] -> __init__ ha = Ok self ->
  view self = Some hp ->
  Train.parameters hp toplayer_epochs batch_size a num_tiles
  = inl Train.ValueError.
Proof.
  intros Hfe (_ & Hs & _)%init_Ok_inv Hview.
  pose proof (assign_fields_finetune_epochs _ _ Hs) as E.
  rewrite Hfe in E. cbn [isinstance_list] in E.
  assert (hp_finetune_epochs hp = []) as Hnil.
  { unfold view in Hview. rewrite E in Hview.
    repeat case_match; try done. injection Hview as <-.
    cbn [hp_finetune_epochs]. match goal with H : mapM _ [] = Some _ |- _ =>
      cbn in H; by injection H as <- end. }
  unfold Train.parameters. by rewrite Hnil.
Qed.

End TrainFacts.

Section TrainRun.
Import Callback Trace.

(** X29: where a run of [train] ends.  [train] asks [model.fit] for the
    epochs from [toplayer_epochs] to
    [toplayer_epochs + max(finetune_epochs) - starting_epoch]; without early
    stopping, the run therefore ends with [epoch_count] equal to the largest
    of [finetune_epochs], and the last model directory written is the one of
    that epoch.  When [starting_epoch] is not below that maximum, [train]
    only logs an error: the loop gets no epoch, nothing is saved and the
    results it returns are empty. *)
Theorem training_ends_at_last_checkpoint (hp : hparams) (par : parent)
    (toplayer_epochs batch_size num_tiles : Z) (a : Train.train_args)
    (c : Train.fit_call) (epochs : list epoch_input) (fs : file_system) st :
  Train.parameters hp toplayer_epochs batch_size a num_tiles = inr c ->
  hp_early_stop hp = false ->
  length epochs = Train.epochs_run c ->
  fit hp (Train.cb_args c) par epochs (init (Train.cb_args c) fs) = Ok st ->
  exists m, Train.py_max (hp_finetune_epochs hp) = Some m /\
    (Train.starting_epoch a < m ->
     epoch_count st = m /\
     last (saved (trace st)) = Some (model_path_at par m)) /\
    (m <= Train.starting_epoch a ->
     epochs = [] /\ saved (trace st) = [] /\ results st = ∅).
Proof.
  intros Hpar Hoff Hlen Hfit. unfold Train.parameters in Hpar.
  destruct (Train.py_max (hp_finetune_epochs hp)) as [m|] eqn:Hmax; [|done].
  destruct (Train.steps_of _ _ _) as [steps|]; [|done].
  destruct (Model.nonempty (Train.val_tfrecords a)); [|done].
  injection Hpar as <-. exists m. split; [done|].
  unfold Train.epochs_run in Hlen.
  cbn [Train.epochs Train.initial_epoch Train.cb_args] in *.
  destruct (py_max_spec _ _ Hmax) as [Hin _].
  split.
  - intros Hlt.
    pose proof (fun H => fit_schedule hp _ par epochs _ _ Hoff H Hfit) as Hsched.
    destruct (Hsched eq_refl) as [E1 E2].
    cbn [init epoch_count trace saved omap list_omap starting_epoch] in E1, E2.
    rewrite Hlen in E1, E2. split; [lia|].
    rewrite E2, app_nil_l.
    replace (Z.of_nat (Z.to_nat (toplayer_epochs + (m - Train.starting_epoch a)
                                 - toplayer_epochs)))
      with ((m - Train.starting_epoch a - 1) + 1) by lia.
    rewrite seqZ_app by lia.
    replace (Train.starting_epoch a + 1 + (m - Train.starting_epoch a - 1))
      with m by lia.
    rewrite (seqZ_cons m 1) by lia. rewrite (seqZ_nil _ (Z.pred 1)) by lia.
    rewrite filter_app, filter_cons, decide_True by done.
    rewrite filter_nil, fmap_app. cbn [fmap list_fmap]. apply last_snoc.
  - intros Hge.
    assert (epochs = []) as ->.
    { apply length_zero_iff_nil. rewrite Hlen. lia. }
    cbn [fit] in Hfit. apply Ok_inj in Hfit as <-. done.
Qed.

Lemma training_ends_at_last_checkpoint_witness :
  Train.parameters RunExamples.no_stop_hp 0 16 (RunExamples.train_args 1) 1600
    = inr RunExamples.resumed_call /\
  fit RunExamples.no_stop_hp (Train.cb_args RunExamples.resumed_call)
    MonitorExamples.par [RunExamples.plain_epoch; RunExamples.plain_epoch]
    (init (Train.cb_args RunExamples.resumed_call) MonitorExamples.run_dir)
    = Ok RunExamples.state_after_training /\
  epoch_count RunExamples.state_after_training = 3 /\
  last (saved (trace RunExamples.state_after_training))
    = Some "/out/model_epoch3".
Proof.
  assert (Train.parameters RunExamples.no_stop_hp 0 16
            (RunExamples.train_args 1) 1600 = inr RunExamples.resumed_call)
    as Hpar by (vm_compute; reflexivity).
  assert (fit RunExamples.no_stop_hp (Train.cb_args RunExamples.resumed_call)
            MonitorExamples.par [RunExamples.plain_epoch; RunExamples.plain_epoch]
            (init (Train.cb_args RunExamples.resumed_call) MonitorExamples.run_dir)
          = Ok RunExamples.state_after_training)
    as Hfit by (vm_compute; reflexivity).
  split; [exact Hpar|]. split; [exact Hfit|].
  destruct (training_ends_at_last_checkpoint RunExamples.no_stop_hp
              MonitorExamples.par 0 16 1600 (RunExamples.train_args 1)
              RunExamples.resumed_call
              [RunExamples.plain_epoch; RunExamples.plain_epoch]
              MonitorExamples.run_dir RunExamples.state_after_training
              Hpar eq_refl) as (m & Hm & Hlt & _);
    [reflexivity | exact Hfit |].
  vm_compute in Hm. injection Hm as <-.
  destruct Hlt as [He Hl]; [reflexivity|].
  split; [exact He | exact Hl].
Defined.

End TrainRun.

(** * Shard paths *)

Section ShardPaths.
Import Model.

Lemma index_slash (s : string) :
  String.index 0 "/" s = None <-> has_slash s = false.
Proof.
  induction s as [|c s IH]; [done|].
  cbn [has_slash String.index String.prefix].
  destruct (ascii_dec "/" c) as [<-|Hc].
  - rewrite bool_decide_eq_true_2 by done. by destruct s.
  - rewrite bool_decide_eq_false_2 by congruence. cbn [orb].
    rewrite <- IH. by destruct (String.index 0 "/" s).
Qed.

Lemma has_slash_app (s1 s2 : string) :
  has_slash (s1 ++ s2) = has_slash s1 || has_slash s2.
Proof.
  induction s1 as [|c s1 IH]; [done|].
  change (String c s1 ++ s2) with (String c (s1 ++ s2)).
  cbn [has_slash]. rewrite IH. by rewrite orb_assoc.
Qed.

Lemma last_component_no_slash (s : string) :
  has_slash s = false -> last_component s = s.
Proof.
  destruct s as [|c s]; [done|]. cbn [has_slash last_component].
  intros [Hc Hs]%orb_false_iff. rewrite Hc.
  apply index_slash in Hs. by rewrite bool_decide_eq_true_2.
Qed.

Lemma last_component_join (dir s : string) :
  has_slash s = false -> last_component (dir ++ "/" ++ s) = s.
Proof.
  intros Hs. induction dir as [|c dir IH].
  - change ("" ++ "/" ++ s) with (String "/" s). cbn [last_component].
    rewrite bool_decide_eq_true_2 by done. by apply last_component_no_slash.
  - change (String c dir ++ "/" ++ s) with (String c (dir ++ "/" ++ s)).
    cbn [last_component]. destruct (bool_decide (c = "/"%char)); [done|].
    rewrite bool_decide_eq_false_2; [done|].
    rewrite index_slash, has_slash_app. change ("/" ++ s) with (String "/" s).
    cbn [has_slash]. rewrite bool_decide_eq_true_2 by done.
    by rewrite orb_true_r.
Qed.

Lemma string_length_app (s1 s2 : string) :
  String.length (s1 ++ s2) = (String.length s1 + String.length s2)%nat.
Proof.
  induction s1 as [|c s1 IH]; [done|].
  change (String c s1 ++ s2) with (String c (s1 ++ s2)).
  cbn [String.length]. by rewrite IH.
Qed.

Lemma substring_prefix (s1 s2 : string) :
  String.substring 0 (String.length s1) (s1 ++ s2) = s1.
Proof.
  induction s1 as [|c s1 IH].
  - cbn [String.length]. by destruct ("" ++ s2).
  - change (String c s1 ++ s2) with (String c (s1 ++ s2)).
    cbn [String.length String.substring]. by rewrite IH.
Qed.

(** X30: the slide name of a shard.  [_save_manifest] recovers the slide from
    a shard path by taking what follows the last slash and dropping the last
    10 characters: for a slide name without a slash this gives back the name,
    whatever the directory, and whatever the 10 characters of the suffix are
    (['.tfrecords'] or not); a file name of at most 10 characters gives the
    empty slide name. *)
Theorem slide_of_roundtrip (dir name suffix : string) :
  has_slash name = false -> has_slash suffix = false ->
  (String.length suffix = 10%nat ->
   slide_of (dir ++ "/" ++ name ++ suffix) = name /\
   slide_of (name ++ suffix) = name) /\
  ((String.length (name ++ suffix) <= 10)%nat ->
   slide_of (dir ++ "/" ++ name ++ suffix) = "").
Proof.
  intros Hname Hsuffix.
  assert (has_slash (name ++ suffix) = false) as Hfile
    by by rewrite has_slash_app, Hname, Hsuffix.
  unfold slide_of. rewrite last_component_join, last_component_no_slash by done.
  unfold drop_last_10. split.
  - intros Hlen. rewrite string_length_app, Hlen, Nat.add_sub.
    by rewrite substring_prefix.
  - intros Hlen. replace (String.length (name ++ suffix) - 10)%nat with 0%nat
      by lia.
    by destruct (name ++ suffix).
Qed.

Lemma slide_of_roundtrip_witness :
  slide_of "/data/run 1/slideA.tfrecords" = "slideA".
Proof.
  destruct (slide_of_roundtrip "/data/run 1" "slideA" ".tfrecords") as [H _];
    [reflexivity | reflexivity |].
  by destruct H as [H _].
Defined.

End ShardPaths.

(** * Examples of the properties of the callback *)

Section CallbackWitnesses.
Import Callback Trace.

Lemma early_stop_never_cleared_witness :
  exists st',
    run MonitorExamples.hp MonitorExamples.args MonitorExamples.par
      (MonitorExamples.checks_from 1 [3%Q])
      (set_early_stop true (init MonitorExamples.args ∅)) = Ok st' /\
    early_stop st' = true.
Proof.
  assert (exists st',
            run MonitorExamples.hp MonitorExamples.args MonitorExamples.par
              (MonitorExamples.checks_from 1 [3%Q])
              (set_early_stop true (init MonitorExamples.args ∅)) = Ok st')
    as [st' Hrun] by (vm_compute; eexists; reflexivity).
  exists st'. split; [exact Hrun|].
  by destruct (early_stop_never_cleared _ _ _ _ _ _ Hrun eq_refl).
Defined.

Lemma run_counters_witness :
  exists st,
    run MonitorExamples.hp MonitorExamples.args MonitorExamples.par
      (MonitorExamples.checks_from 1 (take 3 MonitorExamples.losses)
       ++ [EpochEnd (MonitorExamples.with_loss 1) MonitorExamples.evaluation_5
             "weights"])
      (init MonitorExamples.args ∅) = Ok st /\
    epoch_count st = 1 /\ checks (trace st) = 3%nat.
Proof.
  assert (exists st,
            run MonitorExamples.hp MonitorExamples.args MonitorExamples.par
              (MonitorExamples.checks_from 1 (take 3 MonitorExamples.losses)
               ++ [EpochEnd (MonitorExamples.with_loss 1)
                     MonitorExamples.evaluation_5 "weights"])
              (init MonitorExamples.args ∅) = Ok st)
    as [st Hrun] by (vm_compute; eexists; reflexivity).
  exists st. split; [exact Hrun|].
  exact (run_counters _ _ _ _ _ _ Hrun).
Defined.

Lemma disabled_early_stop_never_triggers_witness :
  exists st,
    run RunExamples.no_stop_hp MonitorExamples.args MonitorExamples.par
      (MonitorExamples.checks_from 1 MonitorExamples.losses)
      (init MonitorExamples.args ∅) = Ok st /\
    early_stop st = false /\ triggers (trace st) = 0%nat.
Proof.
  assert (exists st,
            run RunExamples.no_stop_hp MonitorExamples.args MonitorExamples.par
              (MonitorExamples.checks_from 1 MonitorExamples.losses)
              (init MonitorExamples.args ∅) = Ok st)
    as [st Hrun] by (vm_compute; eexists; reflexivity).
  exists st. split; [exact Hrun|].
  destruct (disabled_early_stop_never_triggers RunExamples.no_stop_hp
              MonitorExamples.args MonitorExamples.par _ _ _ eq_refl Hrun)
    as (Hes & _ & _ & Htr).
  split; [exact Hes | exact Htr].
Defined.

Lemma undefined_metric_window_grows_witness :
  exists st,
    run MonitorExamples.linear_hp MonitorExamples.args MonitorExamples.par
      (MonitorExamples.checks_from 1 MonitorExamples.losses)
      (init MonitorExamples.args ∅) = Ok st /\
    length (moving_average st) = 14%nat.
Proof.
  assert (exists st,
            run MonitorExamples.linear_hp MonitorExamples.args
              MonitorExamples.par
              (MonitorExamples.checks_from 1 MonitorExamples.losses)
              (init MonitorExamples.args ∅) = Ok st)
    as [st Hrun] by (vm_compute; eexists; reflexivity).
  exists st. split; [exact Hrun|].
  exact (undefined_metric_window_grows MonitorExamples.linear_hp
           MonitorExamples.args MonitorExamples.par _ _ _ eq_refl Hrun).
Defined.

Lemma trigger_needs_observations_witness :
  exists st,
    run MonitorExamples.hp MonitorExamples.args MonitorExamples.par
      (MonitorExamples.checks_from 1 (take 13 MonitorExamples.losses))
      (init MonitorExamples.args ∅) = Ok st /\
    early_stop st = true /\ 8 <= Z.of_nat (checks (trace st)).
Proof.
  assert (exists st,
            run MonitorExamples.hp MonitorExamples.args MonitorExamples.par
              (MonitorExamples.checks_from 1 (take 13 MonitorExamples.losses))
              (init MonitorExamples.args ∅) = Ok st /\ early_stop st = true)
    as (st & Hrun & Hes) by (vm_compute; eexists; split; reflexivity).
  exists st. split; [exact Hrun|]. split; [exact Hes|].
  destruct (trigger_needs_observations _ _ _ _ _ _ Hrun) as (_ & _ & H).
  exact (H Hes).
Defined.

Lemma check_fails_only_on_missing_loss_witness :
  on_train_batch_end MonitorExamples.hp MonitorExamples.args 1
    (MonitorExamples.with_loss 1) ∅ (init MonitorExamples.args ∅)
  = Raise KeyError.
Proof.
  apply (check_fails_only_on_missing_loss MonitorExamples.hp
           MonitorExamples.args); [reflexivity | discriminate |].
  split; [reflexivity|]. split; [reflexivity|]. left. reflexivity.
Defined.

Lemma first_check_needs_positive_observations_witness :
  on_train_batch_end MonitorExamples.hp RunExamples.no_window_args 1
    (MonitorExamples.with_loss 1) (MonitorExamples.with_loss 3)
    (init RunExamples.no_window_args ∅)
  = Raise ZeroDivisionError.
Proof.
  apply (first_check_needs_positive_observations MonitorExamples.hp
           RunExamples.no_window_args);
    [discriminate | reflexivity | reflexivity | by eexists | by eexists
    | reflexivity | reflexivity].
Defined.

Lemma zero_steps_never_seeds_witness :
  on_train_batch_end MonitorExamples.hp RunExamples.no_steps_args 2
    (MonitorExamples.with_loss 1) (MonitorExamples.with_loss 9)
    (set_moving_average [10%Q] (init RunExamples.no_steps_args ∅))
  = Raise ZeroDivisionError.
Proof.
  destruct (zero_steps_never_seeds MonitorExamples.hp RunExamples.no_steps_args
              MonitorExamples.par eq_refl eq_refl) as [_ H].
  apply (H 2 (MonitorExamples.with_loss 1) (MonitorExamples.with_loss 9) 9%Q
           1%Q); reflexivity.
Defined.

Lemma short_epochs_never_check_witness :
  exists st',
    fit MonitorExamples.hp (Train.cb_args RunExamples.resumed_call)
      MonitorExamples.par [RunExamples.plain_epoch]
      (init (Train.cb_args RunExamples.resumed_call) ∅) = Ok st' /\
    early_stop st' = false /\ checks (trace st') = 0%nat.
Proof.
  destruct (short_epochs_never_check MonitorExamples.hp
              (Train.cb_args RunExamples.resumed_call) MonitorExamples.par
              [RunExamples.plain_epoch]
              (init (Train.cb_args RunExamples.resumed_call) ∅))
    as (st' & Hfit & Hes & _ & _ & _ & Hchecks & _).
  - apply List.Forall_cons; [discriminate | apply List.Forall_nil].
  - exists st'. split; [exact Hfit|]. split; [exact Hes | exact Hchecks].
Defined.

Lemma checkpoint_schedule_witness :
  saved (trace RunExamples.state_after_training) = ["/out/model_epoch3"].
Proof.
  destruct (checkpoint_schedule RunExamples.no_stop_hp
              (Train.cb_args RunExamples.resumed_call) MonitorExamples.par
              [RunExamples.plain_epoch; RunExamples.plain_epoch]
              MonitorExamples.run_dir RunExamples.state_after_training eq_refl)
    as [_ H]; [vm_compute; reflexivity|].
  rewrite H. vm_compute. reflexivity.
Defined.

Lemma patience_is_honoured_witness :
  exists st,
    fit RunExamples.patient_hp MonitorExamples.args MonitorExamples.par
      [MonitorExamples.epoch] (init MonitorExamples.args ∅) = Ok st /\
    early_stop st = false /\ epoch_count st = 1.
Proof.
  assert (exists st,
            fit RunExamples.patient_hp MonitorExamples.args MonitorExamples.par
              [MonitorExamples.epoch] (init MonitorExamples.args ∅) = Ok st)
    as [st Hfit] by (vm_compute; eexists; reflexivity).
  exists st. split; [exact Hfit|].
  destruct (patience_is_honoured RunExamples.patient_hp MonitorExamples.args
              MonitorExamples.par [MonitorExamples.epoch]
              (init MonitorExamples.args ∅) st) as (Hes & Hep & _).
  - apply List.Forall_cons; [discriminate | apply List.Forall_nil].
  - discriminate.
  - reflexivity.
  - exact Hfit.
  - split; [exact Hes | exact Hep].
Defined.

Lemma empty_finetune_epochs_fail_witness :
  exists self hp,
    __init__ RunExamples.empty_epochs_args = Ok self /\
    view self = Some hp /\
    Train.parameters hp 0 16 (RunExamples.train_args 0) 1600
    = inl Train.ValueError.
Proof.
  destruct (init_succeeds RunExamples.empty_epochs_args) as [self Hself];
    [by vm_compute..|].
  destruct (constructed_view _ _ Hself) as (hp & Hview & _).
  exists self, hp. split; [exact Hself|]. split; [exact Hview|].
  by apply (empty_finetune_epochs_fail RunExamples.empty_epochs_args self hp
              0 16 _ 1600 eq_refl Hself).
Defined.

End CallbackWitnesses.
